(** * Retail-Threat-Detection: the scoring pipeline and the dashboard filters

    A shallow embedding of [src/dataExploration.py] (the feature and
    scoring pipeline) and of the filter, count, detail and export logic of
    [src/dashboard.py], with the properties of the specification stated
    and proved over it.

    Conventions of the embedding.
    - A data frame is a list of rows, in the data frame's row order; a
      row is a record (or a pair of a key and its measures).
    - A finite float is an exact rational ([Q]); the non-finite floats
      are the extra constructors of [fval].  Rounding is not modelled.
    - Library code whose result the pipeline only passes along (the date
      parser, the square root, the fitted anomaly detector, the SQL
      engine's comparison of a number with [TRUE]) is a [Variable] of the
      section that uses it. *)

From Stdlib Require Import String Ascii Bool ZArith QArith Qround List.
From Stdlib Require Import DecimalString.
From Stdlib Require Import Lia Lqa Permutation Sorted.
Import ListNotations.

Close Scope Q_scope.
Close Scope string_scope.

Set Implicit Arguments.

(* ================================================================== *)
(** * Generic list machinery: stable sorting *)
(* ================================================================== *)

Section StableSort.
Context {A : Type}.
Variable leb : A -> A -> bool.

(** Insertion in front of the first element not below [x]: an element
    inserted from the left stays before its equals, so folding the
    insertion from the right is a stable sort. *)
Fixpoint insert_sorted (x : A) (l : list A) : list A :=
  match l with
  | [] => [x]
  | y :: t => if leb x y then x :: y :: t else y :: insert_sorted x t
  end.

Fixpoint stable_sort (l : list A) : list A :=
  match l with
  | [] => []
  | x :: t => insert_sorted x (stable_sort t)
  end.
End StableSort.

(* ================================================================== *)
(** * Keys: the pair (user, date) as read from the CSV files *)
(* ================================================================== *)

(** Both key columns are strings when the aggregates are merged (the date
    column is parsed only afterwards). *)
Definition key : Type := (string * string)%type.

Definition key_eq_dec (a b : key) : {a = b} + {a <> b}.
Proof. decide equality; apply string_dec. Defined.

Definition key_eqb (a b : key) : bool :=
  if key_eq_dec a b then true else false.

(** Lexicographic order on keys: by user, then by date. *)
Definition key_leb (a b : key) : bool :=
  match String.compare (fst a) (fst b) with
  | Lt => true
  | Gt => false
  | Eq => String.leb (snd a) (snd b)
  end.

(** The distinct values of a column, sorted. *)
Definition sorted_distinct {K} (eq_dec : forall a b : K, {a = b} + {a <> b})
  (leb : K -> K -> bool) (ks : list K) : list K :=
  stable_sort leb (nodup eq_dec ks).

(** The group keys of a [groupby]: the distinct keys, sorted. *)
Definition group_keys (ks : list key) : list key :=
  sorted_distinct key_eq_dec key_leb ks.

(* ================================================================== *)
(** * The feature pipeline: aggregation and outer join
      ([src/dataExploration.py], lines 8-41) *)
(* ================================================================== *)

(** ** Raw events

    A cell that [read_csv] may leave empty is an [option]; the key
    columns are always present ([groupby] drops the rows that have no
    key). *)

Record LogonEvent := {
  lg_user : string;
  lg_date : string;
  lg_activity : option string
}.

Record HttpEvent := {
  ht_user : string;
  ht_date : string;
  ht_url : option string;
  ht_bytes_sent : option Q;
  ht_bytes_received : option Q
}.

Record DeviceEvent := {
  dv_user : string;
  dv_date : string;
  dv_activity : option string
}.

Definition lg_key (e : LogonEvent) : key := (lg_user e, lg_date e).
Definition ht_key (e : HttpEvent) : key := (ht_user e, ht_date e).
Definition dv_key (e : DeviceEvent) : key := (dv_user e, dv_date e).

(** ** Aggregations of [agg] *)

(** ['count']: the number of non-empty cells. *)
Definition non_empty {A} (c : option A) : bool :=
  match c with
  | Some _ => true
  | None => false
  end.

Definition agg_count {A} (cells : list (option A)) : Q :=
  inject_Z (Z.of_nat (List.length (filter non_empty cells))).

(** ['sum']: the sum of the non-empty cells. *)
Definition agg_sum (cells : list (option Q)) : Q :=
  fold_right (fun c acc =>
                match c with
                | Some v => Qplus v acc
                | None => acc
                end) 0%Q cells.

(** ['sum'] on a column of the file.  A column that [read_csv] types
    int64 (every cell a whole number of 64 bits, none missing) is summed
    in int64, and the sum wraps around; any other column is float64 and
    is summed here exactly (the rounding of a double is not modelled). *)
Definition wrap_int64 (z : Z) : Z :=
  ((z + 9223372036854775808) mod 18446744073709551616 - 9223372036854775808)%Z.

Definition is_int64 (c : option Q) : bool :=
  match c with
  | Some q =>
      Qeq_bool q (inject_Z (Qfloor q)) &&
      Z.leb (-9223372036854775808) (Qfloor q) &&
      Z.leb (Qfloor q) 9223372036854775807
  | None => false
  end.

Definition column_sum (column cells : list (option Q)) : Q :=
  if forallb is_int64 column
  then inject_Z (wrap_int64 (Qfloor (agg_sum cells)))
  else agg_sum cells.

(** [df.groupby(['user','date']).agg(...).reset_index()]: one row per
    distinct key, keys sorted, the aggregate taken over the events of the
    key. *)
Definition groupby {E V} (kf : E -> key) (agg : list E -> V) (evs : list E)
  : list (key * V) :=
  map (fun k => (k, agg (filter (fun e => key_eqb (kf e) k) evs)))
      (group_keys (map kf evs)).

Definition logon_agg (logon_df : list LogonEvent) : list (key * Q) :=
  groupby lg_key (fun g => agg_count (map lg_activity g)) logon_df.

(** The three http measures: [http_requests], [http_bytes_sent],
    [http_bytes_received]. *)
Definition http_agg (http_df : list HttpEvent) : list (key * (Q * Q * Q)) :=
  groupby ht_key
    (fun g => (agg_count (map ht_url g),
               column_sum (map ht_bytes_sent http_df) (map ht_bytes_sent g),
               column_sum (map ht_bytes_received http_df)
                 (map ht_bytes_received g)))
    http_df.

Definition device_agg (device_df : list DeviceEvent) : list (key * Q) :=
  groupby dv_key (fun g => agg_count (map dv_activity g)) device_df.

(** ** [pd.merge(left, right, on=['user','date'], how='outer')]

    For every key of either frame, in sorted key order: the matching rows
    of the two frames are paired (all pairs when a key is repeated); a
    key missing on one side gives rows whose cells of that side are
    empty. *)
Definition rows_of {V} (k : key) (df : list (key * V)) : list V :=
  map snd (filter (fun r => key_eqb (fst r) k) df).

Definition merge_key {A B} (k : key) (ls : list A) (rs : list B)
  : list (key * (option A * option B)) :=
  match ls, rs with
  | [], _ => map (fun b => (k, (None, Some b))) rs
  | _, [] => map (fun a => (k, (Some a, None))) ls
  | _, _ => flat_map (fun a => map (fun b => (k, (Some a, Some b))) rs) ls
  end.

Definition merge_outer {A B} (left : list (key * A)) (right : list (key * B))
  : list (key * (option A * option B)) :=
  flat_map (fun k => merge_key k (rows_of k left) (rows_of k right))
           (group_keys (map fst left ++ map fst right)).

(** ** The merged frame *)

Record MergedRow := {
  user : string;
  date : string;
  logon_count : Q;
  http_requests : Q;
  http_bytes_sent : Q;
  http_bytes_received : Q;
  device_activity_count : Q
}.

(** [fillna(0)]: an empty cell becomes 0. *)
Definition fillna0 (c : option Q) : Q :=
  match c with Some v => v | None => 0%Q end.

(** The cells of one row of
    [reduce(merge, [logon_agg, http_agg, device_agg])]: the left side of
    the second merge is a row of the first. *)
Definition merged_cells : Type :=
  (option (option Q * option (Q * Q * Q)) * option Q)%type.

Definition cell_logon (c : merged_cells) : option Q :=
  match fst c with Some (l, _) => l | None => None end.

Definition cell_http (c : merged_cells) : option (Q * Q * Q) :=
  match fst c with Some (_, h) => h | None => None end.

Definition cell_device (c : merged_cells) : option Q := snd c.

Definition fill_row (r : key * merged_cells) : MergedRow :=
  let c := snd r in
  {| user := fst (fst r);
     date := snd (fst r);
     logon_count := fillna0 (cell_logon c);
     http_requests := fillna0 (option_map (fun h => fst (fst h)) (cell_http c));
     http_bytes_sent := fillna0 (option_map (fun h => snd (fst h)) (cell_http c));
     http_bytes_received := fillna0 (option_map (fun h => snd h) (cell_http c));
     device_activity_count := fillna0 (cell_device c) |}.

Definition merged_raw (logon_df : list LogonEvent) (http_df : list HttpEvent)
  (device_df : list DeviceEvent) : list (key * merged_cells) :=
  merge_outer (merge_outer (logon_agg logon_df) (http_agg http_df))
              (device_agg device_df).

(** [merged_df] after line 41. *)
Definition merged_df (logon_df : list LogonEvent) (http_df : list HttpEvent)
  (device_df : list DeviceEvent) : list MergedRow :=
  map fill_row (merged_raw logon_df http_df device_df).

Definition row_key (r : MergedRow) : key := (user r, date r).


(* ================================================================== *)
(** * Floats with their non-finite values *)
(* ================================================================== *)

Inductive fval :=
| Fin (q : Q)
| PInf
| NInf
| NaN.

(** Float division as numpy performs it on a column: no exception, a
    zero divisor gives an infinity, or not-a-number when the dividend is
    zero too. *)
Definition fdiv (a b : fval) : fval :=
  match a, b with
  | NaN, _ => NaN
  | _, NaN => NaN
  | Fin x, Fin y =>
      if Qeq_bool y 0 then
        match Qcompare x 0 with
        | Eq => NaN
        | Gt => PInf
        | Lt => NInf
        end
      else Fin (x / y)
  | Fin _, _ => Fin 0
  | PInf, Fin y => if Qle_bool 0 y then PInf else NInf
  | NInf, Fin y => if Qle_bool 0 y then NInf else PInf
  | _, _ => NaN
  end.

(* ================================================================== *)
(** * Timestamps and the [.dt] accessors (lines 44-51) *)
(* ================================================================== *)

(** A parsed date: the day number (days since 1970-01-01) and the time
    of day in seconds since midnight. *)
Record Timestamp := {
  ts_days : Z;
  ts_secs : Z
}.

Definition dt_hour (t : Timestamp) : Z := ts_secs t / 3600.
Definition dt_minute (t : Timestamp) : Z := (ts_secs t mod 3600) / 60.
(** Monday=0, Sunday=6; 1970-01-01 was a Thursday. *)
Definition dt_weekday (t : Timestamp) : Z := (ts_days t + 3) mod 7.

Definition ts_leb (a b : Timestamp) : bool :=
  match Z.compare (ts_days a) (ts_days b) with
  | Lt => true
  | Gt => false
  | Eq => Z.leb (ts_secs a) (ts_secs b)
  end.

(** [lambda x: 1 if x < 5 else 0] *)
Definition is_working_day_of (x : Z) : Z := if Z.ltb x 5 then 1 else 0.

(** [lambda h: 1 if (h < 7 or h > 19) else 0] *)
Definition is_off_hours_of (h : Z) : Z :=
  if Z.ltb h 7 || Z.ltb 19 h then 1 else 0.

(* ================================================================== *)
(** * Per-user baselines, spikes and the rolling mean (lines 54-82) *)
(* ================================================================== *)

Definition Qsum (xs : list Q) : Q := fold_right Qplus 0%Q xs.

Definition Qlen (xs : list Q) : Q := inject_Z (Z.of_nat (List.length xs)).

(** The arithmetic mean (of a non-empty list; every group and every
    rolling window is non-empty). *)
Definition mean (xs : list Q) : Q := (Qsum xs / Qlen xs)%Q.

(** The sample variance, with [n - 1] in the denominator, as [std] of a
    [groupby] uses it. *)
Definition var_sample (xs : list Q) : Q :=
  let m := mean xs in
  (Qsum (map (fun x => (x - m) * (x - m)) xs) / (Qlen xs - 1))%Q.

(** [x.rolling(w, min_periods=1).mean()]: the window holds the last [w]
    values seen; a mean is produced as soon as it holds one. *)
Definition keep_last {A} (w : nat) (l : list A) : list A :=
  skipn (List.length l - w) l.

Fixpoint rolling_mean_from (w : nat) (win : list Q) (xs : list Q) : list Q :=
  match xs with
  | [] => []
  | x :: t =>
      let win' := keep_last w (win ++ [x]) in
      mean win' :: rolling_mean_from w win' t
  end.

Definition rolling_mean (w : nat) (xs : list Q) : list Q :=
  rolling_mean_from w [] xs.

Definition user_rows (u : string) (df : list MergedRow) : list MergedRow :=
  filter (fun r => String.eqb (user r) u) df.

(** [df.groupby('user')[col].transform(f)]: [f] is applied to the column
    of each user's rows, in row order, and its results go back to the
    positions of those rows.  [seen] are the rows before the current
    one. *)
Fixpoint transform_from (f : list Q -> list Q) (col : MergedRow -> Q)
  (df seen rest : list MergedRow) : list Q :=
  match rest with
  | [] => []
  | r :: t =>
      nth (List.length (user_rows (user r) seen))
          (f (map col (user_rows (user r) df))) 0%Q
      :: transform_from f col df (seen ++ [r]) t
  end.

Definition transform_by_user (f : list Q -> list Q) (col : MergedRow -> Q)
  (df : list MergedRow) : list Q :=
  transform_from f col df [] df.

Definition missing_flag (v : Q) : Z := if Qeq_bool v 0 then 1 else 0.

(** A row of the frame after line 82.  [year], [month], [day] and
    [week_of_month], which no later line reads, are left out. *)
Record FeatureRow := {
  base : MergedRow;
  date_ts : Timestamp;
  weekday : Z;
  hour : Z;
  minute : Z;
  is_working_day : Z;
  logon_count_mean : Q;
  logon_count_std : fval;
  http_requests_mean : Q;
  http_requests_std : fval;
  device_activity_count_mean : Q;
  device_activity_count_std : fval;
  logon_spike : fval;
  http_spike : fval;
  device_spike : fval;
  device_http_ratio : Q;
  logon_http_ratio : Q;
  is_off_hours : Z;
  logon_rolling_3 : Q;
  logon_delta : Q;
  http_missing : Z;
  device_missing : Z;
  logon_missing : Z
}.

Section Features.

(** [pd.to_datetime] on one cell of the date column. *)
Variable to_datetime : string -> Timestamp.

(** The square root of a finite non-negative float. *)
Variable sqrtQ : Q -> Q.

(** ['std'] of a group: not-a-number for fewer than two rows. *)
Definition std (xs : list Q) : fval :=
  if (List.length xs <? 2)%nat then NaN else Fin (sqrtQ (var_sample xs)).

(** The baseline of a row's user over [df] (lines 54-61) and the z-score
    (lines 62-64), for one count column. *)
Definition baseline_mean (col : MergedRow -> Q) (df : list MergedRow)
  (r : MergedRow) : Q :=
  mean (map col (user_rows (user r) df)).

Definition baseline_std (col : MergedRow -> Q) (df : list MergedRow)
  (r : MergedRow) : fval :=
  std (map col (user_rows (user r) df)).

Definition spike (col : MergedRow -> Q) (df : list MergedRow)
  (r : MergedRow) : fval :=
  fdiv (Fin (col r - baseline_mean col df r)) (baseline_std col df r).

(** [sort_values(['user', 'date'])], the date column holding timestamps. *)
Definition row_leb (a b : MergedRow) : bool :=
  match String.compare (user a) (user b) with
  | Lt => true
  | Gt => false
  | Eq => ts_leb (to_datetime (date a)) (to_datetime (date b))
  end.

Definition sort_values (df : list MergedRow) : list MergedRow :=
  stable_sort row_leb df.

(** All the columns of one row: [df] is the merged frame (the baselines
    are taken over it), [r] the row and [roll] its rolling mean. *)
Definition feature_row (df : list MergedRow) (r : MergedRow) (roll : Q)
  : FeatureRow :=
  let t := to_datetime (date r) in
  {| base := r;
     date_ts := t;
     weekday := dt_weekday t;
     hour := dt_hour t;
     minute := dt_minute t;
     is_working_day := is_working_day_of (dt_weekday t);
     logon_count_mean := baseline_mean logon_count df r;
     logon_count_std := baseline_std logon_count df r;
     http_requests_mean := baseline_mean http_requests df r;
     http_requests_std := baseline_std http_requests df r;
     device_activity_count_mean := baseline_mean device_activity_count df r;
     device_activity_count_std := baseline_std device_activity_count df r;
     logon_spike := spike logon_count df r;
     http_spike := spike http_requests df r;
     device_spike := spike device_activity_count df r;
     device_http_ratio := (device_activity_count r / (http_requests r + 1))%Q;
     logon_http_ratio := (logon_count r / (http_requests r + 1))%Q;
     is_off_hours := is_off_hours_of (dt_hour t);
     logon_rolling_3 := roll;
     logon_delta := (logon_count r - roll)%Q;
     http_missing := missing_flag (http_requests r);
     device_missing := missing_flag (device_activity_count r);
     logon_missing := missing_flag (logon_count r) |}.

(** The frame after line 82: sorted by user and date, every column
    added. *)
Definition features (df : list MergedRow) : list FeatureRow :=
  let sorted := sort_values df in
  map (fun p => feature_row df (fst p) (snd p))
      (combine sorted (transform_by_user (rolling_mean 3) logon_count sorted)).

End Features.

(* ================================================================== *)
(** * Scoring: risk score, quantile thresholds and risk level
      (lines 85-139) *)
(* ================================================================== *)

Definition Qlt_bool (x y : Q) : bool :=
  match Qcompare x y with
  | Lt => true
  | _ => false
  end.

(** [Series.quantile(q)] with linear interpolation: on the sorted values
    [a], at the position [q * (n - 1)], between [a[floor]] and the next
    value (the last one when there is none).  [None] is the
    not-a-number of an empty series. *)
Definition quantile (q : Q) (xs : list Q) : option Q :=
  let a := stable_sort Qle_bool xs in
  match a with
  | [] => None
  | a0 :: _ =>
      let pos := (q * (Qlen a - 1))%Q in
      let lo := Qfloor pos in
      let hi := Z.min (lo + 1) (Z.of_nat (List.length a) - 1) in
      let x := nth (Z.to_nat lo) a a0 in
      let y := nth (Z.to_nat hi) a a0 in
      Some (x + (y - x) * (pos - inject_Z lo))%Q
  end.

(** The interpolated value at position [pos] of a sorted list. *)
Definition interp (a : list Q) (a0 : Q) (pos : Q) : Q :=
  let lo := Qfloor pos in
  let hi := Z.min (lo + 1) (Z.of_nat (List.length a) - 1) in
  let x := nth (Z.to_nat lo) a a0 in
  let y := nth (Z.to_nat hi) a a0 in
  (x + (y - x) * (pos - inject_Z lo))%Q.

Inductive RiskLevel :=
| Low
| Medium
| High.

(** The name written into the [risk_level] column. *)
Definition level_name (l : RiskLevel) : string :=
  match l with
  | Low => "Low"%string
  | Medium => "Medium"%string
  | High => "High"%string
  end.

(** The position of a level in [RISK_LEVEL_ORDER = ['Low', 'Medium',
    'High']]. *)
Definition level_rank (l : RiskLevel) : nat :=
  match l with
  | Low => 0
  | Medium => 1
  | High => 2
  end.

(** [classify_risk], with the two module-level thresholds it reads as
    arguments. *)
Definition classify_risk (low_thresh high_thresh score : Q) : RiskLevel :=
  if Qlt_bool score low_thresh then Low
  else if Qlt_bool score high_thresh then Medium
  else High.

Definition QZ (z : Z) : fval := Fin (inject_Z z).

(** [features_to_keep]: the sixteen columns of the training matrix. *)
Definition X_row (f : FeatureRow) : list fval :=
  [ Fin (logon_count (base f));
    Fin (http_requests (base f));
    Fin (http_bytes_sent (base f));
    Fin (http_bytes_received (base f));
    Fin (device_activity_count (base f));
    logon_spike f;
    http_spike f;
    device_spike f;
    Fin (device_http_ratio f);
    Fin (logon_http_ratio f);
    QZ (hour f);
    QZ (weekday f);
    QZ (is_working_day f);
    QZ (is_off_hours f);
    Fin (logon_rolling_3 f);
    Fin (logon_delta f) ].

Record ScoredRow := {
  feat : FeatureRow;
  anomaly : Z;
  anomaly_score : Q;
  risk_score : Q;
  risk_level : RiskLevel
}.

Section Scoring.

(** The scaler and the isolation forest, fitted on the matrix [X]:
    [predict] and [decision_function] at one row of it. *)
Variable predict : list (list fval) -> list fval -> Z.
Variable decision_function : list (list fval) -> list fval -> Q.

(** Lines 124-127: the frame with [anomaly], [anomaly_score] and
    [risk_score], before the level is assigned. *)
Definition risk_scores (fs : list FeatureRow) : list Q :=
  let X := map X_row fs in
  map (fun f => (- decision_function X (X_row f))%Q) fs.

(** [low_thresh] and [high_thresh] (lines 128-129). *)
Definition low_thresh (fs : list FeatureRow) : option Q :=
  quantile (75 # 100) (risk_scores fs).

Definition high_thresh (fs : list FeatureRow) : option Q :=
  quantile (95 # 100) (risk_scores fs).

Definition scored_row (X : list (list fval)) (lo hi : Q) (f : FeatureRow)
  : ScoredRow :=
  let a := decision_function X (X_row f) in
  {| feat := f;
     anomaly := predict X (X_row f);
     anomaly_score := a;
     risk_score := (- a)%Q;
     risk_level := classify_risk lo hi (- a)%Q |}.

(** The scored frame (line 139).  The thresholds are not-a-number only
    for a frame without rows, which has no row to classify. *)
Definition score (fs : list FeatureRow) : list ScoredRow :=
  match low_thresh fs, high_thresh fs with
  | Some lo, Some hi => map (scored_row (map X_row fs) lo hi) fs
  | _, _ => []
  end.

End Scoring.

(* ================================================================== *)
(** * The dashboard ([src/dashboard.py]) *)
(* ================================================================== *)

(** ** The loaded table

    A spike cell of the CSV file is typed by the engine when the file is
    loaded: a BOOLEAN, a DOUBLE or NULL. *)
Inductive cell :=
| CBool (b : bool)
| CNum (v : fval)
| CNull.

(** The columns of [user_data] that the dashboard names; the date column
    is a DATE (its day number). *)
Record DashRow := {
  d_date : Z;
  d_user : string;
  d_risk_level : string;
  d_risk_score : Q;
  d_logon_count : Q;
  d_http_requests : Q;
  d_device_activity_count : Q;
  d_logon_spike : cell;
  d_http_spike : cell;
  d_device_spike : cell;
  d_hour : Z;
  d_weekday : Z
}.

Definition RISK_LEVEL_ORDER : list string :=
  ["Low"; "Medium"; "High"]%string.

(** ** The sidebar widgets *)

Record Inputs := {
  date_range : list Z;  (* the tuple of [date_input]: 0, 1 or 2 dates *)
  selected_users : list string;
  selected_risk_levels : list string;
  filter_logon_spike : bool;
  filter_http_spike : bool;
  filter_device_spike : bool
}.

(** ** Conditions of the WHERE clause *)

Inductive SpikeCol :=
| LogonSpike
| HttpSpike
| DeviceSpike.

Inductive Cond :=
| DateBetween (start_date end_date : Z)
    (* date >= '{start_date}' AND date <= '{end_date}' *)
| UserIn (users : list string)
    (* user IN ('u1', 'u2', ...) *)
| RiskLevelIn (levels : list string)
    (* risk_level IN ('l1', ...) *)
| RiskLevelEq (level : string)
    (* risk_level = 'l' *)
| SpikeIsTrue (c : SpikeCol).
    (* logon_spike = TRUE, http_spike = TRUE, device_spike = TRUE *)

Definition spike_col_name (c : SpikeCol) : string :=
  match c with
  | LogonSpike => "logon_spike"%string
  | HttpSpike => "http_spike"%string
  | DeviceSpike => "device_spike"%string
  end.

Definition spike_cell (c : SpikeCol) (r : DashRow) : cell :=
  match c with
  | LogonSpike => d_logon_spike r
  | HttpSpike => d_http_spike r
  | DeviceSpike => d_device_spike r
  end.

(** [", ".join(f"'{x}'" for x in xs)] *)
Definition quoted_list (xs : list string) : string :=
  String.concat ", "%string (map (fun x => ("'" ++ x ++ "'")%string) xs).

Definition string_in (x : string) (xs : list string) : bool :=
  existsb (String.eqb x) xs.

(** The script escapes nothing (lines 197 and 210): a name goes between
    two single quotes as it is, so the text of an [IN] list reads as the
    list of its names only when no name holds a single quote. *)
Definition quote_free (s : string) : bool :=
  forallb (fun c => negb (Ascii.eqb c "'"%char)) (list_ascii_of_string s).

Definition plain_names (xs : list string) : bool := forallb quote_free xs.

(** The text of a date in an f-string: [YYYY-MM-DD], from the day
    number. *)
Definition civil_from_days (days : Z) : Z * Z * Z :=
  (let z := days + 719468 in
   let era := z / 146097 in
   let doe := z - era * 146097 in
   let yoe := (doe - doe / 1460 + doe / 36524 - doe / 146096) / 365 in
   let doy := doe - (365 * yoe + yoe / 4 - yoe / 100) in
   let mp := (5 * doy + 2) / 153 in
   let d := doy - (153 * mp + 2) / 5 + 1 in
   let m := if mp <? 10 then mp + 3 else mp - 9 in
   let y := yoe + era * 400 in
   (if m <=? 2 then y + 1 else y, m, d))%Z.

Definition decimal (z : Z) : string :=
  NilZero.string_of_uint (N.to_uint (Z.to_N z)).

Definition pad (width : nat) (s : string) : string :=
  (string_of_list_ascii (repeat "0"%char (width - String.length s)) ++ s)%string.

Definition date_iso (days : Z) : string :=
  let '(y, m, d) := civil_from_days days in
  (pad 4 (decimal y) ++ "-" ++ pad 2 (decimal m) ++ "-" ++ pad 2 (decimal d))%string.

(** The SQL text of a condition and of the clause built at lines
    226-229. *)
Definition cond_sql (c : Cond) : string :=
  match c with
  | DateBetween s e =>
      "date >= '" ++ date_iso s ++ "' AND date <= '" ++ date_iso e ++ "'"
  | UserIn us => "user IN (" ++ quoted_list us ++ ")"
  | RiskLevelIn ls => "risk_level IN (" ++ quoted_list ls ++ ")"
  | RiskLevelEq l => "risk_level = '" ++ l ++ "'"
  | SpikeIsTrue c => spike_col_name c ++ " = TRUE"
  end%string.

Definition where_clause (conds : list Cond) : string :=
  match conds with
  | [] => EmptyString
  | _ => ("WHERE " ++ String.concat " AND " (map cond_sql conds))%string
  end.

(** Lines 177-224: the conditions appended to [query_conditions], in
    order. *)
Definition date_pair (inp : Inputs) : option (Z * Z) :=
  match date_range inp with
  | [start_date; end_date] => Some (start_date, end_date)
  | _ => None  (* len(date_range) != 2 *)
  end.

Definition date_conditions (inp : Inputs) : list Cond :=
  match date_pair inp with
  | Some (start_date, end_date) => [DateBetween start_date end_date]
  | None => []
  end.

Definition user_conditions (inp : Inputs) : list Cond :=
  match selected_users inp with
  | [] => []
  | us => [UserIn us]
  end.

Definition risk_conditions (inp : Inputs) : list Cond :=
  match selected_risk_levels inp with
  | [] => []
  | ls => [RiskLevelIn ls]
  end.

Definition spike_conditions (inp : Inputs) : list Cond :=
  (if filter_logon_spike inp then [SpikeIsTrue LogonSpike] else []) ++
  (if filter_http_spike inp then [SpikeIsTrue HttpSpike] else []) ++
  (if filter_device_spike inp then [SpikeIsTrue DeviceSpike] else []).

Definition ticked (c : SpikeCol) (inp : Inputs) : bool :=
  match c with
  | LogonSpike => filter_logon_spike inp
  | HttpSpike => filter_http_spike inp
  | DeviceSpike => filter_device_spike inp
  end.

Definition query_conditions (inp : Inputs) : list Cond :=
  date_conditions inp ++ user_conditions inp ++ risk_conditions inp
  ++ spike_conditions inp.

(** The same widgets with another selection in one multi-select. *)
Definition with_users (inp : Inputs) (us : list string) : Inputs :=
  {| date_range := date_range inp;
     selected_users := us;
     selected_risk_levels := selected_risk_levels inp;
     filter_logon_spike := filter_logon_spike inp;
     filter_http_spike := filter_http_spike inp;
     filter_device_spike := filter_device_spike inp |}.


(** ** Output of one render

    What a run puts on the page, as far as it depends on the data:
    messages, the header with the record count, the KPI cards, the
    charts with the frame they draw, the detail table and the download
    buttons with their rows.  Titles, tab headers, rulers and the
    widgets themselves are left out. *)

Inductive ChartData :=
| LevelCounts (d : list (string * Q))
| DateCounts (d : list (Z * nat))
| UserCounts (d : list (string * nat))
| Scores (d : list Q)
| DailySums (d : list (Z * Q))
| HourCounts (d : list (Z * nat))
| WeekdayCounts (d : list (string * nat)).

Inductive Output :=
| Error (msg : string)
| SidebarWarning (msg : string)
| Warning (msg : string)
| Info (msg : string)
| Subheader (records : nat)
| Metric (label : string) (value : Q)
| DateRangeCard (start_date end_date : Z)
| Chart (title : string) (data : ChartData)
| Dataframe (rows : list DashRow)
| DownloadButton (file_name : string) (rows : list DashRow).

(** The content of a render: a KPI, a chart, the detail table or an
    export. *)
Definition is_content (o : Output) : bool :=
  match o with
  | Subheader _ | Metric _ _ | DateRangeCard _ _ | Chart _ _
  | Dataframe _ | DownloadButton _ _ => true
  | Error _ | SidebarWarning _ | Warning _ | Info _ => false
  end.

Definition is_table_or_export (o : Output) : bool :=
  match o with
  | Dataframe _ | DownloadButton _ _ => true
  | _ => false
  end.

(** How a script run ends: at its last line, at [st.stop()], or with
    an uncaught exception. *)
Inductive Status :=
| Completed
| Stopped
| Raised (exn : string).

(** A script run: what it has put on the page, and either the status it
    ended with or the value it goes on with. *)
Definition Run (A : Type) : Type := (list Output * (Status + A))%type.

Definition ret {A} (a : A) : Run A := ([], inr a).

Definition bind {A B} (m : Run A) (f : A -> Run B) : Run B :=
  match m with
  | (o, inl s) => (o, inl s)
  | (o, inr a) => let (o', r) := f a in (o ++ o', r)
  end.

Definition emit (o : Output) : Run unit := ([o], inr tt).
Definition st_stop {A} : Run A := ([], inl Stopped).
Definition raise {A} (exn : string) : Run A := ([], inl (Raised exn)).

Declare Scope run_scope.
Delimit Scope run_scope with run.
Notation "x <- m ;; k" := (bind m (fun x => k))
  (at level 61, m at next level, right associativity) : run_scope.
Notation "m ;; k" := (bind m (fun _ => k))
  (at level 61, right associativity) : run_scope.

Definition outputs {A} (m : Run A) : list Output := fst m.

Definition status (m : Run unit) : Status :=
  match snd m with
  | inl s => s
  | inr _ => Completed
  end.

(** ** Sorting and grouping helpers of the queries *)

(** [SELECT k, COUNT( * ) ... GROUP BY k ORDER BY k] *)
Definition group_count {K} (eq_dec : forall a b : K, {a = b} + {a <> b})
  (leb : K -> K -> bool) (kf : DashRow -> K) (rows : list DashRow)
  : list (K * nat) :=
  map (fun k => (k, List.length (filter (fun r => if eq_dec (kf r) k then true else false) rows)))
      (sorted_distinct eq_dec leb (map kf rows)).

Definition weekday_name (d : Z) : string :=
  match d with
  | 0%Z => "Monday" | 1%Z => "Tuesday" | 2%Z => "Wednesday"
  | 3%Z => "Thursday" | 4%Z => "Friday" | 5%Z => "Saturday"
  | 6%Z => "Sunday" | _ => "nan"
  end%string.

Section Dashboard.

(** The engine's [x = TRUE] on a cell of a DOUBLE column. *)
Variable num_is_true : fval -> bool.

(** [col = TRUE]: NULL compares to nothing. *)
Definition cell_is_true (c : cell) : bool :=
  match c with
  | CBool b => b
  | CNum v => num_is_true v
  | CNull => false
  end.

(** The engine's reading of a condition.  For the two [IN] lists it is
    the reading of the text when every name is [quote_free]; the text of
    a list with a quote in a name is not the list of its names. *)
Definition eval_cond (c : Cond) (r : DashRow) : bool :=
  match c with
  | DateBetween s e => Z.leb s (d_date r) && Z.leb (d_date r) e
  | UserIn us => string_in (d_user r) us
  | RiskLevelIn ls => string_in (d_risk_level r) ls
  | RiskLevelEq l => String.eqb (d_risk_level r) l
  | SpikeIsTrue c => cell_is_true (spike_cell c r)
  end.

(** The WHERE clause: the conjunction of its conditions; no condition,
    no clause. *)
Definition eval_where (w : list Cond) (r : DashRow) : bool :=
  forallb (fun c => eval_cond c r) w.

(** [SELECT * FROM user_data {where_clause}] *)
Definition select_rows (w : list Cond) (t : list DashRow) : list DashRow :=
  filter (eval_where w) t.

(** [SELECT COUNT( * ) FROM user_data {where_clause}]: the aggregate
    counts the rows that pass the clause as the table is scanned. *)
Definition count_rows (w : list Cond) (t : list DashRow) : nat :=
  fold_left (fun n r => if eval_where w r then S n else n) t 0%nat.

(** [where_clause + ' AND ...'], or ['WHERE ...'] alone when the clause
    is empty: one more condition in both cases. *)
Definition and_cond (w : list Cond) (c : Cond) : list Cond := w ++ [c].

(** Line 187-189: the distinct users of the rows in the date range. *)
Definition all_users (t : list DashRow) (inp : Inputs) : list string :=
  sorted_distinct string_dec String.leb
    (map d_user (select_rows (date_conditions inp) t)).

(** The KPI query (lines 244-251). *)
Definition total_unique_users (rows : list DashRow) : Q :=
  inject_Z (Z.of_nat (List.length (nodup string_dec (map d_user rows)))).

Definition total_high_risk_events (rows : list DashRow) : Q :=
  Qsum (map (fun r => if String.eqb (d_risk_level r) "High" then 1%Q else 0%Q) rows).

(** [AVG(risk_score)], taken exactly: the rounding of the engine's
    double and the two decimals of the card (line 265) are not
    modelled. *)
Definition avg_risk_score (rows : list DashRow) : Q :=
  mean (map d_risk_score rows).

(** Lines 287-302: the counts per level, left-joined onto
    [RISK_LEVEL_ORDER] and zero-filled. *)
Definition risk_level_counts (rows : list DashRow) : list (string * Q) :=
  let counts := group_count string_dec String.leb d_risk_level rows in
  map (fun l =>
         (l, match find (fun p => String.eqb (fst p) l) counts with
             | Some p => inject_Z (Z.of_nat (snd p))
             | None => 0%Q
             end))
      RISK_LEVEL_ORDER.

(** [ORDER BY "High Risk Events" DESC LIMIT 10], over the groups in user
    order (the engine fixes no order among equal counts). *)
Definition top_users (rows : list DashRow) : list (string * nat) :=
  firstn 10
    (stable_sort (fun a b => Nat.leb (snd b) (snd a))
       (group_count string_dec String.leb d_user rows)).

(** [ORDER BY risk_score DESC LIMIT 1000] *)
Definition flagged_details (w : list Cond) (t : list DashRow) : list DashRow :=
  firstn 1000
    (stable_sort (fun a b => Qle_bool (d_risk_score b) (d_risk_score a))
       (select_rows (and_cond w (RiskLevelIn ["High"; "Medium"]%string)) t)).

(** [df.to_excel]: pandas refuses a frame of more than 2^20 rows. *)
Definition excel_max_rows : Z := 1048576.

Definition sheet_too_large {A} (df : list A) : bool :=
  Z.ltb excel_max_rows (Z.of_nat (List.length df)).

(** [SELECT date, SUM(logon_count), ..., SUM(device_activity_count) ...
    GROUP BY date ORDER BY date]: the two columns that are charted. *)
Definition daily_sums (col : DashRow -> Q) (rows : list DashRow) : list (Z * Q) :=
  map (fun d => (d, Qsum (map col (filter (fun r => Z.eqb (d_date r) d) rows))))
      (sorted_distinct Z.eq_dec Z.leb (map d_date rows)).

Local Open Scope run_scope.
Local Open Scope string_scope.

(** A chart, or the placeholder when its query returned no row. *)
Definition chart_or_info {K} (rows : list K) (title : string)
  (data : ChartData) (placeholder : string) : Run unit :=
  match rows with
  | [] => emit (Info placeholder)
  | _ => emit (Chart title data)
  end.

(** Tab 1, lines 283-384. *)
Definition tab_overview (w : list Cond) (t : list DashRow) : Run unit :=
  let high := select_rows (and_cond w (RiskLevelEq "High")) t in
  let daily := group_count Z.eq_dec Z.leb d_date high in
  let top := top_users high in
  let scores := map d_risk_score (select_rows w t) in
  emit (Chart "Distribution of Risk Levels"
          (LevelCounts (risk_level_counts (select_rows w t)))) ;;
  chart_or_info daily "Daily High Risk Events Over Time" (DateCounts daily)
    "No high-risk events found for time series analysis with current filters." ;;
  chart_or_info top "Top 10 Users by High Risk Events" (UserCounts top)
    "No high-risk events found for top user analysis with current filters." ;;
  chart_or_info scores "Distribution of Risk Scores" (Scores scores)
    "No risk score data to display with current filters.".

(** Tab 2, lines 387-421. *)
Definition tab_flagged (w : list Cond) (t : list DashRow)
  (filtered_row_count : nat) : Run unit :=
  match flagged_details w t with
  | [] => emit (Info "No High or Medium risk events to display with current filters.")
  | rows =>
      emit (Dataframe rows) ;;
      if Nat.ltb 1000 filtered_row_count
      then emit (Info "Showing the top 1000 events by risk score. Apply more filters to see specific events.")
      else ret tt
  end.

(** Tab 3, lines 423-530. *)
Definition tab_trends (w : list Cond) (t : list DashRow) : Run unit :=
  let rows := select_rows w t in
  let high := select_rows (and_cond w (RiskLevelEq "High")) t in
  let by_hour := group_count Z.eq_dec Z.leb d_hour high in
  let by_weekday := group_count Z.eq_dec Z.leb d_weekday high in
  match sorted_distinct Z.eq_dec Z.leb (map d_date rows) with
  | [] => emit (Info "No daily activity data to display with current filters.")
  | _ =>
      emit (Chart "Daily Logon Count Trend" (DailySums (daily_sums d_logon_count rows))) ;;
      emit (Chart "Daily Device Activity Count Trend"
              (DailySums (daily_sums d_device_activity_count rows)))
  end ;;
  chart_or_info by_hour "High Risk Events by Hour of Day" (HourCounts by_hour)
    "No high-risk events to analyze by hour with current filters." ;;
  chart_or_info by_weekday "High Risk Events by Day of Week"
    (WeekdayCounts (map (fun p => (weekday_name (fst p), snd p)) by_weekday))
    "No high-risk events to analyze by weekday with current filters.".

(** Tab 4, lines 564-593: the export re-issues [base_query].  The CSV
    button is on the page before the workbook is written (line 583), and
    [to_excel] raises a ValueError on a frame of more rows than a sheet
    holds. *)
Definition tab_export (w : list Cond) (t : list DashRow) : Run unit :=
  match select_rows w t with
  | [] => emit (Info "No data to export with the current filters.")
  | df_export =>
      emit (DownloadButton "filtered_user_risk_analysis.csv" df_export) ;;
      if sheet_too_large df_export
      then raise "ValueError"
      else emit (DownloadButton "filtered_user_risk_analysis.xlsx" df_export)
  end.

(** Lines 243-275: the KPI row.  The fourth card formats [start_date]
    and [end_date], names that exist only when the date range had two
    dates. *)
Definition kpis (w : list Cond) (t : list DashRow) (inp : Inputs)
  (filtered_row_count : nat) : Run unit :=
  let rows := select_rows w t in
  emit (Subheader filtered_row_count) ;;
  emit (Metric "Total Unique Users" (total_unique_users rows)) ;;
  emit (Metric "High Risk Events" (total_high_risk_events rows)) ;;
  emit (Metric "Avg. Risk Score" (avg_risk_score rows)) ;;
  match date_pair inp with
  | Some (start_date, end_date) => emit (DateRangeCard start_date end_date)
  | None => raise "NameError"
  end.

(** Lines 226-241 and everything after: the count query, the halt on an
    empty result, then the KPIs and the four tabs. *)
Definition render_filtered (w : list Cond) (t : list DashRow) (inp : Inputs)
  : Run unit :=
  let filtered_row_count := count_rows w t in
  match filtered_row_count with
  | O =>
      emit (Warning "No data matches the selected filters. Please adjust your selections.") ;;
      st_stop
  | _ =>
      kpis w t inp filtered_row_count ;;
      tab_overview w t ;;
      tab_flagged w t filtered_row_count ;;
      tab_trends w t ;;
      tab_export w t
  end.

(** Lines 155-224: the connection, the date bounds and the sidebar; the
    value is the list [query_conditions]. *)
Definition sidebar (t : list DashRow) (inp : Inputs) : Run (list Cond) :=
  match t with
  | [] => raise "ValueError"  (* strptime of the MIN(date) of no row *)
  | _ =>
      match date_pair inp with
      | Some _ => ret tt
      | None => emit (SidebarWarning "Please select a valid date range.")
      end ;;
      match selected_users inp, all_users t inp with
      | [], [] =>
          emit (Warning "No users found for the selected date range. Please adjust filters.") ;;
          st_stop
      | _, _ => ret tt
      end ;;
      ret (query_conditions inp)
  end.

(** One run of the script; [con] is [None] when the table could not be
    loaded. *)
Definition render (con : option (list DashRow)) (inp : Inputs) : Run unit :=
  match con with
  | None =>
      emit (Error "An error occurred while setting up DuckDB or loading data") ;;
      st_stop
  | Some t =>
      w <- sidebar t inp ;;
      render_filtered w t inp
  end.

(** ** The pieces of a render, named *)

(** The KPI row but for its last card. *)
Definition kpi_outputs (w : list Cond) (t : list DashRow) : list Output :=
  let rows := select_rows w t in
  [ Subheader (count_rows w t);
    Metric "Total Unique Users" (total_unique_users rows);
    Metric "High Risk Events" (total_high_risk_events rows);
    Metric "Avg. Risk Score" (avg_risk_score rows) ].

(** The outputs of the four tabs, in order. *)
Definition tab_outputs (w : list Cond) (t : list DashRow) : list Output :=
  fst (tab_overview w t) ++
  fst (tab_flagged w t (count_rows w t)) ++
  fst (tab_trends w t) ++
  fst (tab_export w t).

End Dashboard.

(** A run that goes on and shows neither a table nor an export. *)
Definition quiet (m : Run unit) : Prop :=
  snd m = inr tt /\ Forall (fun o => is_table_or_export o = false) (fst m).

(** What the sidebar and the halts put on the page. *)
Definition sidebar_warnings (inp : Inputs) : list Output :=
  match date_pair inp with
  | Some _ => []
  | None => [SidebarWarning "Please select a valid date range."]
  end.

Definition no_users_warning : Output :=
  Warning "No users found for the selected date range. Please adjust filters.".

Definition no_data_warning : Output :=
  Warning "No data matches the selected filters. Please adjust your selections.".

(* ================================================================== *)
(** * Concrete instances, for running the definitions *)
(* ================================================================== *)

(** ** A date parser for [YYYY-MM-DD] and [YYYY-MM-DD HH:MM:SS] *)

Definition digit (c : ascii) : Z := (Z.of_N (N_of_ascii c) - 48)%Z.

Fixpoint number_from (acc : Z) (s : string) : Z :=
  match s with
  | EmptyString => acc
  | String c t => number_from (acc * 10 + digit c)%Z t
  end.

Definition field (i n : nat) (s : string) : Z :=
  number_from 0%Z (substring i n s).

(** The day number of a date of the proleptic Gregorian calendar. *)
Definition days_from_civil (y m d : Z) : Z :=
  (let y' := if m <=? 2 then y - 1 else y in
   let era := y' / 400 in
   let yoe := y' - era * 400 in
   let mp := (m + 9) mod 12 in
   let doy := (153 * mp + 2) / 5 + d - 1 in
   let doe := yoe * 365 + yoe / 4 - yoe / 100 + doy in
   era * 146097 + doe - 719468)%Z.

Definition iso_datetime (s : string) : Timestamp :=
  {| ts_days := days_from_civil (field 0 4 s) (field 5 2 s) (field 8 2 s);
     ts_secs := (field 11 2 s * 3600 + field 14 2 s * 60 + field 17 2 s)%Z |}.

(** ** A square root on the rationals: exact on the squares, rounded
    down elsewhere, and zero only at zero *)

Definition sqrt_floor (x : Q) : Q :=
  Qmake (Z.sqrt (Qnum x * Zpos (Qden x))) (Qden x).

(** ** A stand-in for the fitted detector: the more logons, the more
    anomalous *)

Definition toy_decision_function (X : list (list fval)) (x : list fval) : Q :=
  match x with
  | Fin v :: _ => (- v / 10)%Q
  | _ => 0%Q
  end.

Definition toy_predict (X : list (list fval)) (x : list fval) : Z :=
  if Qlt_bool (toy_decision_function X x) (- (4 # 10))%Q then (-1)%Z else 1%Z.

(** ** Sample logs *)

Local Open Scope string_scope.

Definition logon (u d : string) : LogonEvent :=
  {| lg_user := u; lg_date := d; lg_activity := Some "Logon" |}.

Definition http (u d : string) (sent received : Q) : HttpEvent :=
  {| ht_user := u; ht_date := d; ht_url := Some "http://example.com";
     ht_bytes_sent := Some sent; ht_bytes_received := Some received |}.

Definition device (u d : string) : DeviceEvent :=
  {| dv_user := u; dv_date := d; dv_activity := Some "Connect" |}.

(** alice logs on 1, 1, 1 and 5 times on four days; bob twice on each of
    two days; carol only browses and plugs a device in. *)
Definition sample_logon : list LogonEvent :=
  [ logon "alice" "2010-01-04";
    logon "alice" "2010-01-05";
    logon "alice" "2010-01-06";
    logon "alice" "2010-01-07"; logon "alice" "2010-01-07";
    logon "alice" "2010-01-07"; logon "alice" "2010-01-07";
    logon "alice" "2010-01-07";
    logon "bob" "2010-01-04"; logon "bob" "2010-01-04";
    logon "bob" "2010-01-05"; logon "bob" "2010-01-05" ].

Definition sample_http : list HttpEvent :=
  [ http "alice" "2010-01-04" 100 2000;
    http "carol" "2010-01-04" 10 20;
    http "carol" "2010-01-04" 30 40;
    http "carol" "2010-01-05" 50 60 ].

Definition sample_device : list DeviceEvent :=
  [ device "carol" "2010-01-05";
    device "bob" "2010-01-05" ].

Definition sample_merged : list MergedRow :=
  merged_df sample_logon sample_http sample_device.

Definition sample_features : list FeatureRow :=
  features iso_datetime sqrt_floor sample_merged.

Definition sample_scored : list ScoredRow :=
  score toy_predict toy_decision_function sample_features.

Local Close Scope string_scope.

Definition default_merged_row : MergedRow :=
  {| user := EmptyString; date := EmptyString; logon_count := 0;
     http_requests := 0; http_bytes_sent := 0; http_bytes_received := 0;
     device_activity_count := 0 |}.

Definition default_feature_row : FeatureRow :=
  feature_row iso_datetime sqrt_floor [] default_merged_row 0.

Definition default_scored_row : ScoredRow :=
  scored_row toy_predict toy_decision_function [] 0 0 default_feature_row.

(** The [i]-th row of a sample frame. *)
Definition sample_merged_row (i : nat) : MergedRow :=
  nth i sample_merged default_merged_row.

Definition sample_feature_row (i : nat) : FeatureRow :=
  nth i sample_features default_feature_row.

Definition sample_scored_row (i : nat) : ScoredRow :=
  nth i sample_scored default_scored_row.

(** ** A sample table for the dashboard

    The export of the scored frame to the CSV file is not part of the
    two scripts.  [dash_row_of] is the row that the engine loads when the
    frame is written as it is: the date as a DATE, the level by its name,
    every number, the spikes among them, as a DOUBLE. *)
Definition dash_row_of (r : ScoredRow) : DashRow :=
  let f := feat r in
  {| d_date := ts_days (date_ts f);
     d_user := user (base f);
     d_risk_level := level_name (risk_level r);
     d_risk_score := risk_score r;
     d_logon_count := logon_count (base f);
     d_http_requests := http_requests (base f);
     d_device_activity_count := device_activity_count (base f);
     d_logon_spike := CNum (logon_spike f);
     d_http_spike := CNum (http_spike f);
     d_device_spike := CNum (device_spike f);
     d_hour := hour f;
     d_weekday := weekday f |}.

Definition sample_table : list DashRow := map dash_row_of sample_scored.

(** A comparison of a DOUBLE with [TRUE] that reads [TRUE] as 1. *)
Definition num_is_one (v : fval) : bool :=
  match v with
  | Fin q => Qeq_bool q 1
  | _ => false
  end.

(** The widgets as the page first shows them (every user, every level,
    no flag), over the dates of the sample. *)
Definition sample_inputs : Inputs :=
  {| date_range := [14613; 14616]%Z;
     selected_users := ["alice"; "bob"; "carol"]%string;
     selected_risk_levels := RISK_LEVEL_ORDER;
     filter_logon_spike := false;
     filter_http_spike := false;
     filter_device_spike := false |}.

(** A selection that no row passes: carol at level High. *)
Definition sample_inputs_no_match : Inputs :=
  {| date_range := [14613; 14616]%Z;
     selected_users := ["carol"]%string;
     selected_risk_levels := ["High"]%string;
     filter_logon_spike := false;
     filter_http_spike := false;
     filter_device_spike := false |}.

(** A table with a level that [classify_risk] does not write, and the
    first page over it with no level selected. *)
Definition level_row (l : string) : DashRow :=
  {| d_date := 14613%Z; d_user := "amy"%string; d_risk_level := l;
     d_risk_score := 0; d_logon_count := 1; d_http_requests := 0;
     d_device_activity_count := 0;
     d_logon_spike := CNull; d_http_spike := CNull; d_device_spike := CNull;
     d_hour := 0%Z; d_weekday := 0%Z |}.


Definition other_level_inputs : Inputs :=
  {| date_range := [14613; 14613]%Z;
     selected_users := ["amy"]%string;
     selected_risk_levels := [];
     filter_logon_spike := false;
     filter_http_spike := false;
     filter_device_spike := false |}.


(* ================================================================== *)
(** * More of the two scripts *)
(* ================================================================== *)

(** The events of a key in each log. *)
Definition logon_events (k : key) (logon_df : list LogonEvent) :=
  filter (fun e => key_eqb (lg_key e) k) logon_df.
Definition http_events (k : key) (http_df : list HttpEvent) :=
  filter (fun e => key_eqb (ht_key e) k) http_df.
Definition device_events (k : key) (device_df : list DeviceEvent) :=
  filter (fun e => key_eqb (dv_key e) k) device_df.

(** Line 71: [lambda d: (d - 1) // 7 + 1], the week of the month of a
    day of the month. *)
Definition week_of_month_of (d : Z) : Z := ((d - 1) / 7 + 1)%Z.

(** Lines 144-146: the High rows by descending risk score, and the five
    that [head()] prints.  Rows of equal score are kept in frame order;
    [sort_values] fixes no order among them. *)
Definition is_high (r : ScoredRow) : bool :=
  match risk_level r with
  | High => true
  | _ => false
  end.

Definition top_risks (scored : list ScoredRow) : list ScoredRow :=
  stable_sort (fun a b => Qle_bool (risk_score b) (risk_score a))
    (filter is_high scored).

Definition top_5_risks (scored : list ScoredRow) : list ScoredRow :=
  firstn 5 (top_risks scored).

(** A sidebar with one more spike checkbox ticked. *)
Definition tick (c : SpikeCol) (inp : Inputs) : Inputs :=
  {| date_range := date_range inp;
     selected_users := selected_users inp;
     selected_risk_levels := selected_risk_levels inp;
     filter_logon_spike :=
       match c with LogonSpike => true | _ => filter_logon_spike inp end;
     filter_http_spike :=
       match c with HttpSpike => true | _ => filter_http_spike inp end;
     filter_device_spike :=
       match c with DeviceSpike => true | _ => filter_device_spike inp end |}.

(** The placeholders of the charts and of the export that are drawn from
    the filtered rows themselves. *)
Definition is_unfiltered_placeholder (o : Output) : bool :=
  match o with
  | Info msg =>
      String.eqb msg "No risk score data to display with current filters."
      || String.eqb msg "No daily activity data to display with current filters."
      || String.eqb msg "No data to export with the current filters."
  | _ => false
  end.

(** The number of rows of a frame that satisfy a test. *)
Definition count_if {A} (p : A -> bool) (l : list A) : nat :=
  List.length (filter p l).

Definition Qnat (n : nat) : Q := inject_Z (Z.of_nat n).

(** A log with a single event, of a user seen once. *)
Definition lone_logon : list LogonEvent :=
  [ {| lg_user := "dave"; lg_date := "2010-01-04";
       lg_activity := Some "Logon"%string |} ]%string.

Definition lone_features : list FeatureRow :=
  features iso_datetime sqrt_floor (merged_df lone_logon [] []).

(** The tests of the filter groups on one row. *)
Definition date_ok (inp : Inputs) (r : DashRow) : Prop :=
  match date_pair inp with
  | Some (s, e) => (s <= d_date r <= e)%Z
  | None => True
  end.

Definition user_ok (inp : Inputs) (r : DashRow) : Prop :=
  selected_users inp = [] \/ In (d_user r) (selected_users inp).

Definition level_ok (inp : Inputs) (r : DashRow) : Prop :=
  selected_risk_levels inp = [] \/
  In (d_risk_level r) (selected_risk_levels inp).

Definition level_is (l : string) (r : DashRow) : bool :=
  String.eqb (d_risk_level r) l.

Definition user_is (u : string) (r : DashRow) : bool :=
  String.eqb (d_user r) u.

(** The test of a [GROUP BY]: the row belongs to the group of [k]. *)
Definition key_is {K} (eq_dec : forall a b : K, {a = b} + {a <> b})
  (kf : DashRow -> K) (k : K) (r : DashRow) : bool :=
  if eq_dec (kf r) k then true else false.

(** The three count columns of the merged frame, the ones that get a
    baseline and a spike (lines 54-64). *)
Inductive CountCol :=
| LogonCount
| HttpRequests
| DeviceActivityCount.

Definition count_col (c : CountCol) : MergedRow -> Q :=
  match c with
  | LogonCount => logon_count
  | HttpRequests => http_requests
  | DeviceActivityCount => device_activity_count
  end.

(** The first page with only one date picked in the date range, and
    nothing selected in the two multi-selects. *)
Definition sample_inputs_one_date : Inputs :=
  {| date_range := [14613%Z];
     selected_users := [];
     selected_risk_levels := [];
     filter_logon_spike := false;
     filter_http_spike := false;
     filter_device_spike := false |}.

(** How the engine reads the text of an [IN] list.  A string literal
    runs from a single quote to the next single quote that is not
    doubled, and a doubled quote in it stands for one quote.
    [sql_literal] reads the text after the opening quote: the value, and
    the text after the closing quote. *)
Fixpoint sql_literal (s : string) : option (string * string) :=
  match s with
  | EmptyString => None
  | String c rest =>
      if Ascii.eqb c "'"%char then
        match rest with
        | String c' rest' =>
            if Ascii.eqb c' "'"%char
            then option_map (fun p => (String "'"%char (fst p), snd p))
                            (sql_literal rest')
            else Some (EmptyString, rest)
        | EmptyString => Some (EmptyString, rest)
        end
      else option_map (fun p => (String c (fst p), snd p)) (sql_literal rest)
  end.

(** The literals of a list written as the script writes it, one comma
    and one space between two literals; [None] when the text is not such
    a list. *)
Fixpoint sql_literals_from (fuel : nat) (s : string) : option (list string) :=
  match fuel with
  | O => None
  | S fuel' =>
      match s with
      | String q body =>
          if Ascii.eqb q "'"%char then
            match sql_literal body with
            | Some (v, EmptyString) => Some [v]
            | Some (v, String c1 (String c2 rest)) =>
                if Ascii.eqb c1 ","%char && Ascii.eqb c2 " "%char
                then option_map (cons v) (sql_literals_from fuel' rest)
                else None
            | _ => None
            end
          else None
      | EmptyString => None
      end
  end.

Definition sql_literals (s : string) : option (list string) :=
  match s with
  | EmptyString => Some []
  | _ => sql_literals_from (String.length s) s
  end.

(** The number of single quotes of a name. *)
Fixpoint quotes (s : string) : nat :=
  match s with
  | EmptyString => O
  | String c rest => (if Ascii.eqb c "'"%char then 1 else 0) + quotes rest
  end.

(** A table of one row more than a sheet holds: 1,048,577 copies of a
    row. *)
Definition big_table : list DashRow :=
  repeat (level_row "Low"%string) (Pos.to_nat 1048577).
(* ================================================================== *)
(** * Facts about stable sorting *)
(* ================================================================== *)

Section StableSortFacts.
Context {A : Type}.
Variable leb : A -> A -> bool.

Lemma insert_sorted_perm x l : Permutation (x :: l) (insert_sorted leb x l).
Proof.
  induction l as [|y t IH]; simpl; [reflexivity|].
  destruct (leb x y); [reflexivity|].
  rewrite perm_swap. now apply perm_skip.
Qed.

Lemma stable_sort_perm l : Permutation l (stable_sort leb l).
Proof.
  induction l as [|x t IH]; simpl; [constructor|].
  rewrite <- insert_sorted_perm. now apply perm_skip.
Qed.

Lemma stable_sort_length l : length (stable_sort leb l) = length l.
Proof. symmetry. apply Permutation_length, stable_sort_perm. Qed.

Lemma stable_sort_In x l : In x (stable_sort leb l) <-> In x l.
Proof.
  split; apply Permutation_in;
    [symmetry|]; apply stable_sort_perm.
Qed.

Hypothesis leb_total : forall a b, leb a b = true \/ leb b a = true.
Hypothesis leb_trans :
  forall a b c, leb a b = true -> leb b c = true -> leb a c = true.

Lemma insert_sorted_sorted x l :
  StronglySorted (fun a b => leb a b = true) l ->
  StronglySorted (fun a b => leb a b = true) (insert_sorted leb x l).
Proof.
  induction 1 as [|y t Ht IH Hy]; simpl.
  - repeat constructor.
  - destruct (leb x y) eqn:E.
    + constructor; [now constructor|].
      constructor; [exact E|].
      rewrite Forall_forall in *. intros z Hz. eauto.
    + constructor; [exact IH|].
      rewrite Forall_forall in *. intros z Hz.
      apply (Permutation_in _ (Permutation_sym (insert_sorted_perm x t))) in Hz.
      destruct Hz as [<-|Hz]; [|now apply Hy].
      destruct (leb_total x y) as [H|H]; congruence.
Qed.

Lemma stable_sort_sorted l :
  StronglySorted (fun a b => leb a b = true) (stable_sort leb l).
Proof.
  induction l; simpl; [constructor|now apply insert_sorted_sorted].
Qed.
End StableSortFacts.

(** Filtering keeps a list strongly sorted. *)
Lemma StronglySorted_filter {A} (R : A -> A -> Prop) (p : A -> bool) l :
  StronglySorted R l -> StronglySorted R (filter p l).
Proof.
  induction 1 as [|x t Ht IH Hx]; simpl; [constructor|].
  destruct (p x); [|exact IH].
  constructor; [exact IH|].
  rewrite Forall_forall in *. intros y Hy.
  apply filter_In in Hy. now apply Hx.
Qed.

(** In a strongly sorted list an earlier element is related to a later one. *)
Lemma StronglySorted_nth {A} (R : A -> A -> Prop) (d : A) l :
  StronglySorted R l ->
  forall i j, (i < j < length l)%nat -> R (nth i l d) (nth j l d).
Proof.
  induction 1 as [|x t Ht IH Hx]; simpl; intros i j Hij; [lia|].
  destruct j as [|j]; [lia|]. destruct i as [|i].
  - rewrite Forall_forall in Hx. apply Hx, nth_In. lia.
  - apply IH. lia.
Qed.

(** ** Keys *)

Lemma key_eqb_eq a b : key_eqb a b = true <-> a = b.
Proof. unfold key_eqb. destruct (key_eq_dec a b); split; congruence. Qed.

Lemma key_eqb_refl a : key_eqb a a = true.
Proof. now apply key_eqb_eq. Qed.

Lemma group_keys_NoDup ks : NoDup (group_keys ks).
Proof.
  unfold group_keys, sorted_distinct.
  eapply Permutation_NoDup; [apply stable_sort_perm|apply NoDup_nodup].
Qed.

Lemma group_keys_In k ks : In k (group_keys ks) <-> In k ks.
Proof.
  unfold group_keys, sorted_distinct. rewrite stable_sort_In. apply nodup_In.
Qed.


(** ** Facts about [groupby] and [merge_outer] *)

Lemma groupby_keys {E V} (kf : E -> key) (agg : list E -> V) evs :
  map fst (groupby kf agg evs) = group_keys (map kf evs).
Proof.
  unfold groupby. rewrite map_map. simpl. apply map_id.
Qed.

Lemma groupby_length {E V} (kf : E -> key) (agg : list E -> V) evs :
  List.length (groupby kf agg evs) = List.length (group_keys (map kf evs)).
Proof. unfold groupby. apply length_map. Qed.

Lemma rows_of_In {V} k (df : list (key * V)) v :
  In v (rows_of k df) <-> In (k, v) df.
Proof.
  unfold rows_of. rewrite in_map_iff. split.
  - intros [[k' v'] [<- H]]. apply filter_In in H. simpl in *.
    destruct H as [H E]. apply key_eqb_eq in E. now subst.
  - intros H. exists (k, v). split; [reflexivity|].
    apply filter_In. split; [exact H|apply key_eqb_refl].
Qed.

Lemma rows_of_nil {V} k (df : list (key * V)) :
  ~ In k (map fst df) -> rows_of k df = [].
Proof.
  intros H. destruct (rows_of k df) as [|v t] eqn:E; [reflexivity|].
  exfalso. apply H. apply in_map_iff. exists (k, v). split; [reflexivity|].
  apply rows_of_In. rewrite E. now left.
Qed.

Lemma rows_of_unique {V} k (df : list (key * V)) :
  NoDup (map fst df) -> (List.length (rows_of k df) <= 1)%nat.
Proof.
  unfold rows_of. induction df as [|[k' v] t IH]; simpl; intros H; [lia|].
  inversion H as [|? ? Hn Ht]; subst.
  destruct (key_eqb k' k) eqn:E; [|now apply IH].
  apply key_eqb_eq in E. subst k'. simpl.
  fold (rows_of k t). rewrite (rows_of_nil k t Hn). simpl. lia.
Qed.

Lemma rows_of_cons {V} k (df : list (key * V)) :
  In k (map fst df) -> rows_of k df <> [].
Proof.
  intros H E. apply in_map_iff in H. destruct H as [[k' v] [<- H]].
  simpl in E. apply (rows_of_In k' df v) in H. rewrite E in H. contradiction.
Qed.

Lemma merge_key_keys {A B} k (ls : list A) (rs : list B) r :
  In r (merge_key k ls rs) -> fst r = k.
Proof.
  unfold merge_key.
  destruct ls as [|a ls]; [|destruct rs as [|b rs]].
  - rewrite in_map_iff. now intros [b [<- _]].
  - rewrite in_map_iff. now intros [a' [<- _]].
  - rewrite in_flat_map. intros [a' [_ H]].
    apply in_map_iff in H. now destruct H as [b' [<- _]].
Qed.

Lemma merge_key_cells {A B} k (ls : list A) (rs : list B) k' oa ob :
  In (k', (oa, ob)) (merge_key k ls rs) ->
  (forall a, oa = Some a -> In a ls) /\ (forall b, ob = Some b -> In b rs).
Proof.
  unfold merge_key.
  destruct ls as [|a ls]; [|destruct rs as [|b rs]].
  - rewrite in_map_iff. intros [b [E H]]. inversion E; subst.
    split; [discriminate|]. intros b' Hb. now inversion Hb; subst.
  - rewrite in_map_iff. intros [a' [E H]]. inversion E; subst.
    split; [|discriminate]. intros a0 Ha. now inversion Ha; subst.
  - rewrite in_flat_map. intros [a' [Ha H]].
    apply in_map_iff in H. destruct H as [b' [E Hb]]. inversion E; subst.
    split; intros x Hx; now inversion Hx; subst.
Qed.

Lemma merge_key_single {A B} k (ls : list A) (rs : list B) :
  (List.length ls <= 1)%nat -> (List.length rs <= 1)%nat ->
  ls <> [] \/ rs <> [] ->
  map fst (merge_key k ls rs) = [k].
Proof.
  intros Hl Hr Hne. unfold merge_key.
  destruct ls as [|a [|a' ls]]; simpl in Hl; try lia;
    destruct rs as [|b [|b' rs]]; simpl in Hr; try lia; simpl;
    try reflexivity.
  destruct Hne; congruence.
Qed.

Lemma flat_map_single_keys {R} (f : key -> list (key * R)) ks :
  (forall k, In k ks -> map fst (f k) = [k]) ->
  map fst (flat_map f ks) = ks.
Proof.
  induction ks as [|k t IH]; simpl; intros H; [reflexivity|].
  rewrite map_app, H by now left. simpl. f_equal. apply IH.
  intros k' Hk'. apply H. now right.
Qed.

(** With unique keys on both sides the outer join has one row per key of
    the union. *)
Lemma merge_outer_keys {A B} (l : list (key * A)) (r : list (key * B)) :
  NoDup (map fst l) -> NoDup (map fst r) ->
  map fst (merge_outer l r) = group_keys (map fst l ++ map fst r).
Proof.
  intros Hl Hr. unfold merge_outer. apply flat_map_single_keys.
  intros k Hk. apply merge_key_single.
  - now apply rows_of_unique.
  - now apply rows_of_unique.
  - apply group_keys_In, in_app_or in Hk.
    destruct Hk; [left|right]; now apply rows_of_cons.
Qed.

Lemma merge_outer_cells {A B} (l : list (key * A)) (r : list (key * B)) k oa ob :
  In (k, (oa, ob)) (merge_outer l r) ->
  (forall a, oa = Some a -> In (k, a) l) /\
  (forall b, ob = Some b -> In (k, b) r).
Proof.
  unfold merge_outer. rewrite in_flat_map. intros [k' [_ H]].
  pose proof (merge_key_keys _ _ _ _ H) as E. simpl in E. subst k'.
  apply merge_key_cells in H. destruct H as [Ha Hb].
  split; intros x Hx; apply rows_of_In; auto.
Qed.

Lemma merge_outer_absent_left {A B} (l : list (key * A)) (r : list (key * B)) k oa ob :
  In (k, (oa, ob)) (merge_outer l r) -> ~ In k (map fst l) -> oa = None.
Proof.
  intros H Hn. destruct oa as [a|]; [|reflexivity].
  exfalso. apply Hn. apply merge_outer_cells in H.
  apply in_map_iff. exists (k, a). split; [reflexivity|].
  now apply (proj1 H).
Qed.

Lemma merge_outer_absent_right {A B} (l : list (key * A)) (r : list (key * B)) k oa ob :
  In (k, (oa, ob)) (merge_outer l r) -> ~ In k (map fst r) -> ob = None.
Proof.
  intros H Hn. destruct ob as [b|]; [|reflexivity].
  exfalso. apply Hn. apply merge_outer_cells in H.
  apply in_map_iff. exists (k, b). split; [reflexivity|].
  now apply (proj2 H).
Qed.

(** The keys of the merged frame: the sorted union of the keys of the
    three aggregates. *)
Lemma merged_raw_keys logon_df http_df device_df :
  map fst (merged_raw logon_df http_df device_df) =
  group_keys
    (group_keys (group_keys (map lg_key logon_df) ++ group_keys (map ht_key http_df))
     ++ group_keys (map dv_key device_df)).
Proof.
  unfold merged_raw, logon_agg, http_agg, device_agg, merged_cells.
  assert (H12 : forall (A B : Type) (l : list (key * A)) (r : list (key * B)),
             NoDup (map fst l) -> NoDup (map fst r) ->
             NoDup (map fst (merge_outer l r))).
  { intros A B l r Hl Hr. rewrite merge_outer_keys by assumption.
    apply group_keys_NoDup. }
  assert (Hg : forall (E V : Type) (kf : E -> key) (agg : list E -> V) evs,
             NoDup (map fst (groupby kf agg evs))).
  { intros. rewrite groupby_keys. apply group_keys_NoDup. }
  rewrite merge_outer_keys by auto.
  rewrite merge_outer_keys by auto.
  now rewrite !groupby_keys.
Qed.

Lemma merged_df_keys logon_df http_df device_df :
  map row_key (merged_df logon_df http_df device_df) =
  map fst (merged_raw logon_df http_df device_df).
Proof.
  unfold merged_df. rewrite map_map. apply map_ext.
  now intros [[u d] c].
Qed.

Lemma group_keys_length_le ks :
  (List.length (group_keys ks) <= List.length ks)%nat.
Proof.
  unfold group_keys, sorted_distinct. rewrite stable_sort_length.
  apply NoDup_incl_length; [apply NoDup_nodup|].
  intros k Hk. now apply nodup_In in Hk.
Qed.

Lemma group_keys_length_incl ks ks' :
  NoDup ks -> incl ks ks' ->
  (List.length ks <= List.length (group_keys ks'))%nat.
Proof.
  intros Hn Hi. apply NoDup_incl_length; [exact Hn|].
  intros k Hk. apply group_keys_In. now apply Hi.
Qed.

Lemma merged_df_row logon_df http_df device_df r :
  In r (merged_df logon_df http_df device_df) ->
  exists c, In (row_key r, c) (merged_raw logon_df http_df device_df) /\
            r = fill_row (row_key r, c).
Proof.
  unfold merged_df. rewrite in_map_iff. intros [[k c] [<- H]].
  exists c. destruct k as [u d]. split; [exact H|reflexivity].
Qed.

(** The cells of a merged row come from the aggregate of their source. *)
Lemma merged_raw_logon_absent logon_df http_df device_df k c :
  In (k, c) (merged_raw logon_df http_df device_df) ->
  ~ In k (map lg_key logon_df) -> cell_logon c = None.
Proof.
  unfold merged_raw. intros H Hn. destruct c as [[[ol oh]|] od];
    [|reflexivity].
  unfold cell_logon. simpl.
  apply merge_outer_cells in H. destruct H as [H _].
  specialize (H _ eq_refl).
  eapply merge_outer_absent_left; [exact H|].
  unfold logon_agg. rewrite groupby_keys, group_keys_In. exact Hn.
Qed.

Lemma merged_raw_http_absent logon_df http_df device_df k c :
  In (k, c) (merged_raw logon_df http_df device_df) ->
  ~ In k (map ht_key http_df) -> cell_http c = None.
Proof.
  unfold merged_raw. intros H Hn. destruct c as [[[ol oh]|] od];
    [|reflexivity].
  unfold cell_http. simpl.
  apply merge_outer_cells in H. destruct H as [H _].
  specialize (H _ eq_refl).
  eapply merge_outer_absent_right; [exact H|].
  unfold http_agg. rewrite groupby_keys, group_keys_In. exact Hn.
Qed.

Lemma merged_raw_device_absent logon_df http_df device_df k c :
  In (k, c) (merged_raw logon_df http_df device_df) ->
  ~ In k (map dv_key device_df) -> cell_device c = None.
Proof.
  unfold merged_raw. intros H Hn. destruct c as [o12 od].
  unfold cell_device. simpl.
  eapply merge_outer_absent_right; [exact H|].
  unfold device_agg. rewrite groupby_keys, group_keys_In. exact Hn.
Qed.

(* ================================================================== *)
(** * Facts about the thresholds and the classification *)
(* ================================================================== *)

Lemma Qlt_bool_iff x y : Qlt_bool x y = true <-> (x < y)%Q.
Proof.
  unfold Qlt_bool. rewrite Qlt_alt.
  destruct (x ?= y)%Q; split; congruence.
Qed.

Lemma Qlt_bool_false x y : Qlt_bool x y = false <-> (y <= x)%Q.
Proof.
  split; intros H.
  - apply Qnot_lt_le. intros C. apply Qlt_bool_iff in C. congruence.
  - destruct (Qlt_bool x y) eqn:E; [|reflexivity].
    apply Qlt_bool_iff in E. exfalso. now apply (Qlt_not_le _ _ E).
Qed.

Lemma Qle_bool_total a b : Qle_bool a b = true \/ Qle_bool b a = true.
Proof.
  rewrite !Qle_bool_iff. destruct (Qlt_le_dec a b) as [H|H]; [left|right];
    [now apply Qlt_le_weak|exact H].
Qed.

Lemma Qle_bool_trans a b c :
  Qle_bool a b = true -> Qle_bool b c = true -> Qle_bool a c = true.
Proof. rewrite !Qle_bool_iff. apply Qle_trans. Qed.

(** The exact description of [classify_risk] when the thresholds are in
    order. *)
Lemma classify_risk_Low lo hi s :
  classify_risk lo hi s = Low <-> (s < lo)%Q.
Proof.
  unfold classify_risk. rewrite <- Qlt_bool_iff.
  destruct (Qlt_bool s lo); [tauto|].
  destruct (Qlt_bool s hi); split; congruence.
Qed.

Lemma classify_risk_Medium lo hi s :
  classify_risk lo hi s = Medium <-> (lo <= s /\ s < hi)%Q.
Proof.
  unfold classify_risk. rewrite <- Qlt_bool_iff, <- Qlt_bool_false.
  destruct (Qlt_bool s lo); [split; [congruence|intros [? _]; congruence]|].
  destruct (Qlt_bool s hi); split; try tauto; try congruence.
  intros [_ ?]; congruence.
Qed.

Lemma classify_risk_High lo hi s :
  (lo <= hi)%Q ->
  classify_risk lo hi s = High <-> (hi <= s)%Q.
Proof.
  intros Hle. unfold classify_risk. rewrite <- Qlt_bool_false.
  destruct (Qlt_bool s lo) eqn:E1.
  - split; [congruence|]. intros E2. apply Qlt_bool_iff in E1.
    apply Qlt_bool_false in E2. exfalso.
    apply (Qlt_not_le _ _ E1). now apply Qle_trans with hi.
  - destruct (Qlt_bool s hi); split; congruence.
Qed.

(** ** The quantile lies between its two neighbours and grows with [q] *)

Lemma sorted_nth_le (a : list Q) d i j :
  StronglySorted (fun x y => Qle_bool x y = true) a ->
  (i <= j < List.length a)%nat -> (nth i a d <= nth j a d)%Q.
Proof.
  intros Hs Hij. destruct (Nat.eq_dec i j) as [->|Hne].
  - apply Qle_refl.
  - apply Qle_bool_iff.
    apply (StronglySorted_nth d Hs). lia.
Qed.

Lemma Qlen_pos_minus_one (a : list Q) :
  a <> [] -> (0 <= Qlen a - 1)%Q.
Proof.
  intros H. unfold Qlen. destruct a as [|x t]; [congruence|].
  cbn [List.length]. rewrite Nat2Z.inj_succ.
  unfold Z.succ. rewrite inject_Z_plus. change (inject_Z 1) with 1%Q.
  assert (0 <= inject_Z (Z.of_nat (List.length t)))%Q.
  { change 0%Q with (inject_Z 0). rewrite <- Zle_Qle. lia. }
  lra.
Qed.


Lemma quantile_interp q xs :
  quantile q xs =
  match stable_sort Qle_bool xs with
  | [] => None
  | a0 :: t => Some (interp (a0 :: t) a0 (q * (Qlen (a0 :: t) - 1))%Q)
  end.
Proof. unfold quantile, interp. now destruct (stable_sort Qle_bool xs). Qed.

Section Interp.
Variable a : list Q.
Variable a0 : Q.
Hypothesis a_sorted : StronglySorted (fun x y => Qle_bool x y = true) a.

Let n : Z := Z.of_nat (List.length a).

Lemma floor_range pos :
  (0 <= pos)%Q -> (pos <= inject_Z (n - 1))%Q ->
  (0 <= Qfloor pos <= n - 1)%Z.
Proof.
  intros H0 H1. split.
  - change 0%Z with (Qfloor 0). now apply Qfloor_resp_le.
  - rewrite <- (Qfloor_Z (n - 1)). now apply Qfloor_resp_le.
Qed.

Lemma frac_range pos : (0 <= pos - inject_Z (Qfloor pos) < 1)%Q.
Proof.
  pose proof (Qfloor_le pos). pose proof (Qlt_floor pos) as H1.
  rewrite inject_Z_plus in H1. change (inject_Z 1) with 1%Q in H1. lra.
Qed.

Lemma interp_bounds pos :
  (0 <= pos)%Q -> (pos <= inject_Z (n - 1))%Q ->
  let lo := Qfloor pos in
  let hi := Z.min (lo + 1) (n - 1) in
  (nth (Z.to_nat lo) a a0 <= interp a a0 pos)%Q /\
  (interp a a0 pos <= nth (Z.to_nat hi) a a0)%Q.
Proof.
  intros H0 H1 lo hi. unfold interp. fold n. fold lo. fold hi.
  pose proof (floor_range H0 H1) as Hlo. fold lo in Hlo.
  pose proof (frac_range pos) as Hf. fold lo in Hf.
  assert (Hxy : (nth (Z.to_nat lo) a a0 <= nth (Z.to_nat hi) a a0)%Q).
  { apply sorted_nth_le; [exact a_sorted|]. unfold hi, n in *. lia. }
  set (x := nth (Z.to_nat lo) a a0) in *.
  set (y := nth (Z.to_nat hi) a a0) in *.
  set (f := (pos - inject_Z lo)%Q) in *.
  assert (0 <= (y - x) * f)%Q by (apply Qmult_le_0_compat; lra).
  assert (0 <= (y - x) * (1 - f))%Q by (apply Qmult_le_0_compat; lra).
  split; lra.
Qed.

Lemma interp_mono pos pos' :
  (0 <= pos)%Q -> (pos <= pos')%Q -> (pos' <= inject_Z (n - 1))%Q ->
  (interp a a0 pos <= interp a a0 pos')%Q.
Proof.
  intros H0 Hle H1.
  assert (H0' : (0 <= pos')%Q) by lra.
  assert (H1' : (pos <= inject_Z (n - 1))%Q) by lra.
  pose proof (floor_range H0 H1') as Hlo.
  pose proof (floor_range H0' H1) as Hlo'.
  pose proof (Qfloor_resp_le _ _ Hle) as Hll.
  destruct (Z.eq_dec (Qfloor pos) (Qfloor pos')) as [E|NE].
  - unfold interp. fold n. rewrite <- E.
    set (lo := Qfloor pos) in *.
    set (hi := Z.min (lo + 1) (n - 1)).
    assert (Hxy : (nth (Z.to_nat lo) a a0 <= nth (Z.to_nat hi) a a0)%Q).
    { apply sorted_nth_le; [exact a_sorted|]. unfold hi, n in *. lia. }
    set (x := nth (Z.to_nat lo) a a0) in *.
    set (y := nth (Z.to_nat hi) a a0) in *.
    assert (0 <= (y - x) * (pos' - pos))%Q by (apply Qmult_le_0_compat; lra).
    lra.
  - destruct (interp_bounds H0 H1') as [_ Hup].
    destruct (interp_bounds H0' H1) as [Hdown _].
    eapply Qle_trans; [exact Hup|].
    eapply Qle_trans; [|exact Hdown].
    apply sorted_nth_le; [exact a_sorted|]. unfold n in *. lia.
Qed.

End Interp.

Lemma quantile_mono q q' xs v v' :
  (0 <= q)%Q -> (q <= q')%Q -> (q' <= 1)%Q ->
  quantile q xs = Some v -> quantile q' xs = Some v' -> (v <= v')%Q.
Proof.
  intros H0 Hle H1. rewrite !quantile_interp.
  pose proof (stable_sort_sorted Qle_bool Qle_bool_total Qle_bool_trans xs) as Hs.
  destruct (stable_sort Qle_bool xs) as [|a0 t] eqn:E; [discriminate|].
  intros Hv Hv'. inversion Hv; inversion Hv'; subst.
  assert (Hn : (0 <= Qlen (a0 :: t) - 1)%Q)
    by (apply Qlen_pos_minus_one; discriminate).
  assert (Hlen : (Qlen (a0 :: t) - 1 == inject_Z (Z.of_nat (List.length (a0 :: t)) - 1))%Q).
  { unfold Qlen. unfold Zminus. rewrite inject_Z_plus. change (inject_Z (- (1))) with (-1 # 1)%Q. lra. }
  apply interp_mono; [exact Hs| | |].
  - apply Qmult_le_0_compat; lra.
  - apply Qmult_le_compat_r; lra.
  - rewrite <- Hlen.
    assert (0 <= (1 - q') * (Qlen (a0 :: t) - 1))%Q
      by (apply Qmult_le_0_compat; lra).
    lra.
Qed.

Section ScoringFacts.
Variable predict : list (list fval) -> list fval -> Z.
Variable decision_function : list (list fval) -> list fval -> Q.

Lemma thresholds_ordered fs lo hi :
  low_thresh decision_function fs = Some lo ->
  high_thresh decision_function fs = Some hi ->
  (lo <= hi)%Q.
Proof.
  unfold low_thresh, high_thresh. apply quantile_mono; lra.
Qed.

Lemma score_rows fs r :
  In r (score predict decision_function fs) ->
  exists lo hi,
    low_thresh decision_function fs = Some lo /\
    high_thresh decision_function fs = Some hi /\
    risk_level r = classify_risk lo hi (risk_score r).
Proof.
  unfold score.
  destruct (low_thresh decision_function fs) as [lo|]; [|contradiction].
  destruct (high_thresh decision_function fs) as [hi|]; [|contradiction].
  rewrite in_map_iff. intros [f [<- _]]. exists lo, hi. auto.
Qed.

End ScoringFacts.

(* ================================================================== *)
(** * Facts about the feature frame *)
(* ================================================================== *)

Lemma Qsum_nonneg (xs : list Q) :
  (forall x, In x xs -> (0 <= x)%Q) -> (0 <= Qsum xs)%Q.
Proof.
  induction xs as [|x t IH]; simpl; intros H; [apply Qle_refl|].
  assert (0 <= x)%Q by (apply H; now left).
  assert (0 <= Qsum t)%Q by (apply IH; intros y Hy; apply H; now right).
  lra.
Qed.

Lemma Qsum_nonneg_zero (xs : list Q) :
  (forall x, In x xs -> (0 <= x)%Q) -> (Qsum xs == 0)%Q ->
  forall x, In x xs -> (x == 0)%Q.
Proof.
  induction xs as [|y t IH]; simpl; intros H Hs x Hx; [contradiction|].
  assert (Hy : (0 <= y)%Q) by (apply H; now left).
  assert (Ht : (0 <= Qsum t)%Q)
    by (apply Qsum_nonneg; intros z Hz; apply H; now right).
  destruct Hx as [<-|Hx]; [lra|].
  apply IH; auto. lra.
Qed.

Lemma Qsquare_nonneg (x : Q) : (0 <= x * x)%Q.
Proof.
  destruct (Qlt_le_dec x 0) as [H|H].
  - setoid_replace (x * x)%Q with ((- x) * (- x))%Q by ring.
    apply Qmult_le_0_compat; lra.
  - now apply Qmult_le_0_compat.
Qed.

Lemma Qlen_ge_two (xs : list Q) :
  (2 <= List.length xs)%nat -> (0 < Qlen xs - 1)%Q.
Proof.
  intros H. unfold Qlen.
  assert (inject_Z 2 <= inject_Z (Z.of_nat (List.length xs)))%Q
    by (rewrite <- Zle_Qle; lia).
  change (inject_Z 2) with 2%Q in *. lra.
Qed.

(** A sample variance of zero: every value is the mean. *)
Lemma var_sample_zero (xs : list Q) :
  (2 <= List.length xs)%nat -> (var_sample xs == 0)%Q ->
  forall x, In x xs -> (x - mean xs == 0)%Q.
Proof.
  intros Hn Hv x Hx. unfold var_sample in Hv.
  pose proof (Qlen_ge_two xs Hn) as Hp.
  set (m := mean xs) in *.
  set (sq := map (fun x => (x - m) * (x - m))%Q xs) in *.
  assert (Hs : (Qsum sq == 0)%Q).
  { setoid_replace (Qsum sq) with ((Qsum sq / (Qlen xs - 1)) * (Qlen xs - 1))%Q
      by (field; lra).
    rewrite Hv. ring. }
  assert (Hsq : ((x - m) * (x - m) == 0)%Q).
  { apply (Qsum_nonneg_zero sq).
    - intros y Hy. unfold sq in Hy. apply in_map_iff in Hy.
      destruct Hy as [z [<- _]]. apply Qsquare_nonneg.
    - exact Hs.
    - unfold sq. apply in_map_iff. now exists x. }
  apply Qmult_integral in Hsq. tauto.
Qed.

Lemma var_sample_nonneg (xs : list Q) :
  (2 <= List.length xs)%nat -> (0 <= var_sample xs)%Q.
Proof.
  intros Hn. unfold var_sample.
  pose proof (Qlen_ge_two xs Hn) as Hp.
  apply Qle_shift_div_l; [exact Hp|].
  rewrite Qmult_0_l. apply Qsum_nonneg.
  intros y Hy. apply in_map_iff in Hy.
  destruct Hy as [z [<- _]]. apply Qsquare_nonneg.
Qed.

Lemma user_rows_In u df r :
  In r (user_rows u df) <-> In r df /\ user r = u.
Proof.
  unfold user_rows. rewrite filter_In, String.eqb_eq. tauto.
Qed.

Section FeatureFacts.
Variable to_datetime : string -> Timestamp.
Variable sqrtQ : Q -> Q.

(** Every row of the feature frame is [feature_row] of a row of the
    merged frame. *)
Lemma features_row df f :
  In f (features to_datetime sqrtQ df) ->
  exists r roll, In r df /\ f = feature_row to_datetime sqrtQ df r roll.
Proof.
  unfold features. rewrite in_map_iff. intros [[r roll] [<- H]].
  exists r, roll. split; [|reflexivity].
  apply in_combine_l in H. unfold sort_values in H.
  now apply stable_sort_In in H.
Qed.

Hypothesis sqrtQ_zero : forall x, (0 <= x)%Q -> (sqrtQ x == 0)%Q -> (x == 0)%Q.

(** The z-score over a user whose standard deviation is zero is 0/0. *)
Lemma spike_zero_std (col : MergedRow -> Q) df r z :
  In r df ->
  baseline_std sqrtQ col df r = Fin z -> (z == 0)%Q ->
  spike sqrtQ col df r = NaN.
Proof.
  intros Hr Hstd Hz. unfold spike. rewrite Hstd.
  unfold baseline_std, std in Hstd.
  set (xs := map col (user_rows (user r) df)) in *.
  destruct (List.length xs <? 2)%nat eqn:En; [discriminate|].
  apply Nat.ltb_ge in En. inversion Hstd as [Ez]. clear Hstd.
  assert (Hv : (var_sample xs == 0)%Q).
  { apply sqrtQ_zero; [now apply var_sample_nonneg|]. now rewrite Ez. }
  assert (Hx : (col r - baseline_mean col df r == 0)%Q).
  { unfold baseline_mean. fold xs. apply var_sample_zero; auto.
    unfold xs. apply in_map. now apply user_rows_In. }
  unfold fdiv. cbv beta iota.
  assert (Eb : Qeq_bool z 0 = true) by now apply Qeq_bool_iff.
  rewrite ?Ez, Eb. apply Qeq_alt in Hx. now rewrite Hx.
Qed.

End FeatureFacts.

(** The sample square root vanishes only at zero. *)
Lemma sqrt_floor_zero (x : Q) :
  (0 <= x)%Q -> (sqrt_floor x == 0)%Q -> (x == 0)%Q.
Proof.
  destruct x as [n d]. unfold sqrt_floor, Qle, Qeq.
  cbn [Qnum Qden]. rewrite !Z.mul_1_r, !Z.mul_0_l. intros Hn Hs.
  destruct n as [|p|p]; [reflexivity| |lia].
  exfalso.
  assert (H0 : (0 <= Z.pos p * Z.pos d)%Z) by lia.
  destruct (Z.sqrt_spec _ H0) as [_ Hlt]. rewrite Hs in Hlt.
  change (Z.succ 0 * Z.succ 0)%Z with 1%Z in Hlt.
  rewrite <- Pos2Z.inj_mul in Hlt. lia.
Qed.

(** Where the standard deviation is a non-zero number the spike is the
    z-score: the number [z] with [z * std = value - mean]. *)
Lemma spike_zscore (sqrtQ : Q -> Q) (col : MergedRow -> Q) df r s :
  baseline_std sqrtQ col df r = Fin s -> ~ (s == 0)%Q ->
  exists z, spike sqrtQ col df r = Fin z /\
            (z * s == col r - baseline_mean col df r)%Q.
Proof.
  intros Hs Hne. unfold spike. rewrite Hs. unfold fdiv.
  destruct (Qeq_bool s 0) eqn:E; [apply Qeq_bool_iff in E; contradiction|].
  eexists. split; [reflexivity|]. field. exact Hne.
Qed.

(* ================================================================== *)
(** * Facts about the sort by user and date and about the rolling mean *)
(* ================================================================== *)

Lemma ascii_compare_refl a : Ascii.compare a a = Eq.
Proof. unfold Ascii.compare. apply N.compare_refl. Qed.

Lemma ascii_compare_lt_trans a b c :
  Ascii.compare a b = Lt -> Ascii.compare b c = Lt -> Ascii.compare a c = Lt.
Proof.
  unfold Ascii.compare. rewrite !N.compare_lt_iff. apply N.lt_trans.
Qed.

Lemma string_compare_refl s : String.compare s s = Eq.
Proof.
  induction s as [|a s IH]; simpl; [reflexivity|].
  now rewrite ascii_compare_refl.
Qed.

Lemma string_compare_lt_trans a :
  forall b c, String.compare a b = Lt -> String.compare b c = Lt ->
              String.compare a c = Lt.
Proof.
  induction a as [|x a IH]; intros [|y b] [|z c]; simpl;
    try discriminate; try reflexivity.
  destruct (Ascii.compare x y) eqn:Exy; try discriminate;
    destruct (Ascii.compare y z) eqn:Eyz; try discriminate; intros H1 H2.
  - apply Ascii.compare_eq_iff in Exy, Eyz. subst.
    rewrite ascii_compare_refl. now apply IH with b.
  - apply Ascii.compare_eq_iff in Exy. subst. now rewrite Eyz.
  - apply Ascii.compare_eq_iff in Eyz. subst. now rewrite Exy.
  - now rewrite (ascii_compare_lt_trans _ _ _ Exy Eyz).
Qed.

Lemma ts_leb_total a b : ts_leb a b = true \/ ts_leb b a = true.
Proof.
  unfold ts_leb.
  destruct (Z.compare_spec (ts_days a) (ts_days b)) as [E|L|G];
    destruct (Z.compare_spec (ts_days b) (ts_days a)) as [E'|L'|G'];
    try lia; auto.
Qed.

Lemma ts_leb_trans a b c :
  ts_leb a b = true -> ts_leb b c = true -> ts_leb a c = true.
Proof.
  unfold ts_leb.
  destruct (Z.compare_spec (ts_days a) (ts_days b)) as [E|L|G];
    destruct (Z.compare_spec (ts_days b) (ts_days c)) as [E'|L'|G'];
    destruct (Z.compare_spec (ts_days a) (ts_days c)) as [E''|L''|G''];
    try lia; try discriminate; auto.
Qed.

(** ** The rolling mean *)

Lemma keep_last_app {A} (w : nat) (l l' : list A) :
  keep_last w (keep_last w l ++ l') = keep_last w (l ++ l').
Proof.
  unfold keep_last.
  set (a := (List.length l - w)%nat).
  assert (Ha : (a <= List.length l)%nat) by (unfold a; lia).
  assert (E : skipn a l ++ l' = skipn a (l ++ l')).
  { rewrite skipn_app. replace (a - List.length l)%nat with 0%nat by lia.
    reflexivity. }
  rewrite E, skipn_skipn, length_skipn, !length_app.
  f_equal. unfold a. lia.
Qed.

Lemma rolling_mean_from_length w win xs :
  List.length (rolling_mean_from w win xs) = List.length xs.
Proof.
  revert win. induction xs as [|x t IH]; intros win; simpl; [reflexivity|].
  now rewrite IH.
Qed.

Lemma rolling_mean_length w xs :
  List.length (rolling_mean w xs) = List.length xs.
Proof. apply rolling_mean_from_length. Qed.

Lemma rolling_mean_from_nth w xs :
  forall win i d,
    (i < List.length xs)%nat ->
    nth i (rolling_mean_from w (keep_last w win) xs) d =
    mean (keep_last w (win ++ firstn (S i) xs)).
Proof.
  induction xs as [|x t IH]; intros win i d Hi; simpl in Hi; [lia|].
  cbn [rolling_mean_from]. destruct i as [|i].
  - cbn [nth firstn]. now rewrite keep_last_app.
  - cbn [nth]. rewrite keep_last_app.
    rewrite (IH (win ++ [x]) i d) by lia.
    rewrite <- app_assoc. reflexivity.
Qed.

(** At position [i] the rolling mean of width 3 is the mean of the
    values at the positions [max 0 (i - 2)] to [i]. *)
Lemma rolling_mean_3_nth xs i d :
  (i < List.length xs)%nat ->
  nth i (rolling_mean 3 xs) d = mean (skipn (i - 2) (firstn (i + 1) xs)).
Proof.
  intros Hi. unfold rolling_mean.
  change (@nil Q) with (keep_last 3 (@nil Q)).
  rewrite rolling_mean_from_nth by exact Hi.
  cbn [app]. unfold keep_last.
  rewrite length_firstn. replace (i + 1)%nat with (S i) by lia.
  do 2 f_equal. lia.
Qed.

(** ** [transform] by user *)

Lemma user_rows_app u l l' :
  user_rows u (l ++ l') = user_rows u l ++ user_rows u l'.
Proof. apply filter_app. Qed.

Lemma skipn_nth_cons {A} (k : nat) (l : list A) d :
  (k < List.length l)%nat -> skipn k l = nth k l d :: skipn (S k) l.
Proof.
  revert k. induction l as [|x t IH]; intros k Hk; simpl in Hk; [lia|].
  destruct k as [|k]; [reflexivity|].
  cbn [skipn nth]. apply IH. lia.
Qed.

Lemma transform_from_length f col df rest :
  forall seen, List.length (transform_from f col df seen rest) = List.length rest.
Proof.
  induction rest as [|r t IH]; intros seen; simpl; [reflexivity|].
  now rewrite IH.
Qed.

(** The transformed values at the rows of one user are [f] of the
    user's column. *)
Lemma transform_from_user (f : list Q -> list Q) col u df rest :
  (forall xs, List.length (f xs) = List.length xs) ->
  forall seen, df = seen ++ rest ->
    map snd (filter (fun p => String.eqb (user (fst p)) u)
               (combine rest (transform_from f col df seen rest))) =
    skipn (List.length (user_rows u seen)) (f (map col (user_rows u df))).
Proof.
  intros Hf. induction rest as [|r t IH]; intros seen Hdf.
  - simpl. rewrite app_nil_r in Hdf. subst seen. symmetry.
    apply skipn_all2. rewrite Hf, length_map. lia.
  - cbn [transform_from combine filter fst].
    assert (Hdf' : df = (seen ++ [r]) ++ t)
      by (rewrite <- app_assoc; exact Hdf).
    specialize (IH (seen ++ [r]) Hdf').
    rewrite user_rows_app in IH.
    assert (Hsplit : user_rows u df =
                     user_rows u seen ++ user_rows u [r] ++ user_rows u t).
    { rewrite Hdf. change (r :: t) with ([r] ++ t).
      now rewrite !user_rows_app. }
    assert (Hone : user_rows u [r] =
                   if String.eqb (user r) u then [r] else []).
    { unfold user_rows. cbn [filter]. now destruct (String.eqb (user r) u). }
    rewrite Hone in IH, Hsplit.
    destruct (String.eqb (user r) u) eqn:E.
    + apply String.eqb_eq in E. cbn [map snd]. rewrite IH, E.
      rewrite length_app. cbn [List.length].
      replace (List.length (user_rows u seen) + 1)%nat
        with (S (List.length (user_rows u seen))) by lia.
      symmetry. apply skipn_nth_cons.
      rewrite Hf, length_map, Hsplit, !length_app.
      cbn [List.length]. lia.
    + rewrite IH. now rewrite app_nil_r.
Qed.

Lemma filter_combine_fst {A B} (p : A -> bool) (l : list A) :
  forall l' : list B, List.length l = List.length l' ->
    map fst (filter (fun x => p (fst x)) (combine l l')) = filter p l.
Proof.
  induction l as [|a t IH]; intros [|b t'] H; simpl in *; try lia;
    [reflexivity|].
  destruct (p a); simpl; rewrite IH by lia; reflexivity.
Qed.

Lemma StronglySorted_map {A B} (R : B -> B -> Prop) (h : A -> B) l :
  StronglySorted (fun a b => R (h a) (h b)) l -> StronglySorted R (map h l).
Proof.
  induction 1 as [|x t Ht IH Hx]; simpl; constructor; auto.
  rewrite Forall_forall in *. intros y Hy.
  apply in_map_iff in Hy. destruct Hy as [z [<- Hz]]. auto.
Qed.

Lemma StronglySorted_weaken {A} (R R' : A -> A -> Prop) (P : A -> Prop) l :
  (forall a b, P a -> P b -> R a b -> R' a b) ->
  Forall P l -> StronglySorted R l -> StronglySorted R' l.
Proof.
  intros HR HP. induction 1 as [|x t Ht IH Hx]; constructor.
  - apply IH. now inversion HP.
  - inversion HP as [|? ? Px Pt]; subst.
    rewrite Forall_forall in *. intros y Hy. auto.
Qed.

Section SortFacts.
Variable to_datetime : string -> Timestamp.

Lemma row_leb_total a b :
  row_leb to_datetime a b = true \/ row_leb to_datetime b a = true.
Proof.
  unfold row_leb. rewrite (String.compare_antisym (user b) (user a)).
  destruct (String.compare (user a) (user b)); simpl; auto.
  apply ts_leb_total.
Qed.

Lemma row_leb_trans a b c :
  row_leb to_datetime a b = true -> row_leb to_datetime b c = true ->
  row_leb to_datetime a c = true.
Proof.
  unfold row_leb.
  destruct (String.compare (user a) (user b)) eqn:Eab; try discriminate;
    destruct (String.compare (user b) (user c)) eqn:Ebc; try discriminate;
    intros H1 H2.
  - apply String.compare_eq_iff in Eab, Ebc. rewrite Eab, Ebc.
    rewrite string_compare_refl. eapply ts_leb_trans; eassumption.
  - apply String.compare_eq_iff in Eab. now rewrite Eab, Ebc.
  - apply String.compare_eq_iff in Ebc. now rewrite <- Ebc, Eab.
  - now rewrite (string_compare_lt_trans _ _ _ Eab Ebc).
Qed.

(** The rows of one user, taken from the sorted frame, are in date
    order. *)
Lemma user_rows_sorted u df :
  StronglySorted
    (fun a b => ts_leb (to_datetime (date a)) (to_datetime (date b)) = true)
    (user_rows u (sort_values to_datetime df)).
Proof.
  apply StronglySorted_weaken
    with (R := fun a b => row_leb to_datetime a b = true)
         (P := fun r => user r = u).
  - intros a b Ha Hb. unfold row_leb. rewrite Ha, Hb.
    now rewrite string_compare_refl.
  - apply Forall_forall. intros r Hr. now apply user_rows_In in Hr.
  - apply StronglySorted_filter. apply stable_sort_sorted.
    + apply row_leb_total.
    + apply row_leb_trans.
Qed.

End SortFacts.

Lemma StronglySorted_map_inv {A B} (R : B -> B -> Prop) (h : A -> B) l :
  StronglySorted R (map h l) -> StronglySorted (fun a b => R (h a) (h b)) l.
Proof.
  induction l as [|x t IH]; simpl; intros H; [constructor|].
  inversion H as [|? ? Ht Hx]; subst. constructor; [now apply IH|].
  rewrite Forall_forall in *. intros y Hy. apply Hx. now apply in_map.
Qed.

Lemma Permutation_filter_compat {A} (p : A -> bool) l l' :
  Permutation l l' -> Permutation (filter p l) (filter p l').
Proof.
  induction 1 as [|x l l' H IH|x y l|l l' l'' H1 IH1 H2 IH2]; simpl.
  - constructor.
  - destruct (p x); [now constructor|exact IH].
  - destruct (p x), (p y); try reflexivity. apply perm_swap.
  - now transitivity (filter p l').
Qed.

Section RollingFacts.
Variable to_datetime : string -> Timestamp.
Variable sqrtQ : Q -> Q.

(** The rows of user [u] in the feature frame: the user's rows of the
    sorted merged frame, each with the rolling mean of the user's logon
    counts at its position. *)
Lemma features_of_user u df :
  let sorted := sort_values to_datetime df in
  exists gp : list (MergedRow * Q),
    filter (fun f => String.eqb (user (base f)) u)
           (features to_datetime sqrtQ df) =
      map (fun p => feature_row to_datetime sqrtQ df (fst p) (snd p)) gp /\
    map fst gp = user_rows u sorted /\
    map snd gp = rolling_mean 3 (map logon_count (user_rows u sorted)).
Proof.
  intros sorted.
  exists (filter (fun p => String.eqb (user (fst p)) u)
            (combine sorted (transform_by_user (rolling_mean 3) logon_count sorted))).
  split; [|split].
  - unfold features. fold sorted. now rewrite filter_map_swap.
  - apply filter_combine_fst with (p := fun r => String.eqb (user r) u).
    unfold transform_by_user. now rewrite transform_from_length.
  - unfold transform_by_user.
    rewrite (@transform_from_user (rolling_mean 3) logon_count u sorted
               sorted (rolling_mean_length 3) []) by reflexivity.
    reflexivity.
Qed.

End RollingFacts.

(* ================================================================== *)
(** * Facts about the dashboard *)
(* ================================================================== *)

Lemma sorted_distinct_In {K} (eq_dec : forall a b : K, {a = b} + {a <> b})
  (leb : K -> K -> bool) (k : K) (ks : list K) :
  In k (sorted_distinct eq_dec leb ks) <-> In k ks.
Proof.
  unfold sorted_distinct. rewrite stable_sort_In. apply nodup_In.
Qed.

Lemma string_in_In x xs : string_in x xs = true <-> In x xs.
Proof.
  unfold string_in. rewrite existsb_exists. split.
  - intros [y [Hy E]]. apply String.eqb_eq in E. now subst.
  - intros H. exists x. split; [exact H|apply String.eqb_refl].
Qed.

(** ** The text of the clause

    Appending a condition to the list is what lines 321, 345, 399, 484
    and 508 do to the text: [where_clause + ' AND ...'], or
    ['WHERE ...'] when the clause is empty. *)

Lemma string_append_assoc (a b c : string) :
  ((a ++ b) ++ c = a ++ (b ++ c))%string.
Proof. induction a as [|x a IH]; simpl; [reflexivity|now rewrite IH]. Qed.

Lemma concat_snoc sep (l : list string) x :
  l <> [] ->
  String.concat sep (l ++ [x]) = (String.concat sep l ++ sep ++ x)%string.
Proof.
  induction l as [|a [|b t] IH]; intros H; [congruence|reflexivity|].
  change (String.concat sep ((a :: b :: t) ++ [x]))
    with (a ++ sep ++ String.concat sep ((b :: t) ++ [x]))%string.
  rewrite IH by discriminate.
  change (String.concat sep (a :: b :: t))
    with (a ++ sep ++ String.concat sep (b :: t))%string.
  now rewrite !string_append_assoc.
Qed.

Lemma where_clause_and_cond w c :
  where_clause (w ++ [c]) =
  match w with
  | [] => ("WHERE " ++ cond_sql c)%string
  | _ => (where_clause w ++ " AND " ++ cond_sql c)%string
  end.
Proof.
  destruct w as [|c0 w']; [reflexivity|].
  unfold where_clause. cbn [app].
  change (c0 :: w' ++ [c]) with ((c0 :: w') ++ [c]).
  rewrite map_app. cbn [map]. rewrite concat_snoc by discriminate.
  now rewrite !string_append_assoc.
Qed.

Example where_clause_sample :
  where_clause (query_conditions (with_users sample_inputs ["carol"]%string)) =
  "WHERE date >= '2010-01-04' AND date <= '2010-01-07' AND user IN ('carol') AND risk_level IN ('Low', 'Medium', 'High')"%string.
Proof. reflexivity. Qed.

(** ** Runs *)

Lemma bind_inr {A B} (m : Run A) (f : A -> Run B) o a :
  m = (o, inr a) -> bind m f = (o ++ fst (f a), snd (f a)).
Proof. intros ->. unfold bind. now destruct (f a). Qed.

Lemma quiet_emit o : is_table_or_export o = false -> quiet (emit o).
Proof. intros H. split; [reflexivity|]. now repeat constructor. Qed.

Lemma quiet_bind (m k : Run unit) :
  quiet m -> quiet k -> quiet (bind m (fun _ => k)).
Proof.
  intros [Hm Fm] [Hk Fk]. destruct m as [o [s|[]]]; simpl in Hm; [discriminate|].
  rewrite (bind_inr _ eq_refl). split; [exact Hk|].
  apply Forall_app. split; assumption.
Qed.

Lemma quiet_chart_or_info {K} (rows : list K) title data placeholder :
  quiet (chart_or_info rows title data placeholder).
Proof. destruct rows; apply quiet_emit; reflexivity. Qed.

Lemma quiet_run (m : Run unit) : quiet m -> m = (fst m, inr tt).
Proof. intros [H _]. destruct m as [o r]. simpl in *. now subst. Qed.

Section DashboardFacts.
Variable num_is_true : fval -> bool.

Lemma count_rows_length w t :
  count_rows num_is_true w t = List.length (select_rows num_is_true w t).
Proof.
  unfold count_rows, select_rows.
  assert (G : forall n,
             fold_left (fun n r => if eval_where num_is_true w r then S n else n) t n =
             (n + List.length (filter (eval_where num_is_true w) t))%nat).
  { induction t as [|r t' IH]; intros n; simpl; [lia|].
    rewrite IH. destruct (eval_where num_is_true w r); simpl; lia. }
  apply (G 0%nat).
Qed.

Lemma eval_where_app w w' r :
  eval_where num_is_true (w ++ w') r =
  eval_where num_is_true w r && eval_where num_is_true w' r.
Proof. apply forallb_app. Qed.

Lemma select_rows_In w t r :
  In r (select_rows num_is_true w t) <->
  In r t /\ eval_where num_is_true w r = true.
Proof. apply filter_In. Qed.

(** ** Two clauses that agree on the rows of the table give the same
    render *)

Section SameRows.
Variables (w w' : list Cond) (t : list DashRow).
Hypothesis same : forall r, In r t ->
  eval_where num_is_true w r = eval_where num_is_true w' r.






End SameRows.

(** ** The shape of a render *)

Lemma quiet_tab_overview w t : quiet (tab_overview num_is_true w t).
Proof.
  unfold tab_overview.
  repeat first [apply quiet_bind | apply quiet_chart_or_info
               | apply quiet_emit; reflexivity].
Qed.

Lemma quiet_tab_trends w t : quiet (tab_trends num_is_true w t).
Proof.
  unfold tab_trends.
  apply quiet_bind; [|apply quiet_bind; apply quiet_chart_or_info].
  destruct (sorted_distinct Z.eq_dec Z.leb
              (map d_date (select_rows num_is_true w t))).
  - apply quiet_emit; reflexivity.
  - apply quiet_bind; apply quiet_emit; reflexivity.
Qed.

(** The detail table: at most one, the capped query. *)
Lemma tab_flagged_run w t n :
  snd (tab_flagged num_is_true w t n) = inr tt /\
  Forall (fun o => match o with
                   | Dataframe rows => rows = flagged_details num_is_true w t
                   | DownloadButton _ _ => False
                   | _ => True
                   end)
         (fst (tab_flagged num_is_true w t n)).
Proof.
  unfold tab_flagged.
  destruct (flagged_details num_is_true w t) as [|r rows] eqn:E.
  - split; [reflexivity|]. now repeat constructor.
  - destruct (Nat.ltb 1000 n); split; try reflexivity;
      now repeat constructor.
Qed.

(** The export: the files hold the rows of [base_query]; the workbook
    is missing, and the run raises, when the rows do not fit a sheet. *)
Lemma tab_export_run w t :
  snd (tab_export num_is_true w t) =
    (if sheet_too_large (select_rows num_is_true w t)
     then inl (Raised "ValueError") else inr tt) /\
  Forall (fun o => match o with
                   | DownloadButton _ rows => rows = select_rows num_is_true w t
                   | Dataframe _ => False
                   | _ => True
                   end)
         (fst (tab_export num_is_true w t)) /\
  (select_rows num_is_true w t <> [] ->
   fst (tab_export num_is_true w t) =
     DownloadButton "filtered_user_risk_analysis.csv" (select_rows num_is_true w t) ::
     if sheet_too_large (select_rows num_is_true w t) then []
     else [DownloadButton "filtered_user_risk_analysis.xlsx"
             (select_rows num_is_true w t)]).
Proof.
  unfold tab_export.
  destruct (select_rows num_is_true w t) as [|r rows] eqn:E.
  - split; [reflexivity|]. split; [now repeat constructor|congruence].
  - destruct (sheet_too_large (r :: rows)).
    + split; [reflexivity|]. split; [now repeat constructor|reflexivity].
    + split; [reflexivity|]. split; [now repeat constructor|reflexivity].
Qed.


Lemma kpis_run w t inp :
  kpis num_is_true w t inp (count_rows num_is_true w t) =
  match date_pair inp with
  | Some (s, e) => (kpi_outputs num_is_true w t ++ [DateRangeCard s e], inr tt)
  | None => (kpi_outputs num_is_true w t, inl (Raised "NameError"))
  end.
Proof.
  unfold kpis, kpi_outputs. destruct (date_pair inp) as [[s e]|]; reflexivity.
Qed.


Lemma tabs_run w t :
  bind (tab_overview num_is_true w t) (fun _ =>
  bind (tab_flagged num_is_true w t (count_rows num_is_true w t)) (fun _ =>
  bind (tab_trends num_is_true w t) (fun _ =>
        tab_export num_is_true w t))) =
  (tab_outputs num_is_true w t, snd (tab_export num_is_true w t)).
Proof.
  unfold tab_outputs.
  rewrite (bind_inr _ (quiet_run (quiet_tab_overview w t))). cbn [fst snd].
  destruct (tab_flagged_run w t (count_rows num_is_true w t)) as [Hf _].
  destruct (tab_flagged num_is_true w t (count_rows num_is_true w t))
    as [ofl rf] eqn:Ef.
  destruct (tab_export num_is_true w t) as [oe re] eqn:Ee.
  simpl in Hf. subst rf.
  rewrite (bind_inr _ eq_refl). cbn [fst snd].
  rewrite (bind_inr _ (quiet_run (quiet_tab_trends w t))). cbn [fst snd].
  reflexivity.
Qed.

Lemma render_filtered_run w t inp :
  render_filtered num_is_true w t inp =
  match count_rows num_is_true w t with
  | O => ([no_data_warning],
          inl Stopped)
  | _ =>
      match date_pair inp with
      | Some (s, e) =>
          (kpi_outputs num_is_true w t ++ [DateRangeCard s e] ++ tab_outputs num_is_true w t,
           snd (tab_export num_is_true w t))
      | None => (kpi_outputs num_is_true w t, inl (Raised "NameError"))
      end
  end.
Proof.
  unfold render_filtered.
  destruct (count_rows num_is_true w t) as [|n] eqn:En; [reflexivity|].
  rewrite <- En, kpis_run.
  destruct (date_pair inp) as [[s e]|].
  - rewrite (bind_inr _ eq_refl), tabs_run. cbn [fst snd].
    now rewrite <- app_assoc.
  - reflexivity.
Qed.

(** The sidebar shows warnings only; it stops when there is no user to
    choose from, and goes on with [query_conditions] otherwise. *)

Lemma sidebar_warnings_quiet inp :
  Forall (fun o => is_content o = false) (sidebar_warnings inp).
Proof.
  unfold sidebar_warnings. destruct (date_pair inp); now repeat constructor.
Qed.

Lemma sidebar_run t inp :
  sidebar num_is_true t inp =
  match t with
  | [] => ([], inl (Raised "ValueError"))
  | _ =>
      match selected_users inp, all_users num_is_true t inp with
      | [], [] => (sidebar_warnings inp ++ [no_users_warning], inl Stopped)
      | _, _ => (sidebar_warnings inp, inr (query_conditions inp))
      end
  end.
Proof.
  unfold sidebar, sidebar_warnings. destruct t as [|r0 t']; [reflexivity|].
  destruct (date_pair inp) as [p|];
    destruct (selected_users inp) as [|u us];
    destruct (all_users num_is_true (r0 :: t') inp) as [|a au];
    reflexivity.
Qed.

Lemma render_run t inp :
  render num_is_true (Some t) inp =
  match t with
  | [] => ([], inl (Raised "ValueError"))
  | _ =>
      match selected_users inp, all_users num_is_true t inp with
      | [], [] => (sidebar_warnings inp ++ [no_users_warning], inl Stopped)
      | _, _ =>
          (sidebar_warnings inp ++
             fst (render_filtered num_is_true (query_conditions inp) t inp),
           snd (render_filtered num_is_true (query_conditions inp) t inp))
      end
  end.
Proof.
  unfold render. rewrite sidebar_run. destruct t as [|r0 t']; [reflexivity|].
  destruct (selected_users inp) as [|u us];
    destruct (all_users num_is_true (r0 :: t') inp) as [|a au];
    try reflexivity; now rewrite (bind_inr _ eq_refl).
Qed.

(** When no user is in the date range, no row passes the clause. *)
Lemma all_users_nil t inp :
  all_users num_is_true t inp = [] ->
  select_rows num_is_true (query_conditions inp) t = [].
Proof.
  intros H. unfold select_rows, query_conditions.
  destruct (filter _ t) as [|r rows] eqn:E; [reflexivity|].
  exfalso.
  assert (Hr : In r (filter (eval_where num_is_true
                 (date_conditions inp ++ user_conditions inp ++
                  risk_conditions inp ++ spike_conditions inp)) t))
    by (rewrite E; now left).
  apply filter_In in Hr. destruct Hr as [Hr Hw].
  rewrite eval_where_app in Hw. apply andb_true_iff in Hw.
  destruct Hw as [Hw _].
  assert (Hu : In (d_user r) (all_users num_is_true t inp)).
  { unfold all_users. apply sorted_distinct_In. apply in_map.
    apply select_rows_In. now split. }
  rewrite H in Hu. contradiction.
Qed.

End DashboardFacts.

Section RenderFacts.
Variable num_is_true : fval -> bool.

Lemma quiet_In (m : Run unit) o :
  quiet m -> In o (fst m) -> is_table_or_export o = false.
Proof. intros [_ H] Ho. rewrite Forall_forall in H. now apply H. Qed.

Lemma sidebar_warnings_In inp o :
  In o (sidebar_warnings inp) -> is_content o = false.
Proof.
  intros H. pose proof (sidebar_warnings_quiet inp) as F.
  rewrite Forall_forall in F. now apply F.
Qed.

(** A table or an export on the page comes from the detail tab or the
    export tab of a render that got past the count, whose header shows
    the count. *)
Lemma render_table_or_export t inp o :
  In o (outputs (render num_is_true (Some t) inp)) ->
  is_table_or_export o = true ->
  let w := query_conditions inp in
  let n := count_rows num_is_true w t in
  In (Subheader n) (outputs (render num_is_true (Some t) inp)) /\
  (In o (fst (tab_flagged num_is_true w t n)) \/
   In o (fst (tab_export num_is_true w t))).
Proof.
  intros Ho Hk w n. unfold outputs in *. rewrite render_run in *.
  assert (Hsw : forall l, In o (sidebar_warnings inp ++ l) -> In o l).
  { intros l H. apply in_app_or in H. destruct H as [H|H]; [|exact H].
    apply sidebar_warnings_In in H. destruct o; simpl in *; discriminate. }
  destruct t as [|r0 t']; [contradiction|]. set (t := r0 :: t') in *.
  assert (G : In o (fst (render_filtered num_is_true w t inp)) ->
              In (Subheader n) (fst (render_filtered num_is_true w t inp)) /\
              (In o (fst (tab_flagged num_is_true w t n)) \/
               In o (fst (tab_export num_is_true w t)))).
  { rewrite render_filtered_run. subst n.
    destruct (count_rows num_is_true w t) as [|n'] eqn:En.
    - intros [<-|[]]. discriminate.
    - destruct (date_pair inp) as [[s e]|]; cbn [fst].
      + intros H. split.
        { apply in_or_app. left. unfold kpi_outputs. rewrite En. now left. }
        apply in_app_or in H. destruct H as [H|H].
        { unfold kpi_outputs in H. simpl in H.
          repeat (destruct H as [<-|H]; [discriminate|]). contradiction. }
        apply in_app_or in H. destruct H as [[<-|[]]|H]; [discriminate|].
        unfold tab_outputs in H. rewrite En in H.
        apply in_app_or in H. destruct H as [H|H].
        { apply (@quiet_In _ _ (quiet_tab_overview num_is_true w t)) in H.
          congruence. }
        apply in_app_or in H. destruct H as [H|H]; [left; exact H|].
        apply in_app_or in H. destruct H as [H|H]; [|right; exact H].
        apply (@quiet_In _ _ (quiet_tab_trends num_is_true w t)) in H.
        congruence.
      + intros H. unfold kpi_outputs in H. simpl in H.
        repeat (destruct H as [<-|H]; [discriminate|]). contradiction. }
  destruct (selected_users inp) as [|u us];
    [destruct (all_users num_is_true t inp) as [|a au]|];
    cbn [fst] in *.
  - apply Hsw in Ho. destruct Ho as [<-|[]]. discriminate.
  - apply Hsw in Ho. destruct (G Ho) as [G1 G2].
    split; [apply in_or_app; now right|exact G2].
  - apply Hsw in Ho. destruct (G Ho) as [G1 G2].
    split; [apply in_or_app; now right|exact G2].
Qed.

End RenderFacts.

Section SpikeFilterFacts.
Variable num_is_true : fval -> bool.

Lemma spike_condition_ticked c inp :
  In (SpikeIsTrue c) (query_conditions inp) <-> ticked c inp = true.
Proof.
  unfold query_conditions, date_conditions, user_conditions, risk_conditions,
    spike_conditions.
  destruct (date_pair inp) as [[s e]|];
    destruct (selected_users inp) as [|u us];
    destruct (selected_risk_levels inp) as [|l ls];
    destruct c; cbn [ticked];
    destruct (filter_logon_spike inp), (filter_http_spike inp),
      (filter_device_spike inp); cbn [app In];
    split; intros H; try reflexivity; try discriminate H; auto;
    repeat (destruct H as [H|H]; [discriminate H|]);
    repeat (destruct H as [H|H]; [try discriminate H; try reflexivity|]);
    try contradiction; auto 10.
Qed.

Lemma spike_conditions_eval inp r :
  eval_where num_is_true (spike_conditions inp) r = true <->
  (forall c, ticked c inp = true ->
             cell_is_true num_is_true (spike_cell c r) = true).
Proof.
  unfold spike_conditions. split.
  - intros H c Hc. destruct c; cbn [ticked] in Hc; rewrite Hc in H;
      rewrite !eval_where_app in H; cbn [eval_where forallb eval_cond] in H;
      repeat (apply andb_true_iff in H; destruct H as [? H]);
      repeat match goal with
             | K : (_ && _)%bool = true |- _ =>
                 apply andb_true_iff in K; destruct K
             end; assumption.
  - intros H. rewrite !eval_where_app.
    pose proof (H LogonSpike) as H1. pose proof (H HttpSpike) as H2.
    pose proof (H DeviceSpike) as H3. cbn [ticked spike_cell] in *.
    destruct (filter_logon_spike inp), (filter_http_spike inp),
      (filter_device_spike inp);
      cbn [eval_where forallb eval_cond spike_cell andb];
      rewrite ?H1, ?H2, ?H3 by reflexivity; reflexivity.
Qed.

End SpikeFilterFacts.

(* ================================================================== *)
(** * More facts about the aggregates and the merged frame *)
(* ================================================================== *)

Lemma string_leb_refl s : String.leb s s = true.
Proof. unfold String.leb. now rewrite string_compare_refl. Qed.

Lemma string_leb_trans a b c :
  String.leb a b = true -> String.leb b c = true -> String.leb a c = true.
Proof.
  unfold String.leb.
  destruct (String.compare a b) eqn:Eab; try discriminate;
    destruct (String.compare b c) eqn:Ebc; try discriminate; intros _ _.
  - apply String.compare_eq_iff in Eab, Ebc. subst.
    now rewrite string_compare_refl.
  - apply String.compare_eq_iff in Eab. subst. now rewrite Ebc.
  - apply String.compare_eq_iff in Ebc. subst. now rewrite Eab.
  - now rewrite (string_compare_lt_trans _ _ _ Eab Ebc).
Qed.

Lemma key_leb_total a b : key_leb a b = true \/ key_leb b a = true.
Proof.
  unfold key_leb. rewrite (String.compare_antisym (fst b) (fst a)).
  destruct (String.compare (fst a) (fst b)); simpl; auto.
  apply String.leb_total.
Qed.

Lemma key_leb_trans a b c :
  key_leb a b = true -> key_leb b c = true -> key_leb a c = true.
Proof.
  unfold key_leb.
  destruct (String.compare (fst a) (fst b)) eqn:Eab; try discriminate;
    destruct (String.compare (fst b) (fst c)) eqn:Ebc; try discriminate;
    intros H1 H2.
  - apply String.compare_eq_iff in Eab, Ebc. rewrite Eab, Ebc.
    rewrite string_compare_refl. eapply string_leb_trans; eassumption.
  - apply String.compare_eq_iff in Eab. now rewrite Eab, Ebc.
  - apply String.compare_eq_iff in Ebc. now rewrite <- Ebc, Eab.
  - now rewrite (string_compare_lt_trans _ _ _ Eab Ebc).
Qed.

Lemma group_keys_sorted ks :
  StronglySorted (fun a b => key_leb a b = true) (group_keys ks).
Proof.
  unfold group_keys, sorted_distinct. apply stable_sort_sorted.
  - apply key_leb_total.
  - apply key_leb_trans.
Qed.

Lemma groupby_In {E V} (kf : E -> key) (agg : list E -> V) evs k v :
  In (k, v) (groupby kf agg evs) ->
  v = agg (filter (fun e => key_eqb (kf e) k) evs).
Proof.
  unfold groupby. rewrite in_map_iff. intros [k' [Hk _]].
  now inversion Hk; subst.
Qed.

Lemma filter_key_nil {E} (kf : E -> key) evs k :
  ~ In k (map kf evs) -> filter (fun e => key_eqb (kf e) k) evs = [].
Proof.
  intros H. destruct (filter _ evs) as [|e t] eqn:F; [reflexivity|].
  exfalso. apply H.
  assert (He : In e (filter (fun e => key_eqb (kf e) k) evs))
    by (rewrite F; now left).
  apply filter_In in He. destruct He as [He Hk].
  apply key_eqb_eq in Hk. subst k. now apply in_map.
Qed.

Lemma merge_key_none_left {A B} k (ls : list A) (rs : list B) k' ob :
  In (k', (None, ob)) (merge_key k ls rs) -> ls = [].
Proof.
  unfold merge_key. destruct ls as [|a ls]; [reflexivity|].
  destruct rs as [|b rs].
  - rewrite in_map_iff. intros [a' [E _]]. discriminate E.
  - rewrite in_flat_map. intros [a' [_ H]].
    apply in_map_iff in H. destruct H as [b' [E _]]. discriminate E.
Qed.

Lemma merge_key_none_right {A B} k (ls : list A) (rs : list B) k' oa :
  In (k', (oa, None)) (merge_key k ls rs) -> rs = [].
Proof.
  unfold merge_key. destruct rs as [|b rs]; [reflexivity|].
  destruct ls as [|a ls].
  - rewrite in_map_iff. intros [b' [E _]]. discriminate E.
  - rewrite in_flat_map. intros [a' [_ H]].
    apply in_map_iff in H. destruct H as [b' [E _]]. discriminate E.
Qed.

Lemma merge_outer_none_left {A B} (l : list (key * A)) (r : list (key * B)) k ob :
  In (k, (None, ob)) (merge_outer l r) -> ~ In k (map fst l).
Proof.
  unfold merge_outer. rewrite in_flat_map. intros [k' [_ H]] Hin.
  pose proof (merge_key_keys _ _ _ _ H) as E. simpl in E. subst k'.
  apply merge_key_none_left in H. now apply (rows_of_cons k l Hin).
Qed.

Lemma merge_outer_none_right {A B} (l : list (key * A)) (r : list (key * B)) k oa :
  In (k, (oa, None)) (merge_outer l r) -> ~ In k (map fst r).
Proof.
  unfold merge_outer. rewrite in_flat_map. intros [k' [_ H]] Hin.
  pose proof (merge_key_keys _ _ _ _ H) as E. simpl in E. subst k'.
  apply merge_key_none_right in H. now apply (rows_of_cons k r Hin).
Qed.

Section MergedCells.
Variables (logon_df : list LogonEvent) (http_df : list HttpEvent)
  (device_df : list DeviceEvent).
Variables (k : key) (c : merged_cells).
Hypothesis row : In (k, c) (merged_raw logon_df http_df device_df).

Lemma merged_logon_keys :
  map fst (merge_outer (logon_agg logon_df) (http_agg http_df)) =
  group_keys (group_keys (map lg_key logon_df) ++ group_keys (map ht_key http_df)).
Proof.
  rewrite merge_outer_keys; unfold logon_agg, http_agg;
    rewrite ?groupby_keys; try apply group_keys_NoDup. reflexivity.
Qed.

Lemma merged_cell_logon :
  cell_logon c =
  if in_dec key_eq_dec k (map lg_key logon_df)
  then Some (agg_count (map lg_activity (logon_events k logon_df)))
  else None.
Proof.
  unfold merged_raw in row.
  destruct (in_dec key_eq_dec k (map lg_key logon_df)) as [Hin|Hn];
    [|exact (@merged_raw_logon_absent _ _ _ _ _ row Hn)].
  destruct c as [[[ol oh]|] od]; unfold cell_logon; cbn [fst].
  - apply merge_outer_cells in row. destruct row as [H _].
    specialize (H _ eq_refl). destruct ol as [v|].
    + apply merge_outer_cells in H. destruct H as [H _].
      specialize (H _ eq_refl). apply groupby_In in H. now rewrite H.
    + exfalso. apply merge_outer_none_left in H. apply H.
      unfold logon_agg. rewrite groupby_keys. now apply group_keys_In.
  - exfalso. apply merge_outer_none_left in row. apply row.
    unfold merged_cells in *. rewrite merged_logon_keys.
    apply group_keys_In, in_or_app. left. now apply group_keys_In.
Qed.

Lemma merged_cell_http :
  cell_http c =
  if in_dec key_eq_dec k (map ht_key http_df)
  then Some (agg_count (map ht_url (http_events k http_df)),
             column_sum (map ht_bytes_sent http_df)
               (map ht_bytes_sent (http_events k http_df)),
             column_sum (map ht_bytes_received http_df)
               (map ht_bytes_received (http_events k http_df)))
  else None.
Proof.
  unfold merged_raw in row.
  destruct (in_dec key_eq_dec k (map ht_key http_df)) as [Hin|Hn];
    [|exact (@merged_raw_http_absent _ _ _ _ _ row Hn)].
  destruct c as [[[ol oh]|] od]; unfold cell_http; cbn [fst].
  - apply merge_outer_cells in row. destruct row as [H _].
    specialize (H _ eq_refl). destruct oh as [v|].
    + apply merge_outer_cells in H. destruct H as [_ H].
      specialize (H _ eq_refl). apply groupby_In in H. now rewrite H.
    + exfalso. apply merge_outer_none_right in H. apply H.
      unfold http_agg. rewrite groupby_keys. now apply group_keys_In.
  - exfalso. apply merge_outer_none_left in row. apply row.
    unfold merged_cells in *. rewrite merged_logon_keys.
    apply group_keys_In, in_or_app. right. now apply group_keys_In.
Qed.

Lemma merged_cell_device :
  cell_device c =
  if in_dec key_eq_dec k (map dv_key device_df)
  then Some (agg_count (map dv_activity (device_events k device_df)))
  else None.
Proof.
  unfold merged_raw in row.
  destruct (in_dec key_eq_dec k (map dv_key device_df)) as [Hin|Hn];
    [|exact (@merged_raw_device_absent _ _ _ _ _ row Hn)].
  destruct c as [o12 od]; unfold cell_device; cbn [snd].
  destruct od as [v|].
  - apply merge_outer_cells in row. destruct row as [_ H].
    specialize (H _ eq_refl). apply groupby_In in H. now rewrite H.
  - exfalso. apply merge_outer_none_right in row. apply row.
    unfold device_agg. rewrite groupby_keys. now apply group_keys_In.
Qed.

End MergedCells.

Lemma column_sum_nil column : column_sum column [] = 0%Q.
Proof. unfold column_sum. now destruct (forallb is_int64 column). Qed.

(** Every measure of a merged row is the aggregate over the events of
    the row's key, zero when there is none. *)
Lemma merged_row_measures logon_df http_df device_df r :
  In r (merged_df logon_df http_df device_df) ->
  let k := row_key r in
  logon_count r = agg_count (map lg_activity (logon_events k logon_df)) /\
  http_requests r = agg_count (map ht_url (http_events k http_df)) /\
  http_bytes_sent r =
    column_sum (map ht_bytes_sent http_df)
      (map ht_bytes_sent (http_events k http_df)) /\
  http_bytes_received r =
    column_sum (map ht_bytes_received http_df)
      (map ht_bytes_received (http_events k http_df)) /\
  device_activity_count r = agg_count (map dv_activity (device_events k device_df)).
Proof.
  intros Hr k. destruct (merged_df_row _ _ _ _ Hr) as [c [Hc Er]].
  fold k in Hc, Er. rewrite Er. unfold fill_row.
  cbn [logon_count http_requests http_bytes_sent http_bytes_received
       device_activity_count snd].
  rewrite (@merged_cell_logon _ _ _ _ _ Hc), (@merged_cell_http _ _ _ _ _ Hc),
    (@merged_cell_device _ _ _ _ _ Hc).
  unfold logon_events, http_events, device_events.
  destruct (in_dec key_eq_dec k (map lg_key logon_df)) as [H1|H1];
    destruct (in_dec key_eq_dec k (map ht_key http_df)) as [H2|H2];
    destruct (in_dec key_eq_dec k (map dv_key device_df)) as [H3|H3];
    try rewrite (@filter_key_nil _ lg_key logon_df k H1);
    try rewrite (@filter_key_nil _ ht_key http_df k H2);
    try rewrite (@filter_key_nil _ dv_key device_df k H3);
    cbn [map]; rewrite ?column_sum_nil;
    repeat split; reflexivity.
Qed.

Lemma agg_count_nonneg {A} (cells : list (option A)) : (0 <= agg_count cells)%Q.
Proof.
  unfold agg_count. change 0%Q with (inject_Z 0). rewrite <- Zle_Qle. lia.
Qed.

Lemma agg_count_zero {A} (cells : list (option A)) :
  (agg_count cells == 0)%Q <-> forall c, In c cells -> c = None.
Proof.
  unfold agg_count. change 0%Q with (inject_Z 0). rewrite inject_Z_injective.
  split.
  - intros H c Hc. destruct c as [a|]; [|reflexivity]. exfalso.
    assert (Hin : In (Some a) (filter non_empty cells))
      by (apply filter_In; now split).
    destruct (filter non_empty cells); [contradiction|simpl in H; lia].
  - intros H. destruct (filter non_empty cells) as [|c t] eqn:F; [reflexivity|].
    exfalso. assert (Hc : In c (filter non_empty cells)) by (rewrite F; now left).
    apply filter_In in Hc. destruct Hc as [Hc Hne].
    rewrite (H c Hc) in Hne. discriminate.
Qed.

(** ** Sums of an int64 column *)

Lemma agg_sum_whole (cells : list (option Q)) :
  forallb is_int64 cells = true ->
  exists z, (agg_sum cells == inject_Z z)%Q.
Proof.
  induction cells as [|c t IH]; intros H.
  - exists 0%Z. reflexivity.
  - cbn [forallb] in H. apply andb_true_iff in H. destruct H as [Hc Ht].
    destruct (IH Ht) as [z Ez].
    destruct c as [q|]; [|discriminate].
    cbn [is_int64] in Hc. rewrite !andb_true_iff in Hc.
    destruct Hc as [[Hq _] _]. apply Qeq_bool_iff in Hq.
    exists (Qfloor q + z)%Z. cbn [agg_sum fold_right].
    fold (agg_sum t). rewrite Ez, inject_Z_plus, <- Hq. reflexivity.
Qed.

Lemma wrap_int64_small z :
  (- 9223372036854775808 <= z < 9223372036854775808)%Z -> wrap_int64 z = z.
Proof. intros H. unfold wrap_int64. rewrite Z.mod_small; lia. Qed.

Lemma forallb_map_filter {A B} (f : A -> B) (p : B -> bool) (q : A -> bool)
  (l : list A) :
  forallb p (map f l) = true -> forallb p (map f (filter q l)) = true.
Proof.
  rewrite !forallb_forall. intros H b Hb. apply H.
  apply in_map_iff in Hb. destruct Hb as [a [<- Ha]].
  apply filter_In in Ha. apply in_map, Ha.
Qed.

(** Within 2^53 the sum of a group of an int64 column is the exact sum. *)
Lemma column_sum_exact (column cells : list (option Q)) :
  forallb is_int64 column = true ->
  forallb is_int64 cells = true ->
  (inject_Z (- 9007199254740992) <= agg_sum cells <=
   inject_Z 9007199254740992)%Q ->
  (column_sum column cells == agg_sum cells)%Q.
Proof.
  intros Hcol Hcells Hb. unfold column_sum. rewrite Hcol.
  destruct (agg_sum_whole cells Hcells) as [z Ez].
  assert (Ef : Qfloor (agg_sum cells) = z)
    by (rewrite (Qfloor_comp _ _ Ez); apply Qfloor_Z).
  rewrite Ef. destruct Hb as [H1 H2].
  rewrite Ez in H1. rewrite Ez in H2. rewrite <- Zle_Qle in H1, H2.
  rewrite wrap_int64_small by lia. symmetry. exact Ez.
Qed.

(* ================================================================== *)
(** * More facts about the feature frame *)
(* ================================================================== *)

Lemma map_fst_combine {A B} (l : list A) :
  forall l' : list B, List.length l = List.length l' ->
                      map fst (combine l l') = l.
Proof.
  induction l as [|a t IH]; intros [|b t'] H; simpl in *; try lia;
    [reflexivity|]. now rewrite IH by lia.
Qed.

Lemma features_base to_datetime sqrtQ df :
  map base (features to_datetime sqrtQ df) = sort_values to_datetime df.
Proof.
  unfold features. rewrite map_map. cbn [base feature_row].
  change (fun x : MergedRow * Q => fst x) with (@fst MergedRow Q).
  apply map_fst_combine. unfold transform_by_user.
  now rewrite transform_from_length.
Qed.

Lemma Qsum_map_shift (m : Q) (xs : list Q) :
  (Qsum (map (fun x => x - m) xs) == Qsum xs - Qlen xs * m)%Q.
Proof.
  induction xs as [|x t IH]; unfold Qlen in *; cbn [map Qsum fold_right List.length].
  - change (inject_Z (Z.of_nat 0)) with 0%Q. ring.
  - fold (Qsum (map (fun x => (x - m)%Q) t)). fold (Qsum t). rewrite IH.
    rewrite Nat2Z.inj_succ. unfold Z.succ. rewrite inject_Z_plus.
    change (inject_Z 1) with 1%Q. ring.
Qed.

Lemma Qlen_pos (xs : list Q) : xs <> [] -> (0 < Qlen xs)%Q.
Proof.
  intros H. unfold Qlen. change 0%Q with (inject_Z 0). rewrite <- Zlt_Qlt.
  destruct xs; [congruence|simpl List.length; lia].
Qed.

(** The deviations from the mean add up to zero. *)
Lemma Qsum_deviations (xs : list Q) :
  xs <> [] -> (Qsum (map (fun x => x - mean xs) xs) == 0)%Q.
Proof.
  intros H. rewrite Qsum_map_shift. unfold mean.
  pose proof (Qlen_pos H). field. lra.
Qed.

Lemma Qsum_map_div {A} (f : A -> Q) (s : Q) (l : list A) :
  (Qsum (map (fun a => f a / s) l) == Qsum (map f l) / s)%Q.
Proof.
  induction l as [|a t IH]; cbn [map Qsum fold_right].
  - unfold Qdiv. ring.
  - fold (Qsum (map (fun a => (f a / s)%Q) t)). fold (Qsum (map f t)).
    rewrite IH. unfold Qdiv. ring.
Qed.

Lemma Qsum_ext_in {A} (f g : A -> Q) (l : list A) :
  (forall a, In a l -> (f a == g a)%Q) ->
  (Qsum (map f l) == Qsum (map g l))%Q.
Proof.
  induction l as [|a t IH]; intros H; cbn [map Qsum fold_right];
    [reflexivity|].
  fold (Qsum (map f t)). fold (Qsum (map g t)).
  rewrite (H a) by now left. rewrite IH; [reflexivity|].
  intros b Hb. apply H. now right.
Qed.

Lemma baseline_mean_user (col : MergedRow -> Q) df u r :
  In r (user_rows u df) ->
  baseline_mean col df r = mean (map col (user_rows u df)).
Proof.
  intros H. apply user_rows_In in H. destruct H as [_ <-]. reflexivity.
Qed.

Lemma baseline_std_user sqrtQ (col : MergedRow -> Q) df u r :
  In r (user_rows u df) ->
  baseline_std sqrtQ col df r = std sqrtQ (map col (user_rows u df)).
Proof.
  intros H. apply user_rows_In in H. destruct H as [_ <-]. reflexivity.
Qed.

Lemma mean_singleton (x : Q) : (mean [x] == x)%Q.
Proof. unfold mean, Qlen. simpl. field. Qed.

Lemma mean_pair (x y : Q) : (mean [x; y] == (x + y) / 2)%Q.
Proof. unfold mean, Qlen. simpl. field. Qed.

(* ================================================================== *)
(** * More facts about the quantiles and the scored frame *)
(* ================================================================== *)

Lemma stable_sort_nil {A} (leb : A -> A -> bool) l :
  stable_sort leb l = [] <-> l = [].
Proof.
  split; [|now intros ->]. intros H. apply Permutation_nil.
  rewrite <- H. symmetry. apply stable_sort_perm.
Qed.

Lemma quantile_none q xs : quantile q xs = None <-> xs = [].
Proof.
  rewrite quantile_interp, <- (stable_sort_nil Qle_bool xs).
  destruct (stable_sort Qle_bool xs); split; congruence.
Qed.

(** A quantile lies between two values of the column. *)
Lemma quantile_between q xs v :
  (0 <= q)%Q -> (q <= 1)%Q -> quantile q xs = Some v ->
  exists a b, In a xs /\ In b xs /\ (a <= v)%Q /\ (v <= b)%Q.
Proof.
  intros H0 H1. rewrite quantile_interp.
  pose proof (stable_sort_sorted Qle_bool Qle_bool_total Qle_bool_trans xs) as Hs.
  pose proof (fun x => stable_sort_In Qle_bool x xs) as Hin.
  destruct (stable_sort Qle_bool xs) as [|a0 t] eqn:E; [discriminate|].
  intros Hv. inversion Hv as [Ev]. clear Hv.
  set (a := a0 :: t) in *.
  assert (Hn : (0 <= Qlen a - 1)%Q) by (apply Qlen_pos_minus_one; discriminate).
  assert (Hlen : (Qlen a - 1 == inject_Z (Z.of_nat (List.length a) - 1))%Q).
  { unfold Qlen. unfold Zminus. rewrite inject_Z_plus.
    change (inject_Z (- (1))) with (-1 # 1)%Q. lra. }
  set (pos := (q * (Qlen a - 1))%Q) in *.
  assert (P0 : (0 <= pos)%Q) by (apply Qmult_le_0_compat; lra).
  assert (P1 : (pos <= inject_Z (Z.of_nat (List.length a) - 1))%Q).
  { rewrite <- Hlen. unfold pos.
    assert (0 <= (1 - q) * (Qlen a - 1))%Q by (apply Qmult_le_0_compat; lra).
    lra. }
  destruct (interp_bounds a0 Hs P0 P1) as [Hlo Hhi].
  pose proof (floor_range a P0 P1) as Hr.
  exists (nth (Z.to_nat (Qfloor pos)) a a0),
         (nth (Z.to_nat (Z.min (Qfloor pos + 1) (Z.of_nat (List.length a) - 1))) a a0).
  repeat split; try assumption; apply Hin, nth_In; lia.
Qed.

Section ScoringFacts2.
Variable predict : list (list fval) -> list fval -> Z.
Variable decision_function : list (list fval) -> list fval -> Q.

Lemma risk_scores_nil fs : risk_scores decision_function fs = [] <-> fs = [].
Proof.
  unfold risk_scores. split; [apply map_eq_nil|now intros ->].
Qed.

(** The scored frame of a frame with rows: every row, scored against the
    two thresholds. *)
Lemma score_spec fs :
  fs <> [] ->
  exists lo hi,
    low_thresh decision_function fs = Some lo /\
    high_thresh decision_function fs = Some hi /\
    (lo <= hi)%Q /\
    score predict decision_function fs =
      map (scored_row predict decision_function (map X_row fs) lo hi) fs.
Proof.
  intros Hne. unfold score.
  destruct (low_thresh decision_function fs) as [lo|] eqn:El.
  - destruct (high_thresh decision_function fs) as [hi|] eqn:Eh.
    + exists lo, hi. repeat split. exact (thresholds_ordered _ _ El Eh).
    + apply quantile_none, risk_scores_nil in Eh. contradiction.
  - apply quantile_none, risk_scores_nil in El. contradiction.
Qed.

Lemma score_feat fs : map feat (score predict decision_function fs) = fs.
Proof.
  destruct fs as [|f t]; [reflexivity|].
  destruct (@score_spec (f :: t)) as (lo & hi & _ & _ & _ & ->); [discriminate|].
  rewrite map_map. apply map_id.
Qed.

Lemma score_risk_scores fs :
  map risk_score (score predict decision_function fs) =
  risk_scores decision_function fs.
Proof.
  destruct fs as [|f t]; [reflexivity|].
  destruct (@score_spec (f :: t)) as (lo & hi & _ & _ & _ & ->); [discriminate|].
  rewrite map_map. reflexivity.
Qed.

(** A row is High exactly when its score reaches the upper threshold,
    which some score of the frame does. *)
Lemma score_high fs r :
  In r (score predict decision_function fs) ->
  exists hi,
    high_thresh decision_function fs = Some hi /\
    (risk_level r = High <-> (hi <= risk_score r)%Q) /\
    exists r', In r' (score predict decision_function fs) /\
               (hi <= risk_score r')%Q.
Proof.
  intros Hr.
  destruct (score_rows _ _ _ _ Hr) as (lo & hi & Hlo & Hhi & Hl).
  pose proof (thresholds_ordered _ _ Hlo Hhi) as Hle.
  exists hi. split; [exact Hhi|]. split.
  - rewrite Hl. now apply classify_risk_High.
  - unfold high_thresh in Hhi.
    destruct (@quantile_between (95 # 100)%Q _ _ ltac:(lra) ltac:(lra) Hhi)
      as (_ & b & _ & Hb & _ & Hvb).
    rewrite <- score_risk_scores in Hb. apply in_map_iff in Hb.
    destruct Hb as [r' [<- Hr']]. eauto.
Qed.

End ScoringFacts2.

Lemma StronglySorted_app_inv {A} (R : A -> A -> Prop) (l1 l2 : list A) :
  StronglySorted R (l1 ++ l2) ->
  StronglySorted R l1 /\ StronglySorted R l2 /\
  forall a b, In a l1 -> In b l2 -> R a b.
Proof.
  induction l1 as [|x t IH]; simpl; intros H.
  - repeat split; [constructor|exact H|contradiction].
  - inversion H as [|? ? Ht Hx]; subst. destruct (IH Ht) as (S1 & S2 & C).
    rewrite Forall_forall in Hx.
    repeat split; [constructor|exact S2|].
    + exact S1.
    + apply Forall_forall. intros y Hy. apply Hx, in_or_app. now left.
    + intros a b [<-|Ha] Hb; [apply Hx, in_or_app; now right|now apply C].
Qed.

Lemma StronglySorted_firstn {A} (R : A -> A -> Prop) n (l : list A) :
  StronglySorted R l -> StronglySorted R (firstn n l).
Proof.
  intros H. rewrite <- (firstn_skipn n l) in H.
  now apply StronglySorted_app_inv in H.
Qed.

Lemma Qge_bool_total (a b : Q) :
  Qle_bool b a = true \/ Qle_bool a b = true.
Proof. apply Qle_bool_total. Qed.

(* ================================================================== *)
(** * More facts about the dashboard *)
(* ================================================================== *)

Lemma filter_length_le {A} (p : A -> bool) (l : list A) :
  (List.length (filter p l) <= List.length l)%nat.
Proof.
  induction l as [|a t IH]; simpl; [lia|]. destruct (p a); simpl; lia.
Qed.

Lemma filter_length_mono {A} (p q : A -> bool) (l : list A) :
  (forall a, In a l -> p a = true -> q a = true) ->
  (List.length (filter p l) <= List.length (filter q l))%nat.
Proof.
  induction l as [|a t IH]; intros H; simpl; [lia|].
  assert (Ht : (List.length (filter p t) <= List.length (filter q t))%nat)
    by (apply IH; intros b Hb; apply H; now right).
  destruct (p a) eqn:Ep.
  - rewrite (H a (or_introl eq_refl) Ep). simpl. lia.
  - destruct (q a); simpl; lia.
Qed.

Section FilterFacts.
Variable num_is_true : fval -> bool.

Lemma date_conditions_eval inp r :
  eval_where num_is_true (date_conditions inp) r = true <-> date_ok inp r.
Proof.
  unfold date_conditions, date_ok. destruct (date_pair inp) as [[s e]|].
  - cbn [eval_where forallb eval_cond].
    rewrite andb_true_r, andb_true_iff, !Z.leb_le. tauto.
  - cbn. tauto.
Qed.

Lemma user_conditions_eval inp r :
  eval_where num_is_true (user_conditions inp) r = true <-> user_ok inp r.
Proof.
  unfold user_conditions, user_ok. destruct (selected_users inp) as [|u us].
  - cbn. tauto.
  - cbn [eval_where forallb eval_cond]. rewrite andb_true_r, string_in_In.
    split; [auto|]. intros [H|H]; [discriminate|exact H].
Qed.

Lemma risk_conditions_eval inp r :
  eval_where num_is_true (risk_conditions inp) r = true <-> level_ok inp r.
Proof.
  unfold risk_conditions, level_ok.
  destruct (selected_risk_levels inp) as [|u us].
  - cbn. tauto.
  - cbn [eval_where forallb eval_cond]. rewrite andb_true_r, string_in_In.
    split; [auto|]. intros [H|H]; [discriminate|exact H].
Qed.

(** The clause is the conjunction of the four groups of filters. *)
Lemma query_conditions_eval inp r :
  eval_where num_is_true (query_conditions inp) r = true <->
  date_ok inp r /\ user_ok inp r /\ level_ok inp r /\
  (forall c, ticked c inp = true ->
             cell_is_true num_is_true (spike_cell c r) = true).
Proof.
  unfold query_conditions.
  rewrite !eval_where_app, !andb_true_iff, date_conditions_eval,
    user_conditions_eval, risk_conditions_eval, spike_conditions_eval.
  tauto.
Qed.

Lemma ticked_tick c c' inp :
  ticked c' inp = true -> ticked c' (tick c inp) = true.
Proof. destruct c, c'; cbn; auto. Qed.

Lemma tick_narrows c inp r :
  eval_where num_is_true (query_conditions (tick c inp)) r = true ->
  eval_where num_is_true (query_conditions inp) r = true.
Proof.
  rewrite !query_conditions_eval.
  intros (Hd & Hu & Hl & Hs). repeat split; try assumption.
  intros c' Hc'. apply Hs. now apply ticked_tick.
Qed.

(** ** How a render ends and what it shows *)

Lemma count_zero_no_users t inp :
  all_users num_is_true t inp = [] ->
  count_rows num_is_true (query_conditions inp) t = 0%nat.
Proof.
  intros H. rewrite count_rows_length.
  now rewrite (all_users_nil num_is_true t inp H).
Qed.

Lemma render_status t inp :
  status (render num_is_true (Some t) inp) =
  match t with
  | [] => Raised "ValueError"
  | _ =>
      match count_rows num_is_true (query_conditions inp) t with
      | O => Stopped
      | _ =>
          match date_pair inp with
          | Some _ =>
              if sheet_too_large (select_rows num_is_true (query_conditions inp) t)
              then Raised "ValueError" else Completed
          | None => Raised "NameError"
          end
      end
  end.
Proof.
  unfold status. rewrite render_run. destruct t as [|r0 t']; [reflexivity|].
  set (t := r0 :: t').
  assert (G : match snd (render_filtered num_is_true (query_conditions inp) t inp) with
              | inl s => s
              | inr _ => Completed
              end =
              match count_rows num_is_true (query_conditions inp) t with
              | O => Stopped
              | _ => match date_pair inp with
                     | Some _ =>
                         if sheet_too_large
                              (select_rows num_is_true (query_conditions inp) t)
                         then Raised "ValueError" else Completed
                     | None => Raised "NameError"
                     end
              end).
  { rewrite render_filtered_run.
    destruct (count_rows num_is_true (query_conditions inp) t);
      [reflexivity|].
    destruct (date_pair inp) as [[s e]|]; [|reflexivity]. cbn [snd].
    rewrite (proj1 (tab_export_run num_is_true (query_conditions inp) t)).
    now destruct (sheet_too_large _). }
  destruct (selected_users inp) as [|u us] eqn:Eu;
    [destruct (all_users num_is_true t inp) as [|a au] eqn:Ea|];
    cbn [snd]; try exact G.
  now rewrite (count_zero_no_users t inp Ea).
Qed.

Lemma render_outputs t inp :
  count_rows num_is_true (query_conditions inp) t <> 0%nat ->
  outputs (render num_is_true (Some t) inp) =
  sidebar_warnings inp ++ kpi_outputs num_is_true (query_conditions inp) t ++
  match date_pair inp with
  | Some (s, e) =>
      DateRangeCard s e :: tab_outputs num_is_true (query_conditions inp) t
  | None => []
  end.
Proof.
  intros Hn. unfold outputs. rewrite render_run.
  destruct t as [|r0 t']; [exfalso; apply Hn; reflexivity|].
  set (t := r0 :: t') in *.
  assert (G : fst (render_filtered num_is_true (query_conditions inp) t inp) =
              kpi_outputs num_is_true (query_conditions inp) t ++
              match date_pair inp with
              | Some (s, e) =>
                  DateRangeCard s e ::
                  tab_outputs num_is_true (query_conditions inp) t
              | None => []
              end).
  { rewrite render_filtered_run.
    destruct (count_rows num_is_true (query_conditions inp) t);
      [congruence|].
    destruct (date_pair inp) as [[s e]|]; cbn [fst];
      [reflexivity|now rewrite app_nil_r]. }
  destruct (selected_users inp) as [|u us] eqn:Eu;
    [destruct (all_users num_is_true t inp) as [|a au] eqn:Ea|];
    cbn [fst]; try (now rewrite G).
  exfalso. apply Hn. now apply count_zero_no_users.
Qed.

End FilterFacts.

(* ================================================================== *)
(** * Facts about the views of the dashboard *)
(* ================================================================== *)

Lemma Forall_bind (P : Output -> Prop) (m k : Run unit) :
  Forall P (fst m) -> Forall P (fst k) ->
  Forall P (fst (bind m (fun _ => k))).
Proof.
  intros Hm Hk. destruct m as [o [s|a]]; cbn [bind fst] in *; [exact Hm|].
  destruct k as [o' r]. cbn [fst] in *. apply Forall_app. now split.
Qed.

Lemma Forall_emit (P : Output -> Prop) o : P o -> Forall P (fst (emit o)).
Proof. intros H. now repeat constructor. Qed.

Lemma Forall_chart_or_info (P : Output -> Prop) {K} (rows : list K)
  title data placeholder :
  P (Chart title data) -> (rows = [] -> P (Info placeholder)) ->
  Forall P (fst (chart_or_info rows title data placeholder)).
Proof.
  intros Hc Hi. destruct rows; apply Forall_emit; auto. 
Qed.

Section ViewFacts.
Variable num_is_true : fval -> bool.

(** With rows in the filter none of the placeholders of the charts and
    of the export that are drawn from those rows is shown. *)
Lemma tab_outputs_no_unfiltered_placeholder w t :
  select_rows num_is_true w t <> [] ->
  Forall (fun o => is_unfiltered_placeholder o = false)
         (tab_outputs num_is_true w t).
Proof.
  intros Hne. unfold tab_outputs. repeat (apply Forall_app; split).
  - unfold tab_overview.
    repeat first [apply Forall_bind | apply Forall_emit; reflexivity].
    + apply Forall_chart_or_info; reflexivity.
    + apply Forall_chart_or_info; reflexivity.
    + apply Forall_chart_or_info; [reflexivity|].
      intros C. apply map_eq_nil in C. contradiction.
  - unfold tab_flagged.
    destruct (flagged_details num_is_true w t);
      [apply Forall_emit; reflexivity|].
    apply Forall_bind; [apply Forall_emit; reflexivity|].
    destruct (Nat.ltb 1000 (count_rows num_is_true w t));
      [apply Forall_emit; reflexivity|constructor].
  - unfold tab_trends. apply Forall_bind; [|apply Forall_bind].
    + destruct (sorted_distinct Z.eq_dec Z.leb
                  (map d_date (select_rows num_is_true w t))) as [|d ds] eqn:E.
      * exfalso. destruct (select_rows num_is_true w t) as [|r rs];
          [congruence|].
        assert (Hd : In (d_date r)
                       (sorted_distinct Z.eq_dec Z.leb (map d_date (r :: rs))))
          by (apply sorted_distinct_In; now left).
        rewrite E in Hd. contradiction.
      * apply Forall_bind; apply Forall_emit; reflexivity.
    + apply Forall_chart_or_info; reflexivity.
    + apply Forall_chart_or_info; reflexivity.
  - unfold tab_export.
    destruct (select_rows num_is_true w t) as [|r rs]; [congruence|].
    apply Forall_bind; [apply Forall_emit; reflexivity|].
    destruct (sheet_too_large (r :: rs));
      [constructor|apply Forall_emit; reflexivity].
Qed.

End ViewFacts.

(** ** Grouped counts *)

Section GroupCount.
Context {K : Type}.
Variable eq_dec : forall a b : K, {a = b} + {a <> b}.
Variable leb : K -> K -> bool.
Variable kf : DashRow -> K.

Lemma group_count_keys rows :
  map fst (group_count eq_dec leb kf rows) =
  sorted_distinct eq_dec leb (map kf rows).
Proof. unfold group_count. rewrite map_map. apply map_id. Qed.

Lemma sorted_distinct_NoDup (ks : list K) :
  NoDup (sorted_distinct eq_dec leb ks).
Proof.
  unfold sorted_distinct.
  eapply Permutation_NoDup; [apply stable_sort_perm|apply NoDup_nodup].
Qed.

(** A group is a key of some row, with the number of the rows of that
    key, at least one. *)
Lemma group_count_In rows k n :
  In (k, n) (group_count eq_dec leb kf rows) ->
  n = count_if (key_is eq_dec kf k) rows /\ (1 <= n)%nat /\ In k (map kf rows).
Proof.
  unfold group_count. rewrite in_map_iff. intros [k' [E Hk]].
  inversion E; subst k' n. clear E.
  apply sorted_distinct_In in Hk. split; [reflexivity|]. split; [|exact Hk].
  apply in_map_iff in Hk. destruct Hk as [r [Er Hr]].
  assert (Hin : In r (filter (fun r0 => if eq_dec (kf r0) k then true else false) rows)).
  { apply filter_In. split; [exact Hr|]. destruct (eq_dec (kf r) k); congruence. }
  destruct (filter _ rows); [contradiction|simpl; lia].
Qed.

Lemma group_count_find (eqb : K -> K -> bool) rows k :
  (forall a b, eqb a b = true <-> a = b) ->
  find (fun p => eqb (fst p) k) (group_count eq_dec leb kf rows) =
  if in_dec eq_dec k (map kf rows)
  then Some (k, count_if (key_is eq_dec kf k) rows)
  else None.
Proof.
  intros Heqb. unfold group_count.
  assert (G : forall ks,
             find (fun p => eqb (fst p) k)
               (map (fun k0 => (k0, List.length (filter (fun r => if eq_dec (kf r) k0 then true else false) rows))) ks) =
             if in_dec eq_dec k ks
             then Some (k, count_if (key_is eq_dec kf k) rows) else None).
  { induction ks as [|k0 ks IH]; [reflexivity|].
    cbn [map find fst]. destruct (eqb k0 k) eqn:E.
    - apply Heqb in E. subst k0.
      destruct (in_dec eq_dec k (k :: ks)) as [_|Hn]; [reflexivity|].
      exfalso. apply Hn. now left.
    - rewrite IH.
      destruct (in_dec eq_dec k ks) as [Hi|Hn];
        destruct (in_dec eq_dec k (k0 :: ks)) as [Hi'|Hn'];
        try reflexivity.
      + exfalso. apply Hn'. now right.
      + exfalso. destruct Hi' as [->|Hi']; [|contradiction].
        assert (eqb k k = true) by now apply Heqb. congruence. }
  rewrite G.
  destruct (in_dec eq_dec k (sorted_distinct eq_dec leb (map kf rows))) as [H|H];
    destruct (in_dec eq_dec k (map kf rows)) as [H'|H']; try reflexivity;
    exfalso.
  - apply H'. now apply (proj1 (sorted_distinct_In eq_dec leb k (map kf rows))).
  - apply H. now apply (proj2 (sorted_distinct_In eq_dec leb k (map kf rows))).
Qed.

Lemma count_if_absent rows k :
  ~ In k (map kf rows) -> count_if (key_is eq_dec kf k) rows = 0%nat.
Proof.
  intros H. unfold count_if.
  destruct (filter (key_is eq_dec kf k) rows) as [|r rs] eqn:E; [reflexivity|].
  exfalso. apply H.
  assert (Hr : In r (filter (key_is eq_dec kf k) rows)) by (rewrite E; now left).
  apply filter_In in Hr. destruct Hr as [Hr Hk]. unfold key_is in Hk.
  destruct (eq_dec (kf r) k) as [<-|]; [now apply in_map|discriminate].
Qed.

End GroupCount.

Lemma count_if_ext {A} (p q : A -> bool) (l : list A) :
  (forall a, In a l -> p a = q a) -> count_if p l = count_if q l.
Proof. intros H. unfold count_if. now rewrite (filter_ext_in p q l H). Qed.

Lemma key_is_level l r :
  key_is string_dec d_risk_level l r = level_is l r.
Proof.
  unfold key_is, level_is. destruct (string_dec (d_risk_level r) l) as [->|H].
  - now rewrite String.eqb_refl.
  - symmetry. now apply String.eqb_neq.
Qed.

Lemma key_is_user u r :
  key_is string_dec d_user u r = user_is u r.
Proof.
  unfold key_is, user_is. destruct (string_dec (d_user r) u) as [->|H].
  - now rewrite String.eqb_refl.
  - symmetry. now apply String.eqb_neq.
Qed.

(** ** Sums and means *)

Lemma Qsum_indicator {A} (p : A -> bool) (l : list A) :
  (Qsum (map (fun a => if p a then 1 else 0)%Q l) == Qnat (count_if p l))%Q.
Proof.
  unfold count_if, Qnat. induction l as [|a t IH]; [reflexivity|].
  cbn [map Qsum fold_right filter].
  fold (Qsum (map (fun a => if p a then 1 else 0)%Q t)). rewrite IH.
  destruct (p a); cbn [List.length].
  - rewrite Nat2Z.inj_succ. unfold Z.succ. rewrite inject_Z_plus.
    change (inject_Z 1) with 1%Q. ring.
  - ring.
Qed.

Lemma Qnat_le (n m : nat) : (n <= m)%nat -> (Qnat n <= Qnat m)%Q.
Proof. intros H. unfold Qnat. rewrite <- Zle_Qle. lia. Qed.

Lemma Qsum_le_bound (xs : list Q) (b : Q) :
  (forall x, In x xs -> (x <= b)%Q) -> (Qsum xs <= Qlen xs * b)%Q.
Proof.
  unfold Qlen. induction xs as [|x t IH]; intros H.
  - cbn [Qsum fold_right List.length].
    change (inject_Z (Z.of_nat 0)) with 0%Q. lra.
  - cbn [Qsum fold_right List.length]. fold (Qsum t).
    rewrite Nat2Z.inj_succ. unfold Z.succ. rewrite inject_Z_plus.
    change (inject_Z 1) with 1%Q.
    assert (x <= b)%Q by (apply H; now left).
    assert (Qsum t <= inject_Z (Z.of_nat (List.length t)) * b)%Q
      by (apply IH; intros y Hy; apply H; now right).
    lra.
Qed.

Lemma Qsum_ge_bound (xs : list Q) (a : Q) :
  (forall x, In x xs -> (a <= x)%Q) -> (Qlen xs * a <= Qsum xs)%Q.
Proof.
  unfold Qlen. induction xs as [|x t IH]; intros H.
  - cbn [Qsum fold_right List.length].
    change (inject_Z (Z.of_nat 0)) with 0%Q. lra.
  - cbn [Qsum fold_right List.length]. fold (Qsum t).
    rewrite Nat2Z.inj_succ. unfold Z.succ. rewrite inject_Z_plus.
    change (inject_Z 1) with 1%Q.
    assert (a <= x)%Q by (apply H; now left).
    assert (inject_Z (Z.of_nat (List.length t)) * a <= Qsum t)%Q
      by (apply IH; intros y Hy; apply H; now right).
    lra.
Qed.

Lemma Q_max_exists (xs : list Q) :
  xs <> [] -> exists b, In b xs /\ forall x, In x xs -> (x <= b)%Q.
Proof.
  induction xs as [|x t IH]; [congruence|]. intros _.
  destruct t as [|y t'].
  - exists x. split; [now left|]. intros z [<-|[]]. apply Qle_refl.
  - destruct IH as (b & Hb & Hmax); [discriminate|].
    destruct (Qlt_le_dec b x) as [H|H].
    + exists x. split; [now left|]. intros z [<-|Hz]; [apply Qle_refl|].
      apply Qle_trans with b; [now apply Hmax|now apply Qlt_le_weak].
    + exists b. split; [now right|]. intros z [<-|Hz]; [exact H|now apply Hmax].
Qed.

Lemma Q_min_exists (xs : list Q) :
  xs <> [] -> exists a, In a xs /\ forall x, In x xs -> (a <= x)%Q.
Proof.
  induction xs as [|x t IH]; [congruence|]. intros _.
  destruct t as [|y t'].
  - exists x. split; [now left|]. intros z [<-|[]]. apply Qle_refl.
  - destruct IH as (a & Ha & Hmin); [discriminate|].
    destruct (Qlt_le_dec x a) as [H|H].
    + exists x. split; [now left|]. intros z [<-|Hz]; [apply Qle_refl|].
      apply Qle_trans with a; [now apply Qlt_le_weak|now apply Hmin].
    + exists a. split; [now right|]. intros z [<-|Hz]; [exact H|now apply Hmin].
Qed.

(** The mean of a list with values lies between its smallest and its
    largest value. *)
Lemma mean_between (xs : list Q) :
  xs <> [] ->
  exists a b, In a xs /\ In b xs /\ (a <= mean xs)%Q /\ (mean xs <= b)%Q /\
              (forall x, In x xs -> (a <= x)%Q /\ (x <= b)%Q).
Proof.
  intros Hne. destruct (Q_min_exists Hne) as (a & Ha & Hmin).
  destruct (Q_max_exists Hne) as (b & Hb & Hmax).
  exists a, b. pose proof (Qlen_pos Hne) as Hp.
  pose proof (@Qsum_le_bound xs b Hmax). pose proof (@Qsum_ge_bound xs a Hmin).
  repeat split; auto; unfold mean.
  - apply Qle_shift_div_l; [exact Hp|]. lra.
  - apply Qle_shift_div_r; [exact Hp|]. lra.
Qed.

(** ** A prefix of a list without repetition, of a sorted list *)

Lemma NoDup_firstn {A} n (l : list A) : NoDup l -> NoDup (firstn n l).
Proof.
  intros H. rewrite <- (firstn_skipn n l) in H.
  now apply NoDup_app_remove_r in H.
Qed.

Lemma sorted_top {A} (R : A -> A -> Prop) n (l : list A) a b :
  StronglySorted R l ->
  In a (firstn n l) -> In b l -> ~ In b (firstn n l) -> R a b.
Proof.
  intros Hs Ha Hb Hnb. rewrite <- (firstn_skipn n l) in Hs, Hb.
  apply StronglySorted_app_inv in Hs. destruct Hs as (_ & _ & C).
  apply in_app_or in Hb. destruct Hb as [Hb|Hb]; [contradiction|].
  now apply C.
Qed.

Lemma StronglySorted_lt (l : list Z) :
  StronglySorted (fun a b => Z.leb a b = true) l -> NoDup l ->
  StronglySorted Z.lt l.
Proof.
  induction 1 as [|x t Ht IH Hx]; intros Hn; constructor;
    inversion Hn as [|? ? Hnx Hnt]; subst.
  - now apply IH.
  - rewrite Forall_forall in *. intros y Hy.
    assert (x <> y) by (intros ->; contradiction).
    specialize (Hx y Hy). apply Z.leb_le in Hx. lia.
Qed.

(** ** Grouping loses no row and counts none twice *)

Section Partition.
Context {K : Type}.
Variable kf : DashRow -> K.
Variable same : K -> DashRow -> bool.
Hypothesis same_spec : forall k r, same k r = true <-> kf r = k.

Lemma list_sum_map_add {A} (f g : A -> nat) (l : list A) :
  list_sum (map (fun a => f a + g a)%nat l) =
  (list_sum (map f l) + list_sum (map g l))%nat.
Proof. induction l as [|a t IH]; simpl; lia. Qed.

Lemma indicator_absent_nat (r : DashRow) (ks : list K) :
  ~ In (kf r) ks ->
  list_sum (map (fun k => if same k r then 1 else 0)%nat ks) = 0%nat.
Proof.
  induction ks as [|k t IH]; intros H; [reflexivity|].
  cbn [map list_sum fold_right]. fold (list_sum (map (fun k => if same k r then 1 else 0)%nat t)).
  rewrite IH by (intros C; apply H; now right).
  destruct (same k r) eqn:E; [|reflexivity].
  exfalso. apply H. left. symmetry. now apply same_spec.
Qed.

Lemma indicator_once_nat (r : DashRow) (ks : list K) :
  NoDup ks -> In (kf r) ks ->
  list_sum (map (fun k => if same k r then 1 else 0)%nat ks) = 1%nat.
Proof.
  induction 1 as [|k t Hk Ht IH]; intros Hin; [contradiction|].
  cbn [map list_sum fold_right]. fold (list_sum (map (fun k => if same k r then 1 else 0)%nat t)).
  destruct (same k r) eqn:E.
  - apply same_spec in E. subst k. now rewrite indicator_absent_nat.
  - destruct Hin as [->|Hin]; [|now rewrite IH].
    assert (same (kf r) r = true) by now apply same_spec. congruence.
Qed.

Lemma group_lengths_sum (ks : list K) (rows : list DashRow) :
  NoDup ks -> (forall r, In r rows -> In (kf r) ks) ->
  list_sum (map (fun k => List.length (filter (same k) rows)) ks) =
  List.length rows.
Proof.
  intros Hn. induction rows as [|r t IH]; intros Hall.
  - cbn [filter List.length]. clear Hn Hall.
    induction ks as [|k ks IHk]; [reflexivity|exact IHk].
  - rewrite (map_ext _ (fun k => (if same k r then 1 else 0) +
                                 List.length (filter (same k) t))%nat)
      by (intros k; cbn [filter]; destruct (same k r); reflexivity).
    rewrite list_sum_map_add, IH by (intros r' H'; apply Hall; now right).
    rewrite indicator_once_nat; [reflexivity|exact Hn|apply Hall; now left].
Qed.

Variable col : DashRow -> Q.

Lemma Qsum_map_add {A} (f g : A -> Q) (l : list A) :
  (Qsum (map (fun a => f a + g a)%Q l) == Qsum (map f l) + Qsum (map g l))%Q.
Proof.
  induction l as [|a t IH]; cbn [map Qsum fold_right]; [ring|].
  fold (Qsum (map (fun a => f a + g a)%Q t)).
  fold (Qsum (map f t)). fold (Qsum (map g t)). rewrite IH. ring.
Qed.

Lemma indicator_absent_Q (r : DashRow) (ks : list K) :
  ~ In (kf r) ks ->
  (Qsum (map (fun k => if same k r then col r else 0)%Q ks) == 0)%Q.
Proof.
  induction ks as [|k t IH]; intros H; [reflexivity|].
  cbn [map Qsum fold_right].
  fold (Qsum (map (fun k => if same k r then col r else 0)%Q t)).
  rewrite IH by (intros C; apply H; now right).
  destruct (same k r) eqn:E; [|ring].
  exfalso. apply H. left. symmetry. now apply same_spec.
Qed.

Lemma indicator_once_Q (r : DashRow) (ks : list K) :
  NoDup ks -> In (kf r) ks ->
  (Qsum (map (fun k => if same k r then col r else 0)%Q ks) == col r)%Q.
Proof.
  induction 1 as [|k t Hk Ht IH]; intros Hin; [contradiction|].
  cbn [map Qsum fold_right].
  fold (Qsum (map (fun k => if same k r then col r else 0)%Q t)).
  destruct (same k r) eqn:E.
  - apply same_spec in E. subst k. rewrite indicator_absent_Q by exact Hk. ring.
  - destruct Hin as [->|Hin]; [|rewrite IH by exact Hin; ring].
    assert (same (kf r) r = true) by now apply same_spec. congruence.
Qed.

Lemma group_sums_sum (ks : list K) (rows : list DashRow) :
  NoDup ks -> (forall r, In r rows -> In (kf r) ks) ->
  (Qsum (map (fun k => Qsum (map col (filter (same k) rows))) ks) ==
   Qsum (map col rows))%Q.
Proof.
  intros Hn. induction rows as [|r t IH]; intros Hall.
  - cbn [filter map Qsum fold_right]. clear Hn Hall.
    induction ks as [|k ks IHk]; [reflexivity|].
    cbn [map Qsum fold_right]. fold (Qsum (map (fun _ : K => 0%Q) ks)).
    rewrite IHk. ring.
  - rewrite (Qsum_ext_in
               (fun k => Qsum (map col (filter (same k) (r :: t))))
               (fun k => (if same k r then col r else 0) +
                         Qsum (map col (filter (same k) t)))%Q).
    + rewrite Qsum_map_add, IH by (intros r' H'; apply Hall; now right).
      rewrite indicator_once_Q; [|exact Hn|apply Hall; now left].
      cbn [map Qsum fold_right]. reflexivity.
    + intros k _. cbn [filter]. destruct (same k r).
      * cbn [map Qsum fold_right]. reflexivity.
      * ring.
Qed.

End Partition.

(** ** The text of an [IN] list, read back *)

Lemma string_length_append (s1 s2 : string) :
  String.length (s1 ++ s2) = (String.length s1 + String.length s2)%nat.
Proof. induction s1 as [|c s1 IH]; cbn; [reflexivity|now rewrite IH]. Qed.

Lemma quote_free_quotes (s : string) :
  quote_free s = true <-> quotes s = 0%nat.
Proof.
  unfold quote_free. induction s as [|c s IH]; cbn; [tauto|].
  destruct (Ascii.eqb c "'"%char); cbn; [split; [discriminate|lia]|exact IH].
Qed.

Lemma quoted_list_one (x : string) :
  quoted_list [x] = ("'" ++ x ++ "'")%string.
Proof. reflexivity. Qed.

Lemma quoted_list_more (x y : string) (t : list string) :
  quoted_list (x :: y :: t) =
  ("'" ++ x ++ "'" ++ ", " ++ quoted_list (y :: t))%string.
Proof.
  unfold quoted_list. cbn [map String.concat].
  now rewrite <- !string_append_assoc.
Qed.

(** A name without a quote, then the closing quote: the literal is the
    name. *)
Lemma sql_literal_plain (x rest : string) :
  quote_free x = true ->
  match rest with
  | String c _ => Ascii.eqb c "'"%char = false
  | EmptyString => True
  end ->
  sql_literal (x ++ String "'"%char rest) = Some (x, rest).
Proof.
  unfold quote_free. induction x as [|c x IH]; intros Hx Hrest.
  - cbn. destruct rest as [|c' rest']; [reflexivity|]. now rewrite Hrest.
  - cbn in Hx. apply andb_true_iff in Hx. destruct Hx as [Hc Hx].
    apply negb_true_iff in Hc.
    change ((String c x ++ String "'"%char rest)%string)
      with (String c (x ++ String "'"%char rest)).
    cbn [sql_literal]. rewrite Hc, (IH Hx Hrest). reflexivity.
Qed.

Lemma sql_literals_from_plain (xs : list string) :
  plain_names xs = true -> xs <> [] ->
  forall fuel, (List.length xs <= fuel)%nat ->
  sql_literals_from fuel (quoted_list xs) = Some xs.
Proof.
  unfold plain_names. induction xs as [|x t IH]; [congruence|].
  intros Hp _ fuel Hf. cbn [forallb] in Hp. apply andb_true_iff in Hp.
  destruct Hp as [Hx Ht].
  destruct fuel as [|fuel]; [cbn in Hf; lia|].
  destruct t as [|y t'].
  - rewrite quoted_list_one.
    change (("'" ++ x ++ "'")%string) with (String "'"%char (x ++ "'")).
    cbn [sql_literals_from]. rewrite Ascii.eqb_refl.
    now rewrite (@sql_literal_plain x EmptyString Hx I).
  - rewrite quoted_list_more.
    change (("'" ++ x ++ "'" ++ ", " ++ quoted_list (y :: t'))%string)
      with (String "'"%char
              (x ++ String "'"%char
                 (String ","%char (String " "%char (quoted_list (y :: t')))))).
    cbn [sql_literals_from]. rewrite Ascii.eqb_refl.
    rewrite (@sql_literal_plain x
               (String ","%char (String " "%char (quoted_list (y :: t'))))
               Hx eq_refl).
    cbn [Ascii.eqb Bool.eqb andb].
    rewrite IH; [reflexivity|exact Ht|discriminate|cbn in Hf |- *; lia].
Qed.

Lemma quoted_list_length (xs : list string) :
  (List.length xs <= String.length (quoted_list xs))%nat.
Proof.
  induction xs as [|x t IH]; [cbn; lia|].
  destruct t as [|y t'].
  - rewrite quoted_list_one, !string_length_append. cbn. lia.
  - rewrite quoted_list_more, !string_length_append. cbn in IH |- *. lia.
Qed.

(** What a literal takes from the text: its characters, one more for
    each quote in it, and the closing quote. *)
Lemma sql_literal_length (n : nat) :
  forall body v rest,
    (String.length body <= n)%nat ->
    sql_literal body = Some (v, rest) ->
    String.length body =
      (String.length v + quotes v + 1 + String.length rest)%nat.
Proof.
  induction n as [|n IH]; intros body v rest Hn H.
  - destruct body; [discriminate H|cbn in Hn; lia].
  - destruct body as [|c body']; [discriminate H|].
    cbn [sql_literal] in H. cbn [String.length] in Hn |- *.
    destruct (Ascii.eqb c "'"%char) eqn:Ec.
    + destruct body' as [|c' rest'].
      * inversion H; subst. reflexivity.
      * destruct (Ascii.eqb c' "'"%char) eqn:Ec'.
        -- destruct (sql_literal rest') as [[v' r']|] eqn:E; [|discriminate H].
           cbn [option_map fst snd] in H. inversion H; subst.
           cbn [String.length quotes Ascii.eqb Bool.eqb] in *.
           rewrite (IH rest' v' rest) by (lia || assumption). lia.
        -- inversion H; subst. cbn. lia.
    + destruct (sql_literal body') as [[v' r']|] eqn:E; [|discriminate H].
      cbn [option_map fst snd] in H. inversion H; subst.
      cbn [String.length quotes]. rewrite Ec.
      rewrite (IH body' v' rest) by (lia || assumption). lia.
Qed.

Lemma sql_literals_from_length (fuel : nat) :
  forall s vs,
    sql_literals_from fuel s = Some vs ->
    vs <> [] /\
    String.length s =
      (String.length (quoted_list vs) + list_sum (map quotes vs))%nat.
Proof.
  induction fuel as [|fuel IH]; intros s vs H; [discriminate H|].
  cbn [sql_literals_from] in H.
  destruct s as [|q body]; [discriminate H|].
  destruct (Ascii.eqb q "'"%char); [|discriminate H].
  destruct (sql_literal body) as [[v rest]|] eqn:E; [|discriminate H].
  pose proof (@sql_literal_length (String.length body) body v rest (le_n _) E) as L.
  destruct rest as [|c1 [|c2 rest']]; try discriminate H.
  - inversion H; subst. split; [discriminate|].
    rewrite quoted_list_one, !string_length_append.
    cbn [String.length map list_sum fold_right] in *. lia.
  - destruct (Ascii.eqb c1 ","%char && Ascii.eqb c2 " "%char);
      [|discriminate H].
    destruct (sql_literals_from fuel rest') as [vs'|] eqn:E'; [|discriminate H].
    cbn [option_map] in H. inversion H; subst.
    destruct (IH _ _ E') as [Hne L']. split; [discriminate|].
    destruct vs' as [|y t']; [congruence|].
    rewrite quoted_list_more, !string_length_append.
    cbn [String.length map list_sum fold_right] in *.
    lia.
Qed.

Lemma list_sum_zero (l : list nat) :
  list_sum l = 0%nat -> forall n, In n l -> n = 0%nat.
Proof.
  induction l as [|a t IH]; [contradiction|].
  change (list_sum (a :: t)) with (a + list_sum t)%nat.
  intros H n [<-|Hn]; [lia|apply IH; [lia|exact Hn]].
Qed.

(** The text of the list reads back as the names exactly when no name
    holds a quote. *)
Lemma sql_literals_quoted_list (xs : list string) :
  sql_literals (quoted_list xs) = Some xs <-> plain_names xs = true.
Proof.
  destruct xs as [|x t]; [split; reflexivity|].
  assert (Hs : sql_literals (quoted_list (x :: t)) =
               sql_literals_from (String.length (quoted_list (x :: t)))
                 (quoted_list (x :: t))).
  { destruct t as [|y t'];
      [rewrite quoted_list_one|rewrite quoted_list_more]; reflexivity. }
  rewrite Hs. split.
  - intros H. apply sql_literals_from_length in H. destruct H as [_ L].
    assert (Z : list_sum (map quotes (x :: t)) = 0%nat) by lia.
    unfold plain_names. apply forallb_forall. intros y Hy.
    apply quote_free_quotes. apply (list_sum_zero _ Z). now apply in_map.
  - intros H. apply sql_literals_from_plain; [exact H|discriminate|].
    apply quoted_list_length.
Qed.

(** ** A table of many copies of one row *)

Lemma filter_repeat {A} (p : A -> bool) (a : A) (n : nat) :
  p a = true -> filter p (repeat a n) = repeat a n.
Proof.
  intros H. induction n as [|n IH]; [reflexivity|].
  cbn [repeat filter]. now rewrite H, IH.
Qed.

Lemma count_rows_repeat (num_is_true : fval -> bool) (w : list Cond)
  (r : DashRow) (n : nat) :
  eval_where num_is_true w r = true ->
  count_rows num_is_true w (repeat r n) = n.
Proof.
  intros H. rewrite count_rows_length. unfold select_rows.
  rewrite (filter_repeat _ _ n H). apply repeat_length.
Qed.

(* ================================================================== *)
(** * The properties of the specification *)
(* ================================================================== *)

(** ** Risk levels *)

(** C1. For every row of the scored table, with q75 and q95 the 75th and
    95th percentiles of [risk_score] over the full scored population
    (which exist and satisfy q75 <= q95), the level is [Low] exactly when
    the score is below q75, [Medium] exactly when it is at least q75 and
    below q95, and [High] exactly when it is at least q95 (so in
    particular whenever it is above q95).  The level is
    [classify_risk] of the row's score and these two thresholds, and a
    row that any filter keeps has the level it had in the full table. *)
Theorem C1_risk_level_by_global_quantiles :
  forall (predict : list (list fval) -> list fval -> Z)
         (decision_function : list (list fval) -> list fval -> Q)
         (fs : list FeatureRow) (keep : ScoredRow -> bool) (r : ScoredRow),
    In r (filter keep (score predict decision_function fs)) ->
    exists q75 q95 : Q,
      quantile (75 # 100) (map risk_score (score predict decision_function fs)) = Some q75 /\
      quantile (95 # 100) (map risk_score (score predict decision_function fs)) = Some q95 /\
      (q75 <= q95)%Q /\
      risk_level r = classify_risk q75 q95 (risk_score r) /\
      (risk_level r = Low <-> (risk_score r < q75)%Q) /\
      (risk_level r = Medium <-> (q75 <= risk_score r /\ risk_score r < q95)%Q) /\
      (risk_level r = High <-> (q95 <= risk_score r)%Q) /\
      ((q95 < risk_score r)%Q -> risk_level r = High).
Proof.
  intros predict decision_function fs keep r Hr.
  apply filter_In in Hr. destruct Hr as [Hr _].
  destruct (score_rows _ _ _ _ Hr) as (lo & hi & Hlo & Hhi & Hl).
  pose proof (thresholds_ordered _ _ Hlo Hhi) as Hle.
  assert (Hs : map risk_score (score predict decision_function fs) =
               risk_scores decision_function fs).
  { unfold score. rewrite Hlo, Hhi. unfold risk_scores.
    rewrite map_map. reflexivity. }
  exists lo, hi. rewrite Hs.
  split; [exact Hlo|]. split; [exact Hhi|]. split; [exact Hle|].
  split; [exact Hl|]. rewrite Hl.
  split; [apply classify_risk_Low|].
  split; [apply classify_risk_Medium|].
  split; [now apply classify_risk_High|].
  intros H. apply classify_risk_High; [assumption|]. now apply Qlt_le_weak.
Qed.

(** C3. [classify_risk] is monotonic: for two scores s1 <= s2 the level
    of s1 is at most the level of s2 in the order Low < Medium < High,
    whatever the two thresholds; hence over the rows of the scored table
    the level never decreases when the score grows. *)
Theorem C3_classify_risk_monotonic :
  (forall lo hi s1 s2 : Q,
      (s1 <= s2)%Q ->
      (level_rank (classify_risk lo hi s1) <= level_rank (classify_risk lo hi s2))%nat) /\
  (forall predict decision_function fs r1 r2,
      In r1 (score predict decision_function fs) ->
      In r2 (score predict decision_function fs) ->
      (risk_score r1 <= risk_score r2)%Q ->
      (level_rank (risk_level r1) <= level_rank (risk_level r2))%nat).
Proof.
  assert (M : forall lo hi s1 s2 : Q,
             (s1 <= s2)%Q ->
             (level_rank (classify_risk lo hi s1) <= level_rank (classify_risk lo hi s2))%nat).
  { intros lo hi s1 s2 H. unfold classify_risk.
    destruct (Qlt_bool s2 lo) eqn:E2.
    - apply Qlt_bool_iff in E2.
      assert (E1 : Qlt_bool s1 lo = true)
        by (apply Qlt_bool_iff; eapply Qle_lt_trans; eassumption).
      rewrite E1. simpl. lia.
    - destruct (Qlt_bool s2 hi) eqn:E3.
      + apply Qlt_bool_iff in E3.
        assert (E1 : Qlt_bool s1 hi = true)
          by (apply Qlt_bool_iff; eapply Qle_lt_trans; eassumption).
        rewrite E1. destruct (Qlt_bool s1 lo); simpl; lia.
      + destruct (Qlt_bool s1 lo); [simpl; lia|].
        destruct (Qlt_bool s1 hi); simpl; lia. }
  split; [exact M|].
  intros predict decision_function fs r1 r2 H1 H2 Hle.
  destruct (score_rows _ _ _ _ H1) as (lo & hi & Hlo & Hhi & ->).
  destruct (score_rows _ _ _ _ H2) as (lo' & hi' & Hlo' & Hhi' & ->).
  rewrite Hlo in Hlo'. rewrite Hhi in Hhi'.
  inversion Hlo'; inversion Hhi'; subst. now apply M.
Qed.

Ltac in_list := vm_compute; repeat (first [left; reflexivity | right]).

Lemma C1_witness :
  exists q75 q95 : Q,
    quantile (75 # 100) (map risk_score sample_scored) = Some q75 /\
    quantile (95 # 100) (map risk_score sample_scored) = Some q95 /\
    (q75 <= q95)%Q /\
    risk_level (sample_scored_row 3) =
      classify_risk q75 q95 (risk_score (sample_scored_row 3)) /\
    (risk_level (sample_scored_row 3) = Low <->
       (risk_score (sample_scored_row 3) < q75)%Q) /\
    (risk_level (sample_scored_row 3) = Medium <->
       (q75 <= risk_score (sample_scored_row 3) /\
        risk_score (sample_scored_row 3) < q95)%Q) /\
    (risk_level (sample_scored_row 3) = High <->
       (q95 <= risk_score (sample_scored_row 3))%Q) /\
    ((q95 < risk_score (sample_scored_row 3))%Q ->
       risk_level (sample_scored_row 3) = High).
Proof.
  apply (C1_risk_level_by_global_quantiles toy_predict toy_decision_function
           sample_features
           (fun r => Qle_bool (2 # 10) (risk_score r))
           (sample_scored_row 3)).
  in_list.
Defined.

Lemma C3_witness :
  (level_rank (classify_risk (2 # 10) (38 # 100) (1 # 10)) <=
   level_rank (classify_risk (2 # 10) (38 # 100) (5 # 10)))%nat /\
  (level_rank (risk_level (sample_scored_row 4)) <=
   level_rank (risk_level (sample_scored_row 3)))%nat.
Proof.
  split.
  - apply (proj1 C3_classify_risk_monotonic). vm_compute. discriminate.
  - apply (proj2 C3_classify_risk_monotonic toy_predict toy_decision_function
             sample_features).
    + in_list.
    + in_list.
    + vm_compute. discriminate.
Defined.

(** ** The outer join *)

(** C4. After the full outer join of the logon, http and device
    aggregates and the zero fill: (user, date) is a unique key of the
    merged table; every measure of a source that has no event for the
    row's (user, date) is 0; and the number of rows is at least the row
    count of each of the three aggregates (hence their maximum) and at
    most their sum. *)
Theorem C4_outer_join :
  forall (logon_df : list LogonEvent) (http_df : list HttpEvent)
         (device_df : list DeviceEvent),
    let m := merged_df logon_df http_df device_df in
    let n1 := List.length (logon_agg logon_df) in
    let n2 := List.length (http_agg http_df) in
    let n3 := List.length (device_agg device_df) in
    NoDup (map row_key m) /\
    (forall r, In r m ->
       (~ In (row_key r) (map lg_key logon_df) -> logon_count r = 0%Q) /\
       (~ In (row_key r) (map ht_key http_df) ->
          http_requests r = 0%Q /\ http_bytes_sent r = 0%Q /\
          http_bytes_received r = 0%Q) /\
       (~ In (row_key r) (map dv_key device_df) ->
          device_activity_count r = 0%Q)) /\
    (Nat.max n1 (Nat.max n2 n3) <= List.length m <= n1 + n2 + n3)%nat.
Proof.
  intros logon_df http_df device_df m n1 n2 n3.
  assert (Hk : map row_key m =
               group_keys
                 (group_keys (group_keys (map lg_key logon_df) ++
                              group_keys (map ht_key http_df))
                  ++ group_keys (map dv_key device_df))).
  { unfold m. rewrite merged_df_keys. apply merged_raw_keys. }
  split; [rewrite Hk; apply group_keys_NoDup|].
  split.
  - intros r Hr. destruct (merged_df_row _ _ _ _ Hr) as [c [Hc Er]].
    split; [|split]; intros Hn; rewrite Er; unfold fill_row;
      cbn [logon_count http_requests http_bytes_sent http_bytes_received
           device_activity_count snd].
    + now rewrite (@merged_raw_logon_absent _ _ _ _ _ Hc Hn).
    + now rewrite (@merged_raw_http_absent _ _ _ _ _ Hc Hn).
    + now rewrite (@merged_raw_device_absent _ _ _ _ _ Hc Hn).
  - assert (Hlen : List.length m = List.length (map row_key m))
      by (symmetry; apply length_map).
    rewrite Hlen, Hk.
    unfold n1, n2, n3, logon_agg, http_agg, device_agg.
    rewrite !groupby_length.
    set (K1 := group_keys (map lg_key logon_df)).
    set (K2 := group_keys (map ht_key http_df)).
    set (K3 := group_keys (map dv_key device_df)).
    assert (L1 : (List.length K1 <= List.length (group_keys (group_keys (K1 ++ K2) ++ K3)))%nat).
    { apply group_keys_length_incl; [apply group_keys_NoDup|].
      intros k Hk1. apply in_or_app. left. apply group_keys_In.
      apply in_or_app. now left. }
    assert (L2 : (List.length K2 <= List.length (group_keys (group_keys (K1 ++ K2) ++ K3)))%nat).
    { apply group_keys_length_incl; [apply group_keys_NoDup|].
      intros k Hk1. apply in_or_app. left. apply group_keys_In.
      apply in_or_app. now right. }
    assert (L3 : (List.length K3 <= List.length (group_keys (group_keys (K1 ++ K2) ++ K3)))%nat).
    { apply group_keys_length_incl; [apply group_keys_NoDup|].
      intros k Hk1. apply in_or_app. now right. }
    pose proof (group_keys_length_le (group_keys (K1 ++ K2) ++ K3)) as U.
    pose proof (group_keys_length_le (K1 ++ K2)) as U'.
    rewrite length_app in U, U'. lia.
Qed.

Lemma C4_witness :
  let m := sample_merged in
  NoDup (map row_key m) /\
  (logon_count (sample_merged_row 6) = 0%Q /\
   device_activity_count (sample_merged_row 6) = 0%Q) /\
  (Nat.max 6 (Nat.max 3 2) <= List.length m <= 6 + 3 + 2)%nat.
Proof.
  destruct (C4_outer_join sample_logon sample_http sample_device)
    as [Hu [Hz Hn]].
  split; [exact Hu|]. split; [|exact Hn].
  destruct (Hz (sample_merged_row 6)) as [Hl [_ Hd]]; [in_list|].
  split; [apply Hl|apply Hd]; vm_compute;
    intros H; repeat (destruct H as [H|H]; [discriminate H|]); exact H.
Defined.

(** ** Features *)

(** C6. The spike computation has no guard against zero variance: when
    the standard deviation of a count (logon_count, http_requests or
    device_activity_count) over a user's rows is zero, the z-score
    (value - user_mean) / user_std of every row of that user divides zero
    by zero, the spike column holds not-a-number, and that value is
    passed on into the training matrix. *)
Theorem C6_zero_variance_spike_is_nan :
  forall (to_datetime : string -> Timestamp) (sqrtQ : Q -> Q)
         (df : list MergedRow) (f : FeatureRow) (z : Q),
    (forall x, (0 <= x)%Q -> (sqrtQ x == 0)%Q -> (x == 0)%Q) ->
    In f (features to_datetime sqrtQ df) ->
    (z == 0)%Q ->
    (logon_count_std f = Fin z ->
       logon_spike f = NaN /\ In NaN (X_row f)) /\
    (http_requests_std f = Fin z ->
       http_spike f = NaN /\ In NaN (X_row f)) /\
    (device_activity_count_std f = Fin z ->
       device_spike f = NaN /\ In NaN (X_row f)).
Proof.
  intros to_datetime sqrtQ df f z Hsqrt Hf Hz.
  destruct (features_row _ _ _ _ Hf) as (r & roll & Hr & ->).
  cbn [logon_count_std http_requests_std device_activity_count_std
       logon_spike http_spike device_spike].
  split; [|split]; intros Hstd;
    pose proof (spike_zero_std sqrtQ Hsqrt _ _ _ Hr Hstd Hz) as E;
    (split; [exact E|]); unfold X_row;
    cbn [logon_spike http_spike device_spike feature_row];
    rewrite E; simpl; tauto.
Qed.

Lemma C6_witness :
  logon_spike (sample_feature_row 4) = NaN /\
  In NaN (X_row (sample_feature_row 4)).
Proof.
  apply (proj1 (C6_zero_variance_spike_is_nan iso_datetime sqrt_floor
                  sample_merged (sample_feature_row 4) (z := 0 # 16)
                  sqrt_floor_zero ltac:(in_list) ltac:(reflexivity))).
  vm_compute. reflexivity.
Defined.

(** C10. When no date of the input carries a time of day, every row of
    the feature frame has [hour = 0] and [minute = 0], hence
    [is_off_hours = 1]: the off-hours feature is the same on any two
    rows. *)
Theorem C10_pure_dates_off_hours :
  forall (to_datetime : string -> Timestamp) (sqrtQ : Q -> Q)
         (df : list MergedRow),
    (forall r, In r df -> ts_secs (to_datetime (date r)) = 0%Z) ->
    (forall f, In f (features to_datetime sqrtQ df) ->
       hour f = 0%Z /\ minute f = 0%Z /\ is_off_hours f = 1%Z) /\
    (forall f1 f2,
       In f1 (features to_datetime sqrtQ df) ->
       In f2 (features to_datetime sqrtQ df) ->
       is_off_hours f1 = is_off_hours f2).
Proof.
  intros to_datetime sqrtQ df Hpure.
  assert (A : forall f, In f (features to_datetime sqrtQ df) ->
                hour f = 0%Z /\ minute f = 0%Z /\ is_off_hours f = 1%Z).
  { intros f Hf.
    destruct (features_row _ _ _ _ Hf) as (r & roll & Hr & ->).
    cbn [hour minute is_off_hours feature_row].
    unfold dt_hour, dt_minute. rewrite (Hpure r Hr).
    repeat split; reflexivity. }
  split; [exact A|].
  intros f1 f2 H1 H2.
  destruct (A f1 H1) as (_ & _ & ->). destruct (A f2 H2) as (_ & _ & ->).
  reflexivity.
Qed.

Lemma sample_dates_pure :
  forall r, In r sample_merged -> ts_secs (iso_datetime (date r)) = 0%Z.
Proof.
  intros r H. vm_compute in H.
  repeat (destruct H as [<-|H]; [reflexivity|]). contradiction.
Qed.

Lemma C10_witness :
  hour (sample_feature_row 3) = 0%Z /\
  minute (sample_feature_row 3) = 0%Z /\
  is_off_hours (sample_feature_row 3) = 1%Z.
Proof.
  apply (proj1 (C10_pure_dates_off_hours iso_datetime sqrt_floor sample_merged
                  sample_dates_pure)).
  in_list.
Defined.

(** C5. Take the rows of one user [u] from the feature frame, in the
    frame's order: they are all of the user's rows, sorted ascending by
    date.  At the [i]-th of them (0-based) [logon_rolling_3] is the
    arithmetic mean of the user's [logon_count] over the rows
    [max 0 (i - 2)] to [i] (one, two, then three samples), and on every
    row of the frame [logon_delta] is [logon_count] minus
    [logon_rolling_3]. *)
Theorem C5_rolling_mean_and_delta :
  forall (to_datetime : string -> Timestamp) (sqrtQ : Q -> Q)
         (df : list MergedRow) (u : string),
    let g := filter (fun f => String.eqb (user (base f)) u)
                    (features to_datetime sqrtQ df) in
    Permutation (map base g) (user_rows u df) /\
    StronglySorted (fun a b => ts_leb (date_ts a) (date_ts b) = true) g /\
    (forall i f, nth_error g i = Some f ->
       logon_rolling_3 f =
       mean (map (fun x => logon_count (base x))
               (skipn (i - 2) (firstn (i + 1) g)))) /\
    (forall f, In f (features to_datetime sqrtQ df) ->
       logon_delta f = (logon_count (base f) - logon_rolling_3 f)%Q).
Proof.
  intros to_datetime sqrtQ df u g.
  destruct (features_of_user to_datetime sqrtQ u df) as (gp & Hg & Hfst & Hsnd).
  fold g in Hg.
  set (mk := fun p : MergedRow * Q =>
               feature_row to_datetime sqrtQ df (fst p) (snd p)) in *.
  assert (Hbase : map base g = user_rows u (sort_values to_datetime df)).
  { rewrite Hg, map_map. exact Hfst. }
  split; [|split; [|split]].
  - rewrite Hbase. apply Permutation_filter_compat. symmetry.
    apply stable_sort_perm.
  - rewrite Hg. apply StronglySorted_map.
    apply (@StronglySorted_map_inv _ _
             (fun a b => ts_leb (to_datetime (date a)) (to_datetime (date b)) = true)
             fst gp).
    rewrite Hfst. apply user_rows_sorted.
  - intros i f Hi.
    assert (Hlen : (i < List.length g)%nat)
      by (apply nth_error_Some; congruence).
    rewrite Hg, nth_error_map in Hi.
    destruct (nth_error gp i) as [p|] eqn:Ep; [|discriminate].
    inversion Hi; subst f. cbn [mk logon_rolling_3 feature_row].
    assert (Es : nth_error (map snd gp) i = Some (snd p))
      by (rewrite nth_error_map, Ep; reflexivity).
    rewrite Hsnd in Es.
    apply (nth_error_nth _ _ 0%Q) in Es. rewrite <- Es.
    rewrite rolling_mean_3_nth.
    + rewrite <- Hbase, map_map, firstn_map, skipn_map. reflexivity.
    + rewrite <- Hbase, !length_map. exact Hlen.
  - intros f Hf.
    destruct (features_row _ _ _ _ Hf) as (r & roll & _ & ->). reflexivity.
Qed.

Lemma C5_witness :
  logon_rolling_3 (sample_feature_row 3) =
    mean (map (fun x => logon_count (base x))
            (skipn (3 - 2)
               (firstn (3 + 1)
                  (filter (fun f => String.eqb (user (base f)) "alice")
                     sample_features)))) /\
  (logon_rolling_3 (sample_feature_row 3) == 7 # 3)%Q /\
  (logon_rolling_3 (sample_feature_row 1) == 1)%Q /\
  logon_delta (sample_feature_row 3) =
    (logon_count (base (sample_feature_row 3)) -
     logon_rolling_3 (sample_feature_row 3))%Q.
Proof.
  destruct (C5_rolling_mean_and_delta iso_datetime sqrt_floor sample_merged
              "alice") as (_ & _ & Hroll & Hdelta).
  split; [|split; [|split]].
  - apply (Hroll 3%nat (sample_feature_row 3)). vm_compute. reflexivity.
  - vm_compute. reflexivity.
  - vm_compute. reflexivity.
  - apply Hdelta. in_list.
Defined.

(** ** The dashboard *)

(** C7. For every filter selection the export query (all columns, the
    current WHERE clause, no LIMIT) returns as many rows as the count
    query over the same clause reports.  In a render, each of the two
    download buttons carries exactly the rows of that query, as many as
    the count shown in the header; the detail table is the only output
    that is cut to 1000 rows; and a render that runs to its end offers
    both downloads. *)
Theorem C7_export_matches_count :
  forall (num_is_true : fval -> bool),
    (forall w t,
        List.length (select_rows num_is_true w t) = count_rows num_is_true w t) /\
    (forall con inp file rows,
        In (DownloadButton file rows) (outputs (render num_is_true con inp)) ->
        exists t,
          con = Some t /\
          rows = select_rows num_is_true (query_conditions inp) t /\
          List.length rows = count_rows num_is_true (query_conditions inp) t /\
          In (Subheader (List.length rows))
             (outputs (render num_is_true con inp))) /\
    (forall con inp rows,
        In (Dataframe rows) (outputs (render num_is_true con inp)) ->
        (List.length rows <= 1000)%nat /\
        exists t,
          con = Some t /\
          rows = flagged_details num_is_true (query_conditions inp) t) /\
    (forall t inp,
        status (render num_is_true (Some t) inp) = Completed ->
        let rows := select_rows num_is_true (query_conditions inp) t in
        In (DownloadButton "filtered_user_risk_analysis.csv" rows)
           (outputs (render num_is_true (Some t) inp)) /\
        In (DownloadButton "filtered_user_risk_analysis.xlsx" rows)
           (outputs (render num_is_true (Some t) inp))).
Proof.
  intros num_is_true.
  split; [intros w t; symmetry; apply count_rows_length|].
  split; [|split].
  - intros [t|] inp file rows H.
    + destruct (render_table_or_export num_is_true t inp _ H eq_refl)
        as [Hsub [Hf|He]].
      * exfalso.
        destruct (tab_flagged_run num_is_true (query_conditions inp) t
                    (count_rows num_is_true (query_conditions inp) t))
          as [_ F].
        rewrite Forall_forall in F. exact (F _ Hf).
      * destruct (tab_export_run num_is_true (query_conditions inp) t)
          as (_ & F & _).
        rewrite Forall_forall in F. pose proof (F _ He) as E.
        change (rows = select_rows num_is_true (query_conditions inp) t) in E.
        exists t. rewrite E at 1 2 3. rewrite <- count_rows_length.
        repeat split; try reflexivity. exact Hsub.
    + exfalso. cbn in H. destruct H as [H|[]]. discriminate.
  - intros [t|] inp rows H.
    + destruct (render_table_or_export num_is_true t inp _ H eq_refl)
        as [_ [Hf|He]].
      * destruct (tab_flagged_run num_is_true (query_conditions inp) t
                    (count_rows num_is_true (query_conditions inp) t))
          as [_ F].
        rewrite Forall_forall in F. pose proof (F _ Hf) as E.
        change (rows = flagged_details num_is_true (query_conditions inp) t) in E.
        split; [|exists t; now split].
        rewrite E. unfold flagged_details. rewrite length_firstn. lia.
      * exfalso.
        destruct (tab_export_run num_is_true (query_conditions inp) t)
          as (_ & F & _).
        rewrite Forall_forall in F. exact (F _ He).
    + exfalso. cbn in H. destruct H as [H|[]]. discriminate.
  - intros t inp Hc rows. unfold status, outputs in *.
    rewrite render_run in *.
    assert (G : forall s,
               snd (render_filtered num_is_true (query_conditions inp) t inp)
               = inl s -> s <> Completed).
    { intros s. rewrite render_filtered_run.
      destruct (count_rows num_is_true (query_conditions inp) t) as [|n];
        [|destruct (date_pair inp) as [[? ?]|]]; cbn [snd];
        rewrite ?(proj1 (tab_export_run num_is_true (query_conditions inp) t));
        try destruct (sheet_too_large _);
        intros E; inversion E; discriminate. }
    assert (D : snd (render_filtered num_is_true (query_conditions inp) t inp)
                = inr tt ->
                In (DownloadButton "filtered_user_risk_analysis.csv" rows)
                   (fst (render_filtered num_is_true (query_conditions inp) t inp)) /\
                In (DownloadButton "filtered_user_risk_analysis.xlsx" rows)
                   (fst (render_filtered num_is_true (query_conditions inp) t inp))).
    { rewrite render_filtered_run.
      destruct (count_rows num_is_true (query_conditions inp) t) as [|n] eqn:En;
        [discriminate|].
      destruct (date_pair inp) as [[s e]|]; [|discriminate]. cbn [snd].
      destruct (tab_export_run num_is_true (query_conditions inp) t)
        as (Hs & _ & E).
      rewrite Hs. fold rows in E |- *.
      destruct (sheet_too_large rows); [discriminate|]. intros _.
      assert (Hne : rows <> []).
      { unfold rows. intros C. rewrite count_rows_length, C in En.
        discriminate. }
      specialize (E Hne). cbn [fst].
      split; apply in_or_app; right; apply in_or_app; right;
        unfold tab_outputs; repeat (apply in_or_app; right);
        rewrite E; [now left|right; now left]. }
    destruct t as [|r0 t']; [discriminate|].
    destruct (selected_users inp) as [|u us];
      [destruct (all_users num_is_true (r0 :: t') inp) as [|a au]|];
      cbn [fst snd] in *; try discriminate;
      (destruct (snd (render_filtered num_is_true (query_conditions inp)
                        (r0 :: t') inp)) as [s|[]] eqn:Es;
       [exfalso; now apply (G s)|]);
      destruct (D eq_refl) as [D1 D2];
      split; apply in_or_app; right; assumption.
Qed.

Lemma C7_witness :
  (exists t,
     Some sample_table = Some t /\
     select_rows num_is_one (query_conditions sample_inputs) sample_table =
       select_rows num_is_one (query_conditions sample_inputs) t /\
     List.length (select_rows num_is_one (query_conditions sample_inputs) sample_table) =
       count_rows num_is_one (query_conditions sample_inputs) t /\
     In (Subheader
           (List.length (select_rows num_is_one (query_conditions sample_inputs) sample_table)))
        (outputs (render num_is_one (Some sample_table) sample_inputs))) /\
  In (DownloadButton "filtered_user_risk_analysis.xlsx"
        (select_rows num_is_one (query_conditions sample_inputs) sample_table))
     (outputs (render num_is_one (Some sample_table) sample_inputs)).
Proof.
  destruct (C7_export_matches_count num_is_one) as (_ & Hexport & _ & Hdone).
  split.
  - apply (Hexport (Some sample_table) sample_inputs
             "filtered_user_risk_analysis.csv"%string).
    vm_compute. do 14 right. left. reflexivity.
  - apply (Hdone sample_table sample_inputs). vm_compute. reflexivity.
Defined.

(** C8. When the table has rows and the count query over the composed
    WHERE clause returns 0, the render ends at [st.stop()], not with an
    exception: after the sidebar's own messages it shows one warning
    (the "No data matches" warning when the sidebar ran through, the
    "No users found" warning when it halted first) and nothing else, so
    no header, KPI, chart, detail table or export is produced. *)
Theorem C8_empty_result_halts :
  forall (num_is_true : fval -> bool) (t : list DashRow) (inp : Inputs),
    t <> [] ->
    count_rows num_is_true (query_conditions inp) t = 0%nat ->
    let run := render num_is_true (Some t) inp in
    status run = Stopped /\
    Forall (fun o => is_content o = false) (outputs run) /\
    (outputs run = sidebar_warnings inp ++ [no_data_warning] \/
     outputs run = sidebar_warnings inp ++ [no_users_warning]) /\
    (forall w, snd (sidebar num_is_true t inp) = inr w ->
               outputs run = sidebar_warnings inp ++ [no_data_warning]).
Proof.
  intros num_is_true t inp Ht Hn run. unfold run, status, outputs.
  rewrite render_run, render_filtered_run, sidebar_run, Hn.
  assert (Q : forall o, o = no_data_warning \/ o = no_users_warning ->
                Forall (fun o => is_content o = false)
                       (sidebar_warnings inp ++ [o])).
  { intros o Ho. apply Forall_app. split; [apply sidebar_warnings_quiet|].
    destruct Ho as [-> | ->]; now repeat constructor. }
  destruct t as [|r0 t']; [congruence|].
  destruct (selected_users inp) as [|u us];
    [destruct (all_users num_is_true (r0 :: t') inp) as [|a au]|];
    cbn [fst snd]; (split; [reflexivity|]); (split; [apply Q; auto|]);
    (split; [auto|]); intros w H; try discriminate H; reflexivity.
Qed.

Lemma C8_witness :
  status (render num_is_one (Some sample_table) sample_inputs_no_match) = Stopped /\
  Forall (fun o => is_content o = false)
         (outputs (render num_is_one (Some sample_table) sample_inputs_no_match)) /\
  (outputs (render num_is_one (Some sample_table) sample_inputs_no_match) =
     sidebar_warnings sample_inputs_no_match ++ [no_data_warning] \/
   outputs (render num_is_one (Some sample_table) sample_inputs_no_match) =
     sidebar_warnings sample_inputs_no_match ++ [no_users_warning]) /\
  (forall w, snd (sidebar num_is_one sample_table sample_inputs_no_match) = inr w ->
             outputs (render num_is_one (Some sample_table) sample_inputs_no_match) =
             sidebar_warnings sample_inputs_no_match ++ [no_data_warning]).
Proof.
  apply (C8_empty_result_halts num_is_one (t := sample_table)
           sample_inputs_no_match).
  - vm_compute. discriminate.
  - vm_compute. reflexivity.
Defined.


Lemma sample_levels :
  forall r, In r sample_table -> In (d_risk_level r) RISK_LEVEL_ORDER.
Proof.
  intros r H. vm_compute in H.
  repeat (destruct H as [<-|H]; [in_list|]). contradiction.
Qed.




(** ** The spike columns *)

(** C2 (a defect of the code).  The dashboard filters on boolean spike
    flags (its checkboxes, under "Anomaly Flags", add [column = TRUE]),
    and the pipeline never writes such flags.  On every input what the
    pipeline writes in [logon_spike], [http_spike] and [device_spike] is
    the per-user z-score (count - user mean) / user standard deviation,
    a number or not-a-number, and the engine loads it as a DOUBLE.
    Compared with [TRUE], read as 1, a ticked checkbox keeps only rows
    whose cell is the flag [TRUE] or the number 1 (no selected name
    holding a quote).  On the sample logs
    alice logs on 1, 1, 1 and 5 times: her spike on the last day is 3/2
    and that row passes the filters of the first page; with any one of
    the three checkboxes ticked the filter keeps no row at all, and with
    "Logon Spike" ticked the render halts on the "No data matches"
    warning. *)
Theorem C2_spike_checkbox_keeps_no_row :
  (forall (to_datetime : string -> Timestamp) (sqrtQ : Q -> Q)
          (df : list MergedRow) (f : FeatureRow),
      In f (features to_datetime sqrtQ df) ->
      logon_spike f =
        fdiv (Fin (logon_count (base f) - logon_count_mean f)) (logon_count_std f) /\
      http_spike f =
        fdiv (Fin (http_requests (base f) - http_requests_mean f)) (http_requests_std f) /\
      device_spike f =
        fdiv (Fin (device_activity_count (base f) - device_activity_count_mean f))
             (device_activity_count_std f)) /\
  (forall (r : ScoredRow) (c : SpikeCol),
      exists v, spike_cell c (dash_row_of r) = CNum v) /\
  (forall (t : list DashRow) (inp : Inputs) (c : SpikeCol) (r : DashRow),
      plain_names (selected_users inp) = true ->
      plain_names (selected_risk_levels inp) = true ->
      ticked c inp = true ->
      In r (select_rows num_is_one (query_conditions inp) t) ->
      spike_cell c r = CBool true \/
      exists q, spike_cell c r = CNum (Fin q) /\ (q == 1)%Q) /\
  (exists z, logon_spike (sample_feature_row 3) = Fin z /\ (z == 3 # 2)%Q) /\
  In (dash_row_of (sample_scored_row 3))
     (select_rows num_is_one (query_conditions sample_inputs) sample_table) /\
  (forall c,
      select_rows num_is_one (query_conditions (tick c sample_inputs))
        sample_table = []) /\
  render num_is_one (Some sample_table) (tick LogonSpike sample_inputs) =
    ([no_data_warning], inl Stopped).
Proof.
  split; [|split; [|split; [|split; [|split; [|split]]]]].
  - intros to_datetime sqrtQ df f Hf.
    destruct (features_row _ _ _ _ Hf) as (r & roll & Hr & ->).
    cbn [logon_spike http_spike device_spike base logon_count_mean
         logon_count_std http_requests_mean http_requests_std
         device_activity_count_mean device_activity_count_std feature_row].
    repeat split.
  - intros r c. destruct c; eexists; reflexivity.
  - intros t inp c r _ _ Hc Hr. apply select_rows_In in Hr.
    destruct Hr as [_ Hw].
    unfold query_conditions in Hw.
    rewrite !app_assoc, eval_where_app, andb_true_iff in Hw.
    destruct Hw as [_ Hs].
    pose proof (proj1 (spike_conditions_eval num_is_one inp r) Hs c Hc) as H.
    unfold cell_is_true in H.
    destruct (spike_cell c r) as [b|v|]; [left; now rewrite H|right|discriminate].
    destruct v as [q| | |]; try discriminate H.
    exists q. split; [reflexivity|]. now apply Qeq_bool_iff.
  - eexists. split; [vm_compute; reflexivity|]. vm_compute. reflexivity.
  - in_list.
  - intros c. destruct c; vm_compute; reflexivity.
  - vm_compute. reflexivity.
Qed.

(* ================================================================== *)
(** * Further properties of the pipeline *)
(* ================================================================== *)

(** X1. A (user, date) pair is a key of the merged frame exactly when at
    least one of the three logs has an event for it, and the rows of the
    merged frame are in ascending order of (user, date). *)
Theorem X1_merged_keys_are_the_union :
  forall (logon_df : list LogonEvent) (http_df : list HttpEvent)
         (device_df : list DeviceEvent),
    let m := merged_df logon_df http_df device_df in
    (forall k, In k (map row_key m) <->
               In k (map lg_key logon_df) \/ In k (map ht_key http_df) \/
               In k (map dv_key device_df)) /\
    StronglySorted (fun a b => key_leb a b = true) (map row_key m).
Proof.
  intros logon_df http_df device_df m. unfold m.
  rewrite merged_df_keys, merged_raw_keys. split.
  - intros k. rewrite group_keys_In, in_app_iff, group_keys_In, in_app_iff,
      !group_keys_In. tauto.
  - apply group_keys_sorted.
Qed.

(** X2. Every count of a merged row is the number of events of the
    row's (user, date) in its log that have a value in the counted
    column: [activity] for [logon_count] and [device_activity_count],
    [url] for [http_requests]. *)
Theorem X2_merged_measures_are_the_aggregates :
  forall (logon_df : list LogonEvent) (http_df : list HttpEvent)
         (device_df : list DeviceEvent) (r : MergedRow),
    In r (merged_df logon_df http_df device_df) ->
    let k := row_key r in
    logon_count r = agg_count (map lg_activity (logon_events k logon_df)) /\
    http_requests r = agg_count (map ht_url (http_events k http_df)) /\
    device_activity_count r =
      agg_count (map dv_activity (device_events k device_df)).
Proof.
  intros logon_df http_df device_df r Hr k.
  destruct (merged_row_measures _ _ _ _ Hr) as (H1 & H2 & _ & _ & H5).
  now repeat split.
Qed.

Lemma X2_witness :
  logon_count (sample_merged_row 3) = 5%Q /\
  http_requests (sample_merged_row 6) = 2%Q.
Proof.
  destruct (X2_merged_measures_are_the_aggregates sample_logon sample_http
              sample_device (sample_merged_row 3)) as (Hl & _);
    [in_list|].
  destruct (X2_merged_measures_are_the_aggregates sample_logon sample_http
              sample_device (sample_merged_row 6)) as (_ & Hh & _);
    [in_list|].
  split; [exact Hl|exact Hh].
Defined.

(** X24. The byte columns of a merged row.  When every cell of a byte
    column of the http log is a whole number of 64 bits, so that the
    column is read as int64, and the sum over the events of the row's
    (user, date) is at most 2^53 in absolute value, the byte measure is
    exactly that sum: nothing wraps around and nothing is rounded.  For
    a key with no http event both measures are 0. *)
Theorem X24_byte_sums_are_exact :
  forall (logon_df : list LogonEvent) (http_df : list HttpEvent)
         (device_df : list DeviceEvent) (r : MergedRow),
    In r (merged_df logon_df http_df device_df) ->
    let k := row_key r in
    let sent := map ht_bytes_sent (http_events k http_df) in
    let received := map ht_bytes_received (http_events k http_df) in
    (forallb is_int64 (map ht_bytes_sent http_df) = true ->
     (inject_Z (- 9007199254740992) <= agg_sum sent <=
      inject_Z 9007199254740992)%Q ->
     (http_bytes_sent r == agg_sum sent)%Q) /\
    (forallb is_int64 (map ht_bytes_received http_df) = true ->
     (inject_Z (- 9007199254740992) <= agg_sum received <=
      inject_Z 9007199254740992)%Q ->
     (http_bytes_received r == agg_sum received)%Q) /\
    (~ In k (map ht_key http_df) ->
     http_bytes_sent r = 0%Q /\ http_bytes_received r = 0%Q).
Proof.
  intros logon_df http_df device_df r Hr k sent received.
  destruct (merged_row_measures _ _ _ _ Hr) as (_ & _ & Hs & Hv & _).
  fold k in Hs, Hv. fold sent in Hs. fold received in Hv.
  split; [|split].
  - intros Hcol Hb. rewrite Hs. apply column_sum_exact; try assumption.
    unfold sent, http_events. now apply forallb_map_filter.
  - intros Hcol Hb. rewrite Hv. apply column_sum_exact; try assumption.
    unfold received, http_events. now apply forallb_map_filter.
  - intros Hn. rewrite Hs, Hv. unfold sent, received, http_events.
    rewrite (@filter_key_nil _ ht_key http_df k Hn). cbn [map].
    now rewrite !column_sum_nil.
Qed.

Lemma X24_witness :
  (http_bytes_sent (sample_merged_row 6) == 10 + 30)%Q /\
  http_bytes_sent (sample_merged_row 4) = 0%Q.
Proof.
  destruct (X24_byte_sums_are_exact sample_logon sample_http sample_device
              (sample_merged_row 6)) as (Hs & _); [in_list|].
  destruct (X24_byte_sums_are_exact sample_logon sample_http sample_device
              (sample_merged_row 4)) as (_ & _ & Hz); [in_list|].
  split.
  - rewrite Hs; [vm_compute; reflexivity|reflexivity|].
    split; vm_compute; discriminate.
  - apply Hz. vm_compute.
    intros H; repeat (destruct H as [H|H]; [discriminate H|]); exact H.
Defined.

(** X3. On the frame built from the logs the three counts are never
    negative, so the denominator [http_requests + 1] of the two ratios is
    at least 1 and nothing is divided by zero: each ratio lies between 0
    and its count, and it is 0 exactly when its count is. *)
Theorem X3_ratios_are_well_defined :
  forall (to_datetime : string -> Timestamp) (sqrtQ : Q -> Q)
         (logon_df : list LogonEvent) (http_df : list HttpEvent)
         (device_df : list DeviceEvent) (f : FeatureRow),
    In f (features to_datetime sqrtQ (merged_df logon_df http_df device_df)) ->
    (0 <= logon_count (base f) /\ 0 <= http_requests (base f) /\
     0 <= device_activity_count (base f))%Q /\
    (1 <= http_requests (base f) + 1)%Q /\
    (0 <= device_http_ratio f <= device_activity_count (base f))%Q /\
    (0 <= logon_http_ratio f <= logon_count (base f))%Q /\
    ((device_http_ratio f == 0)%Q <-> (device_activity_count (base f) == 0)%Q) /\
    ((logon_http_ratio f == 0)%Q <-> (logon_count (base f) == 0)%Q).
Proof.
  intros to_datetime sqrtQ logon_df http_df device_df f Hf.
  destruct (features_row _ _ _ _ Hf) as (r & roll & Hr & ->).
  cbn [base device_http_ratio logon_http_ratio feature_row].
  destruct (merged_row_measures _ _ _ _ Hr) as (El & Eh & _ & _ & Ed).
  assert (Hl : (0 <= logon_count r)%Q) by (rewrite El; apply agg_count_nonneg).
  assert (Hh : (0 <= http_requests r)%Q) by (rewrite Eh; apply agg_count_nonneg).
  assert (Hd : (0 <= device_activity_count r)%Q)
    by (rewrite Ed; apply agg_count_nonneg).
  assert (Hp : (0 < http_requests r + 1)%Q) by lra.
  assert (B : forall x, (0 <= x)%Q ->
            (0 <= x / (http_requests r + 1) <= x)%Q /\
            ((x / (http_requests r + 1) == 0)%Q <-> (x == 0)%Q)).
  { intros x Hx. split; [split|split].
    - apply Qle_shift_div_l; [exact Hp|]. now rewrite Qmult_0_l.
    - apply Qle_shift_div_r; [exact Hp|].
      assert (0 <= x * http_requests r)%Q by now apply Qmult_le_0_compat.
      lra.
    - intros E.
      assert (E' : (x == x / (http_requests r + 1) * (http_requests r + 1))%Q)
        by (field; lra).
      rewrite E'. rewrite E. ring.
    - intros E. rewrite E. field. lra. }
  split; [auto|]. split; [lra|].
  split; [apply (B _ Hd)|]. split; [apply (B _ Hl)|].
  split; [apply (B _ Hd)|apply (B _ Hl)].
Qed.

Lemma X3_witness :
  (0 <= device_http_ratio (sample_feature_row 7) <=
   device_activity_count (base (sample_feature_row 7)))%Q.
Proof.
  destruct (X3_ratios_are_well_defined iso_datetime sqrt_floor sample_logon
              sample_http sample_device (sample_feature_row 7))
    as (_ & _ & H & _); [in_list|exact H].
Defined.

(** X4. On the frame built from the logs each missing flag is 0 or 1,
    and it is 1 exactly when no event of the row's (user, date) in that
    log has a value in the counted column: no [url] for [http_missing],
    no [activity] for [logon_missing] and [device_missing]. *)
Theorem X4_missing_flags :
  forall (to_datetime : string -> Timestamp) (sqrtQ : Q -> Q)
         (logon_df : list LogonEvent) (http_df : list HttpEvent)
         (device_df : list DeviceEvent) (f : FeatureRow),
    In f (features to_datetime sqrtQ (merged_df logon_df http_df device_df)) ->
    let k := row_key (base f) in
    (logon_missing f = 0%Z \/ logon_missing f = 1%Z) /\
    (http_missing f = 0%Z \/ http_missing f = 1%Z) /\
    (device_missing f = 0%Z \/ device_missing f = 1%Z) /\
    (logon_missing f = 1%Z <->
       forall e, In e logon_df -> lg_key e = k -> lg_activity e = None) /\
    (http_missing f = 1%Z <->
       forall e, In e http_df -> ht_key e = k -> ht_url e = None) /\
    (device_missing f = 1%Z <->
       forall e, In e device_df -> dv_key e = k -> dv_activity e = None).
Proof.
  intros to_datetime sqrtQ logon_df http_df device_df f Hf k.
  destruct (features_row _ _ _ _ Hf) as (r & roll & Hr & ->).
  cbn [base logon_missing http_missing device_missing feature_row] in *.
  destruct (merged_row_measures _ _ _ _ Hr) as (El & Eh & _ & _ & Ed).
  fold k in El, Eh, Ed.
  assert (F : forall v, missing_flag v = 0%Z \/ missing_flag v = 1%Z).
  { intros v. unfold missing_flag. destruct (Qeq_bool v 0); auto. }
  assert (G : forall v, missing_flag v = 1%Z <-> (v == 0)%Q).
  { intros v. unfold missing_flag. rewrite <- Qeq_bool_iff.
    destruct (Qeq_bool v 0); split; congruence. }
  split; [apply F|]. split; [apply F|]. split; [apply F|].
  rewrite !G, El, Eh, Ed, !agg_count_zero.
  unfold logon_events, http_events, device_events.
  split; [|split]; (split; [intros H e He Hk; apply H, in_map, filter_In;
                            split; [exact He|now apply key_eqb_eq]
                           |intros H c Hc; apply in_map_iff in Hc;
                            destruct Hc as [e [<- He]];
                            apply filter_In in He; destruct He as [He Hk];
                            apply key_eqb_eq in Hk; now apply H]).
Qed.

Lemma X4_witness :
  http_missing (sample_feature_row 3) = 1%Z /\
  logon_missing (sample_feature_row 3) = 0%Z.
Proof.
  destruct (X4_missing_flags iso_datetime sqrt_floor sample_logon sample_http
              sample_device (sample_feature_row 3))
    as ([H0|H1] & _ & _ & Hl & Hh & _); [in_list| |].
  - split; [|exact H0]. apply Hh. intros e He Hk. vm_compute in He.
    repeat (destruct He as [<-|He]; [vm_compute in Hk; discriminate Hk|]).
    contradiction.
  - exfalso. vm_compute in H1. discriminate H1.
Defined.

(** X5. Adding the features loses and repeats no row: the rows of the
    feature frame are those of the merged frame, as many, re-ordered by
    user and then by date. *)
Theorem X5_features_reorder_the_rows :
  forall (to_datetime : string -> Timestamp) (sqrtQ : Q -> Q)
         (df : list MergedRow),
    let fs := features to_datetime sqrtQ df in
    Permutation (map base fs) df /\
    List.length fs = List.length df /\
    StronglySorted (fun a b => row_leb to_datetime a b = true) (map base fs).
Proof.
  intros to_datetime sqrtQ df fs. unfold fs.
  rewrite features_base. unfold sort_values.
  split; [symmetry; apply stable_sort_perm|]. split.
  - rewrite <- (length_map base), features_base. apply stable_sort_length.
  - apply stable_sort_sorted; [apply row_leb_total|apply row_leb_trans].
Qed.

(** X6. A user with a single row has no sample standard deviation: on
    that row the three [_std] columns and the three spikes are
    not-a-number. *)
Theorem X6_single_row_user_has_nan_spikes :
  forall (to_datetime : string -> Timestamp) (sqrtQ : Q -> Q)
         (df : list MergedRow) (f : FeatureRow),
    In f (features to_datetime sqrtQ df) ->
    List.length (user_rows (user (base f)) df) = 1%nat ->
    (logon_count_std f = NaN /\ http_requests_std f = NaN /\
     device_activity_count_std f = NaN) /\
    (logon_spike f = NaN /\ http_spike f = NaN /\ device_spike f = NaN).
Proof.
  intros to_datetime sqrtQ df f Hf Hone.
  destruct (features_row _ _ _ _ Hf) as (r & roll & Hr & ->).
  cbn [base logon_count_std http_requests_std device_activity_count_std
       logon_spike http_spike device_spike feature_row] in *.
  assert (S : forall col, baseline_std sqrtQ col df r = NaN).
  { intros col. unfold baseline_std, std. now rewrite length_map, Hone. }
  unfold spike. rewrite !S. repeat split; reflexivity.
Qed.

Lemma X6_witness :
  logon_count_std (nth 0 lone_features default_feature_row) = NaN /\
  logon_spike (nth 0 lone_features default_feature_row) = NaN.
Proof.
  destruct (X6_single_row_user_has_nan_spikes iso_datetime sqrt_floor
              (merged_df lone_logon [] [])
              (nth 0 lone_features default_feature_row))
    as ((H1 & _) & (H2 & _)).
  - in_list.
  - vm_compute. reflexivity.
  - split; assumption.
Defined.

(** X7. No user spikes on every day.  In the frame built from the
    logs take one of the three count columns and a user with rows: the
    user's mean lies between the user's lowest and highest count, so
    where the user's standard deviation is a positive number the spike
    of a row with the highest count is not negative and the spike of a
    row with the lowest count is not positive. *)
Theorem X7_spikes_of_a_user_straddle_zero :
  forall (sqrtQ : Q -> Q) (logon_df : list LogonEvent)
         (http_df : list HttpEvent) (device_df : list DeviceEvent)
         (c : CountCol) (u : string),
    let df := merged_df logon_df http_df device_df in
    let col := count_col c in
    user_rows u df <> [] ->
    exists lo hi,
      In lo (user_rows u df) /\ In hi (user_rows u df) /\
      (forall r, In r (user_rows u df) -> (col lo <= col r <= col hi)%Q) /\
      (col lo <= baseline_mean col df lo <= col hi)%Q /\
      baseline_mean col df hi = baseline_mean col df lo /\
      (forall s, std sqrtQ (map col (user_rows u df)) = Fin s -> (0 < s)%Q ->
         exists zlo zhi,
           spike sqrtQ col df lo = Fin zlo /\
           spike sqrtQ col df hi = Fin zhi /\
           (zlo <= 0 <= zhi)%Q).
Proof.
  intros sqrtQ logon_df http_df device_df c u df col Hne.
  assert (Hxs : map col (user_rows u df) <> [])
    by (intros C; apply map_eq_nil in C; contradiction).
  destruct (mean_between Hxs) as (a & b & Ha & Hb & Hma & Hmb & Hall).
  apply in_map_iff in Ha. destruct Ha as (lo & Ea & Hlo).
  apply in_map_iff in Hb. destruct Hb as (hi & Eb & Hhi).
  subst a b. exists lo, hi.
  rewrite (baseline_mean_user col df u lo Hlo),
    (baseline_mean_user col df u hi Hhi).
  split; [exact Hlo|]. split; [exact Hhi|].
  split; [intros r Hr; apply Hall; now apply in_map|].
  split; [now split|]. split; [reflexivity|].
  intros s Hs Hpos. unfold spike.
  rewrite (baseline_std_user sqrtQ col df u lo Hlo),
    (baseline_std_user sqrtQ col df u hi Hhi), Hs,
    (baseline_mean_user col df u lo Hlo),
    (baseline_mean_user col df u hi Hhi).
  unfold fdiv.
  destruct (Qeq_bool s 0) eqn:E; [apply Qeq_bool_iff in E; lra|].
  eexists. eexists. split; [reflexivity|]. split; [reflexivity|]. split.
  - apply Qle_shift_div_r; [exact Hpos|]. lra.
  - apply Qle_shift_div_l; [exact Hpos|]. lra.
Qed.

Lemma X7_witness :
  exists lo hi,
    In lo (user_rows "alice" sample_merged) /\
    In hi (user_rows "alice" sample_merged) /\
    (forall r, In r (user_rows "alice" sample_merged) ->
               (logon_count lo <= logon_count r <= logon_count hi)%Q) /\
    (logon_count lo <= baseline_mean logon_count sample_merged lo <=
     logon_count hi)%Q.
Proof.
  destruct (X7_spikes_of_a_user_straddle_zero sqrt_floor sample_logon
              sample_http sample_device LogonCount "alice")
    as (lo & hi & H1 & H2 & H3 & H4 & _).
  - vm_compute. discriminate.
  - exists lo, hi. split; [exact H1|]. split; [exact H2|].
    split; [exact H3|exact H4].
Defined.

(** X8. On the first row of each user [logon_rolling_3] is the row's own
    [logon_count] and [logon_delta] is zero; on the second the rolling
    mean is the mean of the first two counts. *)
Theorem X8_rolling_mean_at_the_start :
  forall (to_datetime : string -> Timestamp) (sqrtQ : Q -> Q)
         (df : list MergedRow) (u : string),
    let g := filter (fun f => String.eqb (user (base f)) u)
                    (features to_datetime sqrtQ df) in
    (forall f0, nth_error g 0 = Some f0 ->
       (logon_rolling_3 f0 == logon_count (base f0))%Q /\
       (logon_delta f0 == 0)%Q) /\
    (forall f0 f1, nth_error g 0 = Some f0 -> nth_error g 1 = Some f1 ->
       (logon_rolling_3 f1 ==
          (logon_count (base f0) + logon_count (base f1)) / 2)%Q).
Proof.
  intros to_datetime sqrtQ df u g.
  destruct (features_of_user to_datetime sqrtQ u df) as (gp & Hg & Hfst & Hsnd).
  fold g in Hg. rewrite <- Hfst, map_map in Hsnd. rewrite Hg.
  destruct gp as [|p0 gp]; [split; intros; discriminate|].
  cbn [map rolling_mean rolling_mean_from app] in Hsnd.
  unfold rolling_mean in Hsnd. cbn [rolling_mean_from app] in Hsnd.
  change (keep_last 3 [logon_count (fst p0)]) with [logon_count (fst p0)] in Hsnd.
  injection Hsnd as H0 Hrest.
  split.
  - intros f0 E. cbn in E. injection E as <-.
    cbn [logon_rolling_3 logon_delta base feature_row]. rewrite H0.
    rewrite mean_singleton. split; [reflexivity|ring].
  - intros f0 f1 E0 E1. cbn in E0. injection E0 as <-.
    destruct gp as [|p1 gp]; [discriminate|].
    cbn in E1. injection E1 as <-.
    cbn [map rolling_mean_from app] in Hrest.
    change (keep_last 3 [logon_count (fst p0); logon_count (fst p1)])
      with [logon_count (fst p0); logon_count (fst p1)] in Hrest.
    injection Hrest as H1 _.
    cbn [logon_rolling_3 base feature_row logon_count]. rewrite H1.
    apply mean_pair.
Qed.

Lemma X8_witness :
  (logon_rolling_3 (sample_feature_row 4) ==
     logon_count (base (sample_feature_row 4)))%Q /\
  (logon_delta (sample_feature_row 4) == 0)%Q.
Proof.
  apply (proj1 (X8_rolling_mean_at_the_start iso_datetime sqrt_floor
                  sample_merged "bob")).
  vm_compute. reflexivity.
Defined.

(* ================================================================== *)
(** * Further properties of the scoring *)
(* ================================================================== *)

(** X9. The quantile of an empty column is not-a-number.  On a column
    with values, for fractions 0 <= q <= q' <= 1, both quantiles are
    numbers, the first is at most the second, and both lie between two
    values of the column. *)
Theorem X9_quantile_exists_ordered_bounded :
  (forall q, quantile q [] = None) /\
  (forall (q q' : Q) (xs : list Q),
      (0 <= q)%Q -> (q <= q')%Q -> (q' <= 1)%Q -> xs <> [] ->
      exists v v',
        quantile q xs = Some v /\ quantile q' xs = Some v' /\
        (v <= v')%Q /\
        exists a b, In a xs /\ In b xs /\ (a <= v)%Q /\ (v' <= b)%Q).
Proof.
  split; [reflexivity|].
  intros q q' xs H0 Hle H1 Hne.
  destruct (quantile q xs) as [v|] eqn:Ev;
    [|apply quantile_none in Ev; contradiction].
  destruct (quantile q' xs) as [v'|] eqn:Ev';
    [|apply quantile_none in Ev'; contradiction].
  exists v, v'. split; [reflexivity|]. split; [reflexivity|].
  split; [exact (@quantile_mono q q' xs v v' H0 Hle H1 Ev Ev')|].
  destruct (@quantile_between q xs v) as (a & _ & Ha & _ & Hav & _);
    [lra|lra|exact Ev|].
  destruct (@quantile_between q' xs v') as (_ & b & _ & Hb & _ & Hvb);
    [lra|lra|exact Ev'|].
  exists a, b. auto.
Qed.

Lemma X9_witness :
  exists v v',
    quantile (75 # 100) [1; 5; 3]%Q = Some v /\
    quantile (95 # 100) [1; 5; 3]%Q = Some v' /\
    (v <= v')%Q /\
    exists a b, In a [1; 5; 3]%Q /\ In b [1; 5; 3]%Q /\ (a <= v)%Q /\ (v' <= b)%Q.
Proof.
  apply (proj2 X9_quantile_exists_ordered_bounded);
    vm_compute; discriminate.
Defined.

(** X10. Scoring keeps the rows of the feature frame, one scored row
    each, in order; [risk_score] is [anomaly_score] with the sign
    flipped; a row whose score is the largest of the frame is always
    High, so a frame with rows has a High row. *)
Theorem X10_scored_frame_has_a_high_row :
  forall (predict : list (list fval) -> list fval -> Z)
         (decision_function : list (list fval) -> list fval -> Q)
         (fs : list FeatureRow),
    let scored := score predict decision_function fs in
    map feat scored = fs /\
    (forall r, In r scored -> risk_score r = (- anomaly_score r)%Q) /\
    (forall r, In r scored ->
       (forall r', In r' scored -> (risk_score r' <= risk_score r)%Q) ->
       risk_level r = High) /\
    (fs <> [] -> exists r, In r scored /\ risk_level r = High).
Proof.
  intros predict decision_function fs scored. unfold scored.
  split; [apply score_feat|]. split; [|split].
  - intros r Hr. destruct fs as [|f t]; [contradiction|].
    destruct (@score_spec predict decision_function (f :: t))
      as (lo & hi & _ & _ & _ & E); [discriminate|].
    rewrite E in Hr. apply in_map_iff in Hr. now destruct Hr as [f' [<- _]].
  - intros r Hr Hmax.
    destruct (score_high _ _ _ _ Hr) as (hi & _ & Hiff & r' & Hr' & Hhi).
    apply Hiff. eapply Qle_trans; [exact Hhi|now apply Hmax].
  - intros Hne.
    assert (Hs : score predict decision_function fs <> []).
    { intros C. apply (f_equal (map feat)) in C. rewrite score_feat in C.
      contradiction. }
    destruct (score predict decision_function fs) as [|r0 rest] eqn:E;
      [congruence|].
    assert (H0 : In r0 (score predict decision_function fs))
      by (rewrite E; now left).
    destruct (score_high _ _ _ _ H0) as (hi & Ehi & _ & r' & Hr' & Hhi).
    destruct (score_high _ _ _ _ Hr') as (hi' & Ehi' & Hiff & _).
    rewrite Ehi in Ehi'. inversion Ehi'; subst hi'.
    exists r'. rewrite <- E. split; [exact Hr'|now apply Hiff].
Qed.

Lemma X10_witness :
  risk_level (sample_scored_row 3) = High /\
  exists r, In r sample_scored /\ risk_level r = High.
Proof.
  destruct (X10_scored_frame_has_a_high_row toy_predict toy_decision_function
              sample_features) as (_ & _ & Hmax & Hex).
  split.
  - apply Hmax; [in_list|].
    intros r' Hr'. vm_compute in Hr'.
    repeat (destruct Hr' as [<-|Hr']; [vm_compute; discriminate|]).
    contradiction.
  - apply Hex. vm_compute. discriminate.
Defined.

(** X11. The five records printed as the top risks are High rows of the
    scored frame, at most five, in descending order of risk score; when
    the frame has rows there is a first one, and no row of the whole
    frame has a higher risk score. *)
Theorem X11_top_risks :
  forall (predict : list (list fval) -> list fval -> Z)
         (decision_function : list (list fval) -> list fval -> Q)
         (fs : list FeatureRow),
    let scored := score predict decision_function fs in
    (List.length (top_5_risks scored) <= 5)%nat /\
    (forall r, In r (top_5_risks scored) ->
               In r scored /\ risk_level r = High) /\
    StronglySorted (fun a b => (risk_score b <= risk_score a)%Q)
                   (top_5_risks scored) /\
    (fs <> [] ->
     exists r, hd_error (top_5_risks scored) = Some r /\
               forall r', In r' scored -> (risk_score r' <= risk_score r)%Q).
Proof.
  intros predict decision_function fs scored.
  set (geb := fun a b : ScoredRow => Qle_bool (risk_score b) (risk_score a)).
  assert (Hsorted : StronglySorted (fun a b => (risk_score b <= risk_score a)%Q)
                      (top_risks scored)).
  { apply StronglySorted_weaken
      with (R := fun a b => geb a b = true) (P := fun _ => True).
    - intros a b _ _ H. now apply Qle_bool_iff.
    - apply Forall_forall. auto.
    - apply stable_sort_sorted.
      + intros a b. apply Qle_bool_total.
      + intros a b c H1 H2. unfold geb in *.
        eapply Qle_bool_trans; eassumption. }
  assert (Hin : forall r, In r (top_risks scored) <->
                          In r scored /\ risk_level r = High).
  { intros r. unfold top_risks. rewrite stable_sort_In, filter_In.
    unfold is_high. destruct (risk_level r); split; intros [? ?];
      split; congruence. }
  split; [|split; [|split]].
  - unfold top_5_risks. rewrite length_firstn. lia.
  - intros r Hr. apply Hin. unfold top_5_risks in Hr.
    rewrite <- (firstn_skipn 5 (top_risks scored)). apply in_or_app. now left.
  - now apply StronglySorted_firstn.
  - intros Hne.
    assert (Hex : exists r0, In r0 scored).
    { unfold scored. destruct fs as [|f t]; [congruence|].
      destruct (@score_spec predict decision_function (f :: t))
        as (lo & hi & _ & _ & _ & E); [discriminate|].
      rewrite E. eexists. left. reflexivity. }
    destruct Hex as [r0 H0].
    destruct (score_high _ _ _ _ H0) as (hi & Ehi & _ & rh & Hrh & Hhi).
    assert (Hiff : forall r, In r scored ->
                             (risk_level r = High <-> (hi <= risk_score r)%Q)).
    { intros r Hr. destruct (score_high _ _ _ _ Hr) as (hi' & Ehi' & Hi & _).
      rewrite Ehi in Ehi'. inversion Ehi'; subst hi'. exact Hi. }
    assert (Hrh' : In rh (top_risks scored))
      by (apply Hin; split; [exact Hrh|now apply Hiff]).
    unfold top_5_risks.
    destruct (top_risks scored) as [|r top] eqn:Et; [contradiction|].
    exists r. split; [reflexivity|].
    assert (Hr : In r scored /\ risk_level r = High)
      by (apply Hin; now left).
    destruct Hr as [Hr HrH]. apply (Hiff r Hr) in HrH.
    intros r' Hr'.
    destruct (Qlt_le_dec (risk_score r') hi) as [Hlow|Hhigh].
    + apply Qlt_le_weak. eapply Qlt_le_trans; eassumption.
    + assert (Ht : In r' (r :: top))
        by (apply Hin; split; [exact Hr'|now apply Hiff]).
      destruct Ht as [<-|Ht]; [apply Qle_refl|].
      inversion Hsorted as [|? ? _ Hall]; subst.
      rewrite Forall_forall in Hall. now apply Hall.
Qed.

Lemma X11_witness :
  exists r, hd_error (top_5_risks sample_scored) = Some r /\
            forall r', In r' sample_scored -> (risk_score r' <= risk_score r)%Q.
Proof.
  apply (proj2 (proj2 (proj2 (X11_top_risks toy_predict toy_decision_function
                                sample_features)))).
  vm_compute. discriminate.
Defined.

(** X12. For a day of the month, 1 to 31, the week of the month is a
    number from 1 to 5: 1 for the first seven days, never smaller for a
    later day. *)
Theorem X12_week_of_month_range :
  forall d d' : Z,
    (1 <= d <= 31)%Z ->
    (1 <= week_of_month_of d <= 5)%Z /\
    (d <= 7 -> week_of_month_of d = 1)%Z /\
    (d <= d' -> week_of_month_of d <= week_of_month_of d')%Z.
Proof.
  intros d d' Hd. unfold week_of_month_of.
  split; [|split].
  - Z.div_mod_to_equations. lia.
  - intros H. Z.div_mod_to_equations. lia.
  - intros H. Z.div_mod_to_equations. lia.
Qed.

Lemma X12_witness :
  (1 <= week_of_month_of 29 <= 5)%Z /\
  (29 <= 7 -> week_of_month_of 29 = 1)%Z /\
  (29 <= 31 -> week_of_month_of 29 <= week_of_month_of 31)%Z.
Proof. apply X12_week_of_month_range. lia. Defined.

(* ================================================================== *)
(** * Further properties of the dashboard *)
(* ================================================================== *)

(** X13. The text of an [IN] list.  The script puts each selected name
    between two single quotes and escapes nothing (lines 197 and 210).
    Read as SQL string literals, the text gives back exactly the
    selected names if and only if no name holds a single quote: with
    O'Brien among the names the text is not a list of literals, and a
    doubled quote in a name is read back as one quote. *)
Theorem X13_in_list_reads_back :
  (forall us,
      cond_sql (UserIn us) = ("user IN (" ++ quoted_list us ++ ")")%string) /\
  (forall ls,
      cond_sql (RiskLevelIn ls) =
      ("risk_level IN (" ++ quoted_list ls ++ ")")%string) /\
  (forall xs,
      sql_literals (quoted_list xs) = Some xs <-> plain_names xs = true) /\
  sql_literals (quoted_list ["O'Brien"; "amy"]%string) = None /\
  sql_literals (quoted_list ["O''Brien"]%string) = Some ["O'Brien"%string].
Proof.
  split; [reflexivity|]. split; [reflexivity|].
  split; [exact sql_literals_quoted_list|]. split; reflexivity.
Qed.

(** X14. A filter only removes rows: the filtered count is at most the
    size of the table; a view with one more condition (the High-only
    charts, the detail table) never has more rows than the filtered
    count; and ticking one more spike checkbox keeps a subset of the
    rows and never raises the count. *)
Theorem X14_filters_only_narrow :
  forall (num_is_true : fval -> bool) (t : list DashRow),
    (forall w, (count_rows num_is_true w t <= List.length t)%nat) /\
    (forall w c,
        (List.length (select_rows num_is_true (and_cond w c) t) <=
         count_rows num_is_true w t)%nat) /\
    (forall c inp,
        (forall r, In r (select_rows num_is_true (query_conditions (tick c inp)) t) ->
                   In r (select_rows num_is_true (query_conditions inp) t)) /\
        (count_rows num_is_true (query_conditions (tick c inp)) t <=
         count_rows num_is_true (query_conditions inp) t)%nat).
Proof.
  intros num_is_true t. split; [|split].
  - intros w. rewrite count_rows_length. apply filter_length_le.
  - intros w c. rewrite count_rows_length. apply filter_length_mono.
    intros r _. unfold and_cond. rewrite eval_where_app, andb_true_iff. tauto.
  - intros c inp. split.
    + intros r. rewrite !select_rows_In. intros [Hr Hw].
      split; [exact Hr|]. now apply (tick_narrows num_is_true c inp).
    + rewrite !count_rows_length. apply filter_length_mono.
      intros r _. apply tick_narrows.
Qed.

(** X15. How a render of a loaded table ends, when no selected name
    holds a quote.  On a table without rows it raises (the date bounds
    cannot be parsed) and shows nothing.  On a table with rows it halts
    at [st.stop()] exactly when no row passes the filters; it raises a
    NameError exactly when rows pass and the date range is incomplete;
    it raises the ValueError of [to_excel] exactly when the date range
    is complete and more than 1,048,576 rows pass; and it runs to its
    end exactly when the date range is complete and between 1 and
    1,048,576 rows pass. *)
Theorem X15_how_a_render_ends :
  forall (num_is_true : fval -> bool) (t : list DashRow) (inp : Inputs),
    plain_names (selected_users inp) = true ->
    plain_names (selected_risk_levels inp) = true ->
    let run := render num_is_true (Some t) inp in
    let n := count_rows num_is_true (query_conditions inp) t in
    (t = [] -> status run = Raised "ValueError" /\ outputs run = []) /\
    (t <> [] ->
     (status run = Stopped <-> n = 0%nat) /\
     (status run = Raised "NameError" <->
        n <> 0%nat /\ date_pair inp = None) /\
     (status run = Raised "ValueError" <->
        date_pair inp <> None /\ (excel_max_rows < Z.of_nat n)%Z) /\
     (status run = Completed <->
        n <> 0%nat /\ date_pair inp <> None /\
        (Z.of_nat n <= excel_max_rows)%Z)).
Proof.
  intros num_is_true t inp _ _ run n. unfold run. split.
  - intros ->. split; [reflexivity|]. unfold outputs. now rewrite render_run.
  - intros Ht. rewrite render_status.
    assert (Hbig : sheet_too_large
                     (select_rows num_is_true (query_conditions inp) t) =
                   Z.ltb excel_max_rows (Z.of_nat n))
      by (unfold sheet_too_large, n; now rewrite count_rows_length).
    rewrite Hbig. fold n.
    assert (Hmax : (0 < excel_max_rows)%Z) by reflexivity.
    destruct t as [|r0 t']; [congruence|].
    destruct n as [|n'] eqn:En.
    + split; [tauto|]. split; [split; [discriminate|tauto]|].
      split; (split; [discriminate|]); intros H; exfalso;
        [destruct H as [_ H]; cbn in H; lia|tauto].
    + destruct (date_pair inp) as [p|].
      * destruct (Z.ltb_spec excel_max_rows (Z.of_nat (S n'))) as [Hlt|Hge].
        -- split; [split; [discriminate|discriminate]|].
           split; [split; [discriminate|intros [_ C]; discriminate C]|].
           split; [split; [intros _; split; [discriminate|exact Hlt]|reflexivity]|].
           split; [discriminate|]. intros (_ & _ & C). lia.
        -- split; [split; [discriminate|discriminate]|].
           split; [split; [discriminate|intros [_ C]; discriminate C]|].
           split; [split; [discriminate|intros [_ C]; lia]|].
           split; [intros _|reflexivity].
           split; [discriminate|]. split; [discriminate|exact Hge].
      * split; [split; [discriminate|discriminate]|].
        split; [split; [intros _; split; [discriminate|reflexivity]|reflexivity]|].
        split; [split; [discriminate|intros [C _]; congruence]|].
        split; [discriminate|]. intros (_ & C & _). congruence.
Qed.

Lemma X15_witness :
  (status (render num_is_one (Some sample_table) sample_inputs) = Completed <->
   count_rows num_is_one (query_conditions sample_inputs) sample_table <> 0%nat /\
   date_pair sample_inputs <> None /\
   (Z.of_nat (count_rows num_is_one (query_conditions sample_inputs)
                sample_table) <= excel_max_rows)%Z) /\
  status (render num_is_one (Some []) sample_inputs) = Raised "ValueError" /\
  status (render num_is_one (Some big_table) other_level_inputs) =
    Raised "ValueError".
Proof.
  split; [|split].
  - apply (proj2 (X15_how_a_render_ends num_is_one sample_table sample_inputs
                    eq_refl eq_refl)).
    vm_compute. discriminate.
  - apply (proj1 (X15_how_a_render_ends num_is_one [] sample_inputs
                    eq_refl eq_refl)).
    reflexivity.
  - assert (Hne : big_table <> []).
    { unfold big_table. destruct (Pos2Nat.is_succ 1048577) as [k ->].
      discriminate. }
    destruct (proj2 (X15_how_a_render_ends num_is_one big_table
                       other_level_inputs eq_refl eq_refl) Hne)
      as (_ & _ & H & _).
    apply H. split; [discriminate|].
    unfold big_table. rewrite count_rows_repeat by reflexivity.
    rewrite positive_nat_Z. reflexivity.
Defined.

(** X16. What is on the page when a render with rows in the filter does
    not run to its end (no selected name holding a quote).  With an
    incomplete date range the page has the sidebar warning, the header
    with the count and the three metrics, and nothing more: the
    NameError of the fourth card comes before every chart, the table and
    the export.  With a complete date range and more than 1,048,576
    filtered rows the CSV download of all the filtered rows is on the
    page and the Excel download is not: [to_excel] raises before its
    button. *)
Theorem X16_what_a_failed_render_shows :
  forall (num_is_true : fval -> bool) (t : list DashRow) (inp : Inputs),
    plain_names (selected_users inp) = true ->
    plain_names (selected_risk_levels inp) = true ->
    let w := query_conditions inp in
    let run := render num_is_true (Some t) inp in
    count_rows num_is_true w t <> 0%nat ->
    (date_pair inp = None ->
       status run = Raised "NameError" /\
       List.length (outputs run) = 5%nat /\
       In (Subheader (count_rows num_is_true w t)) (outputs run) /\
       Forall (fun o => match o with
                        | SidebarWarning _ | Subheader _ | Metric _ _ => True
                        | _ => False
                        end) (outputs run)) /\
    (date_pair inp <> None ->
     sheet_too_large (select_rows num_is_true w t) = true ->
       status run = Raised "ValueError" /\
       In (DownloadButton "filtered_user_risk_analysis.csv"
             (select_rows num_is_true w t)) (outputs run) /\
       forall rows,
         ~ In (DownloadButton "filtered_user_risk_analysis.xlsx" rows)
              (outputs run)).
Proof.
  intros num_is_true t inp _ _ w run Hn. unfold run, w in *.
  assert (Ht : t <> []) by (intros ->; apply Hn; reflexivity).
  assert (Hne : select_rows num_is_true (query_conditions inp) t <> []).
  { intros C. apply Hn. now rewrite count_rows_length, C. }
  pose proof (render_status num_is_true t inp) as Hst.
  destruct t as [|r0 t']; [congruence|]. set (t := r0 :: t') in *.
  destruct (count_rows num_is_true (query_conditions inp) t) as [|n'] eqn:En;
    [congruence|].
  rewrite <- En. split.
  - intros Hd. rewrite Hd in Hst. split; [exact Hst|].
    rewrite (render_outputs num_is_true t inp)
      by (rewrite En; discriminate).
    unfold sidebar_warnings, kpi_outputs. rewrite Hd, app_nil_r.
    split; [reflexivity|]. split; [right; now left|].
    now repeat constructor.
  - intros Hd Hbig. destruct (date_pair inp) as [[s e]|] eqn:Ed; [|congruence].
    rewrite Hbig in Hst. split; [exact Hst|].
    destruct (tab_export_run num_is_true (query_conditions inp) t)
      as (_ & _ & Hx).
    specialize (Hx Hne). rewrite Hbig in Hx. split.
    + rewrite (render_outputs num_is_true t inp)
        by (rewrite En; discriminate).
      rewrite Ed. apply in_or_app. right. apply in_or_app. right. right.
      unfold tab_outputs. repeat (apply in_or_app; right).
      rewrite Hx. now left.
    + intros rows Hin.
      destruct (render_table_or_export num_is_true t inp _ Hin eq_refl)
        as [_ [Hf|He]].
      * destruct (tab_flagged_run num_is_true (query_conditions inp) t
                    (count_rows num_is_true (query_conditions inp) t))
          as [_ F].
        rewrite Forall_forall in F. exact (F _ Hf).
      * rewrite Hx in He. destruct He as [He|[]]. discriminate He.
Qed.

Lemma X16_witness :
  (status (render num_is_one (Some sample_table) sample_inputs_one_date) =
     Raised "NameError" /\
   List.length
     (outputs (render num_is_one (Some sample_table) sample_inputs_one_date)) =
     5%nat) /\
  In (DownloadButton "filtered_user_risk_analysis.csv"
        (select_rows num_is_one (query_conditions other_level_inputs)
           big_table))
     (outputs (render num_is_one (Some big_table) other_level_inputs)).
Proof.
  split.
  - destruct (X16_what_a_failed_render_shows num_is_one sample_table
                sample_inputs_one_date eq_refl eq_refl) as [H _].
    + vm_compute. discriminate.
    + destruct (H eq_refl) as (H1 & H2 & _). split; [exact H1|exact H2].
  - assert (Hn : count_rows num_is_one (query_conditions other_level_inputs)
                   big_table = Pos.to_nat 1048577)
      by (unfold big_table; now rewrite count_rows_repeat).
    destruct (X16_what_a_failed_render_shows num_is_one big_table
                other_level_inputs eq_refl eq_refl) as [_ H].
    + rewrite Hn. destruct (Pos2Nat.is_succ 1048577) as [k ->]. discriminate.
    + assert (Hd : date_pair other_level_inputs <> None) by discriminate.
      assert (Hbig : sheet_too_large
                       (select_rows num_is_one
                          (query_conditions other_level_inputs) big_table) =
                     true).
      { unfold sheet_too_large. rewrite <- count_rows_length, Hn.
        rewrite positive_nat_Z. reflexivity. }
      exact (proj1 (proj2 (H Hd Hbig))).
Defined.

(** X17. Three placeholders are never shown: a render reaches the tabs
    only with rows in the filter, and with rows the risk-score
    histogram, the daily trend charts and the export always have data,
    so "No risk score data", "No daily activity data" and "No data to
    export" appear in no render. *)
Theorem X17_unreachable_placeholders :
  forall (num_is_true : fval -> bool) (con : option (list DashRow))
         (inp : Inputs),
    Forall (fun o => is_unfiltered_placeholder o = false)
           (outputs (render num_is_true con inp)).
Proof.
  intros num_is_true [t|] inp; [|now repeat constructor].
  assert (Hsw : Forall (fun o => is_unfiltered_placeholder o = false)
                       (sidebar_warnings inp)).
  { unfold sidebar_warnings. destruct (date_pair inp); now repeat constructor. }
  destruct (Nat.eq_dec (count_rows num_is_true (query_conditions inp) t) 0)
    as [Hz|Hn].
  - unfold outputs. rewrite render_run, render_filtered_run, Hz.
    destruct t as [|r0 t']; [constructor|].
    destruct (selected_users inp) as [|u us];
      [destruct (all_users num_is_true (r0 :: t') inp) as [|a au]|];
      cbn [fst]; apply Forall_app; split; try exact Hsw;
      now repeat constructor.
  - rewrite (render_outputs num_is_true t inp Hn).
    apply Forall_app. split; [exact Hsw|].
    apply Forall_app. split; [unfold kpi_outputs; now repeat constructor|].
    destruct (date_pair inp) as [[s e]|]; [|constructor].
    constructor; [reflexivity|].
    apply tab_outputs_no_unfiltered_placeholder.
    intros C. apply Hn. now rewrite count_rows_length, C.
Qed.

(** X18. The risk-level chart always has the three bars Low, Medium,
    High, in this order; each bar is the number of filtered rows of that
    level, zero when there is none; and on a table whose levels are these
    three names the bars add up to the number of rows. *)
Theorem X18_risk_level_bars :
  forall rows : list DashRow,
    risk_level_counts rows =
      [ ("Low"%string, Qnat (count_if (level_is "Low") rows));
        ("Medium"%string, Qnat (count_if (level_is "Medium") rows));
        ("High"%string, Qnat (count_if (level_is "High") rows)) ] /\
    ((forall r, In r rows -> In (d_risk_level r) RISK_LEVEL_ORDER) ->
     (count_if (level_is "Low") rows + count_if (level_is "Medium") rows +
      count_if (level_is "High") rows = List.length rows)%nat).
Proof.
  intros rows. split.
  - unfold risk_level_counts, RISK_LEVEL_ORDER. cbn [map].
    rewrite !(group_count_find string_dec String.leb d_risk_level String.eqb
                rows _ String.eqb_eq).
    repeat match goal with
    | |- context [in_dec string_dec ?l (map d_risk_level rows)] =>
        let H := fresh "H" in
        destruct (in_dec string_dec l (map d_risk_level rows)) as [H|H];
        [cbn [snd];
         rewrite (count_if_ext (key_is string_dec d_risk_level l) (level_is l) rows
                    (fun r _ => key_is_level l r))
        |rewrite <- (count_if_ext (key_is string_dec d_risk_level l) (level_is l) rows
                       (fun r _ => key_is_level l r)),
           (count_if_absent string_dec d_risk_level rows l H)]
    end; reflexivity.
  - intros Hv. unfold count_if.
    induction rows as [|r rows IH]; [reflexivity|].
    assert (Hr : In (d_risk_level r) RISK_LEVEL_ORDER) by (apply Hv; now left).
    specialize (IH (fun r' H' => Hv r' (or_intror H'))).
    cbn [filter]. unfold level_is in *. unfold RISK_LEVEL_ORDER in Hr.
    destruct Hr as [E|[E|[E|[]]]]; rewrite <- E;
      cbn [String.eqb Ascii.eqb Bool.eqb]; cbn [List.length]; lia.
Qed.

Lemma X18_witness :
  (count_if (level_is "Low") sample_table +
   count_if (level_is "Medium") sample_table +
   count_if (level_is "High") sample_table = List.length sample_table)%nat.
Proof.
  apply (proj2 (X18_risk_level_bars sample_table)). exact sample_levels.
Defined.

(** X19. The two counting metrics over the filtered rows.  "High Risk
    Events" is the number of rows at level High, at most the number of
    rows; "Total Unique Users" is at most the number of rows, and at
    least one when there are rows. *)
Theorem X19_metrics :
  forall rows : list DashRow,
    (total_high_risk_events rows == Qnat (count_if (level_is "High") rows))%Q /\
    (total_high_risk_events rows <= Qnat (List.length rows))%Q /\
    (total_unique_users rows <= Qnat (List.length rows))%Q /\
    (rows <> [] -> (1 <= total_unique_users rows)%Q).
Proof.
  intros rows.
  assert (Hh : (total_high_risk_events rows ==
                Qnat (count_if (level_is "High") rows))%Q).
  { unfold total_high_risk_events. apply (Qsum_indicator (level_is "High")). }
  split; [exact Hh|]. split; [|split].
  - rewrite Hh. apply Qnat_le. apply filter_length_le.
  - unfold total_unique_users. apply Qnat_le.
    rewrite <- (length_map d_user rows).
    apply NoDup_incl_length; [apply NoDup_nodup|].
    intros u Hu. now apply nodup_In in Hu.
  - intros Hne.
    unfold total_unique_users. change 1%Q with (Qnat 1). apply Qnat_le.
    destruct rows as [|r rs]; [congruence|].
    assert (Hu : In (d_user r) (nodup string_dec (map d_user (r :: rs))))
      by (apply nodup_In; now left).
    destruct (nodup string_dec (map d_user (r :: rs)));
      [contradiction|simpl; lia].
Qed.

(** X20. The detail table shows the filtered rows of level High or
    Medium, in descending order of risk score, cut to the first 1000:
    min(1000, number of such rows) rows; every such row that is not
    shown has a risk score at most that of every shown row; and when
    there are at most 1000 of them all are shown. *)
Theorem X20_detail_table :
  forall (num_is_true : fval -> bool) (w : list Cond) (t : list DashRow),
    let flagged :=
      select_rows num_is_true (and_cond w (RiskLevelIn ["High"; "Medium"]%string)) t in
    let shown := flagged_details num_is_true w t in
    List.length shown = Nat.min 1000 (List.length flagged) /\
    (forall r, In r shown ->
       In r t /\ eval_where num_is_true w r = true /\
       (d_risk_level r = "High"%string \/ d_risk_level r = "Medium"%string)) /\
    StronglySorted (fun a b => (d_risk_score b <= d_risk_score a)%Q) shown /\
    (forall a b, In a shown -> In b flagged -> ~ In b shown ->
                 (d_risk_score b <= d_risk_score a)%Q) /\
    ((List.length flagged <= 1000)%nat -> Permutation shown flagged).
Proof.
  intros num_is_true w t flagged shown.
  set (geb := fun a b : DashRow => Qle_bool (d_risk_score b) (d_risk_score a)).
  assert (Hs : StronglySorted (fun a b => (d_risk_score b <= d_risk_score a)%Q)
                 (stable_sort geb flagged)).
  { apply StronglySorted_weaken
      with (R := fun a b => geb a b = true) (P := fun _ => True).
    - intros a b _ _ H. now apply Qle_bool_iff.
    - apply Forall_forall. auto.
    - apply stable_sort_sorted.
      + intros a b. apply Qle_bool_total.
      + intros a b c H1 H2. unfold geb in *.
        eapply Qle_bool_trans; eassumption. }
  assert (Hshown : shown = firstn 1000 (stable_sort geb flagged)) by reflexivity.
  assert (Hsub : forall r, In r shown -> In r flagged).
  { intros r Hr. rewrite Hshown in Hr. apply (stable_sort_In geb).
    rewrite <- (firstn_skipn 1000 (stable_sort geb flagged)).
    apply in_or_app. now left. }
  split; [|split; [|split; [|split]]].
  - rewrite Hshown, length_firstn, stable_sort_length. reflexivity.
  - intros r Hr. apply Hsub in Hr. unfold flagged in Hr.
    apply select_rows_In in Hr. destruct Hr as [Hr Hw].
    unfold and_cond in Hw. rewrite eval_where_app, andb_true_iff in Hw.
    destruct Hw as [Hw Hl]. split; [exact Hr|]. split; [exact Hw|].
    cbn [eval_where forallb eval_cond] in Hl. rewrite andb_true_r in Hl.
    apply string_in_In in Hl. destruct Hl as [<-|[<-|[]]]; auto.
  - rewrite Hshown. now apply StronglySorted_firstn.
  - intros a b Ha Hb Hnb. rewrite Hshown in Ha, Hnb.
    apply (@sorted_top _ (fun a b => (d_risk_score b <= d_risk_score a)%Q)
             1000 (stable_sort geb flagged) a b); try assumption.
    now apply stable_sort_In.
  - intros Hle. rewrite Hshown, firstn_all2
      by (rewrite stable_sort_length; exact Hle).
    symmetry. apply stable_sort_perm.
Qed.

Lemma X20_witness :
  In (dash_row_of (sample_scored_row 3)) sample_table /\
  eval_where num_is_one (query_conditions sample_inputs)
    (dash_row_of (sample_scored_row 3)) = true /\
  (d_risk_level (dash_row_of (sample_scored_row 3)) = "High"%string \/
   d_risk_level (dash_row_of (sample_scored_row 3)) = "Medium"%string).
Proof.
  apply (proj1 (proj2 (X20_detail_table num_is_one
                         (query_conditions sample_inputs) sample_table))).
  in_list.
Defined.

(** X21. The top-users chart, over the rows it is given: at most ten
    users, each once, each with the number of its rows, at least one, in
    descending order of that number; a user that is left out has at most
    as many rows as every user shown. *)
Theorem X21_top_users :
  forall rows : list DashRow,
    let shown := top_users rows in
    (List.length shown <= 10)%nat /\
    NoDup (map fst shown) /\
    (forall u n, In (u, n) shown ->
       n = count_if (user_is u) rows /\ (1 <= n)%nat) /\
    StronglySorted (fun a b => (snd b <= snd a)%nat) shown /\
    (forall a r, In a shown -> In r rows -> ~ In (d_user r) (map fst shown) ->
                 (count_if (user_is (d_user r)) rows <= snd a)%nat).
Proof.
  intros rows shown.
  set (G := group_count string_dec String.leb d_user rows).
  set (geb := fun a b : string * nat => Nat.leb (snd b) (snd a)).
  assert (Hshown : shown = firstn 10 (stable_sort geb G)) by reflexivity.
  assert (Hs : StronglySorted (fun a b => (snd b <= snd a)%nat)
                 (stable_sort geb G)).
  { apply StronglySorted_weaken
      with (R := fun a b => geb a b = true) (P := fun _ => True).
    - intros a b _ _ H. now apply Nat.leb_le.
    - apply Forall_forall. auto.
    - apply stable_sort_sorted.
      + intros a b. unfold geb. rewrite !Nat.leb_le. lia.
      + intros a b c. unfold geb. rewrite !Nat.leb_le. lia. }
  assert (HG : forall u n, In (u, n) G ->
                 n = count_if (user_is u) rows /\ (1 <= n)%nat).
  { intros u n H. apply group_count_In in H. destruct H as (E & Hn & _).
    split; [|exact Hn]. rewrite E. apply count_if_ext.
    intros r _. apply key_is_user. }
  assert (Hsub : forall a, In a shown -> In a G).
  { intros a Ha. rewrite Hshown in Ha. apply (stable_sort_In geb).
    rewrite <- (firstn_skipn 10 (stable_sort geb G)).
    apply in_or_app. now left. }
  split; [|split; [|split; [|split]]].
  - rewrite Hshown, length_firstn. lia.
  - rewrite Hshown, <- firstn_map. apply NoDup_firstn.
    apply (Permutation_NoDup (l := map fst G)).
    + apply Permutation_map, stable_sort_perm.
    + unfold G. rewrite group_count_keys. apply sorted_distinct_NoDup.
  - intros u n H. apply HG. now apply Hsub.
  - rewrite Hshown. now apply StronglySorted_firstn.
  - intros a r Ha Hr Hout.
    set (b := (d_user r, count_if (key_is string_dec d_user (d_user r)) rows)).
    assert (Hb : In b G).
    { unfold G, group_count. apply in_map_iff. exists (d_user r).
      split; [reflexivity|]. apply sorted_distinct_In. now apply in_map. }
    assert (Hnb : ~ In b (firstn 10 (stable_sort geb G))).
    { intros C. apply Hout. rewrite Hshown.
      apply (in_map fst) in C. exact C. }
    rewrite Hshown in Ha.
    assert (Hb' : In b (stable_sort geb G)) by now apply stable_sort_In.
    pose proof (@sorted_top _ (fun a b => (snd b <= snd a)%nat) 10
                  (stable_sort geb G) a b Hs Ha Hb' Hnb) as Hle.
    cbn [snd b] in Hle.
    rewrite <- (@count_if_ext _ (key_is string_dec d_user (d_user r))
                  (user_is (d_user r)) rows (fun x _ => key_is_user (d_user r) x)).
    exact Hle.
Qed.

Lemma X21_witness :
  4%nat = count_if (user_is "alice") sample_table /\ (1 <= 4)%nat.
Proof.
  apply (proj1 (proj2 (proj2 (X21_top_users sample_table)))).
  in_list.
Defined.

(** X22. The options of the user multi-select are the users that have a
    row in the date range (every user of the table when the range is
    incomplete), each once, in ascending order. *)
Theorem X22_user_options :
  forall (num_is_true : fval -> bool) (t : list DashRow) (inp : Inputs),
    (forall u, In u (all_users num_is_true t inp) <->
       exists r, In r t /\ d_user r = u /\
                 match date_pair inp with
                 | Some (s, e) => (s <= d_date r <= e)%Z
                 | None => True
                 end) /\
    NoDup (all_users num_is_true t inp) /\
    StronglySorted (fun a b => String.leb a b = true)
                   (all_users num_is_true t inp).
Proof.
  intros num_is_true t inp. unfold all_users. split; [|split].
  - intros u. rewrite sorted_distinct_In, in_map_iff. split.
    + intros [r [Eu Hr]]. apply select_rows_In in Hr. destruct Hr as [Hr Hd].
      apply date_conditions_eval in Hd. exists r. auto.
    + intros [r (Hr & Eu & Hd)]. exists r. split; [exact Eu|].
      apply select_rows_In. split; [exact Hr|].
      now apply date_conditions_eval.
  - apply sorted_distinct_NoDup.
  - unfold sorted_distinct. apply stable_sort_sorted.
    + apply String.leb_total.
    + apply string_leb_trans.
Qed.

(** X23. Grouping loses no row and counts none twice.  The days of the
    trend chart are distinct and ascending, and the daily sums of a
    column add up to the sum of the column over the filtered rows; the
    counts of a grouped count (per day, per user, per hour, per weekday)
    have distinct keys and add up to the number of rows grouped. *)
Theorem X23_grouping_conserves :
  forall (col : DashRow -> Q) (rows : list DashRow),
    StronglySorted Z.lt (map fst (daily_sums col rows)) /\
    (Qsum (map snd (daily_sums col rows)) == Qsum (map col rows))%Q /\
    (forall (K : Type) (eq_dec : forall a b : K, {a = b} + {a <> b})
            (leb : K -> K -> bool) (kf : DashRow -> K),
        NoDup (map fst (group_count eq_dec leb kf rows)) /\
        list_sum (map snd (group_count eq_dec leb kf rows)) = List.length rows).
Proof.
  intros col rows. split; [|split].
  - unfold daily_sums. rewrite map_map. cbn [fst]. rewrite map_id.
    apply StronglySorted_lt; [|apply sorted_distinct_NoDup].
    unfold sorted_distinct. apply stable_sort_sorted.
    + intros a b. rewrite !Z.leb_le. lia.
    + intros a b c. rewrite !Z.leb_le. lia.
  - unfold daily_sums. rewrite map_map. cbn [snd].
    apply (@group_sums_sum _ d_date (fun d r => Z.eqb (d_date r) d)).
    + intros k r. apply Z.eqb_eq.
    + apply sorted_distinct_NoDup.
    + intros r Hr. apply sorted_distinct_In. now apply in_map.
  - intros K eq_dec leb kf. split.
    + rewrite group_count_keys. apply sorted_distinct_NoDup.
    + unfold group_count. rewrite map_map. cbn [snd].
      apply (@group_lengths_sum _ kf
               (fun k r => if eq_dec (kf r) k then true else false)).
      * intros k r. destruct (eq_dec (kf r) k); split; congruence.
      * apply sorted_distinct_NoDup.
      * intros r Hr. apply sorted_distinct_In. now apply in_map.
Qed.
